(** * V-Compass: geodesy, detection, tracking loop and narration queue

    A shallow embedding of the three React front ends of the repository:

    - [SkyPing]       : [src/src/App.jsx] (mock data only, compound phrases);
    - [VCompass]      : the first file of [src/unnamed/part_000] (lines 1-366:
                        live and mock mode, named intercardinals, one shared
                        [<audio>] element, [stopAllAudio]);
    - [VCompassLocal] : the second file of [src/unnamed/part_000] (lines
                        367-724: live polling of the local backend, compound
                        phrases, [requestAnimationFrame] needle rotation).

    JavaScript numbers are IEEE 754 binary64 values and are modelled by Rocq's
    primitive floats; React state and refs are modelled by explicit state
    passing; timers and effects by an explicit record of registered timers;
    the asynchronous [fetchRealPlaneData] by the list of the requests in
    flight, each with the cells its closure holds. *)

From Stdlib Require Import ZArith List String Ascii Bool Lia Floats.
From Stdlib Require Import DecimalString DecimalN Sorted.
Import ListNotations.
Set Warnings "-inexact-float".
Open Scope string_scope.
Open Scope float_scope.

(* ================================================================== *)
(** * Definitions *)
(* ================================================================== *)

(** ** JavaScript numbers *)

Module JS.

(** A number of JavaScript is a binary64 float. *)
Definition number : Set := float.

(** The position of a number in the order that [<] and [<=] decide: [None]
    for NaN (every comparison with NaN is false), otherwise a key that is
    compared lexicographically.  Both zeros share a key. *)
Definition rank (x : number) : option (Z * Z * Z) :=
  match Prim2SF x with
  | S754_nan => None
  | S754_infinity true => Some (0, 0, 0)%Z
  | S754_finite true m e => Some (1, - e, - Zpos m)%Z
  | S754_zero _ => Some (2, 0, 0)%Z
  | S754_finite false m e => Some (3, e, Zpos m)%Z
  | S754_infinity false => Some (4, 0, 0)%Z
  end.

Definition keyltb (r s : Z * Z * Z) : bool :=
  let '(a, b, c) := r in
  let '(a', b', c') := s in
  ((a <? a') || ((a =? a') && ((b <? b') || ((b =? b') && (c <? c')))))%Z.

Definition keyleb (r s : Z * Z * Z) : bool :=
  let '(a, b, c) := r in
  let '(a', b', c') := s in
  ((a <? a') || ((a =? a') && ((b <? b') || ((b =? b') && (c <=? c')))))%Z.

(** [!Number.isNaN(x)]. *)
Definition isNumber (x : number) : bool :=
  match rank x with Some _ => true | None => false end.

(** Truthiness of a number: [0], [-0] and [NaN] are falsy. *)
Definition truthy (x : number) : bool :=
  match Prim2SF x with
  | S754_nan | S754_zero _ => false
  | _ => true
  end.

(** [n % d], the remainder of the truncating division; it is exact and
    takes the sign of the dividend. *)
Definition rem (n d : number) : number :=
  match Prim2SF n, Prim2SF d with
  | S754_nan, _ | _, S754_nan => nan
  | S754_infinity _, _ => nan
  | _, S754_zero _ => nan
  | S754_zero _, _ => n
  | S754_finite _ _ _, S754_infinity _ => n
  | S754_finite sn mn en, S754_finite _ md ed =>
      let e := Z.min en ed in
      let a := (Zpos mn * 2 ^ (en - e))%Z in
      let b := (Zpos md * 2 ^ (ed - e))%Z in
      let r := Z.ldexp (of_uint63 (Uint63.of_Z (a mod b))) e in
      if sn then - r else r
  end.

(** [Math.floor(x)] of a finite number, as an integer. *)
Definition floorZ (x : number) : option Z :=
  match Prim2SF x with
  | S754_zero _ => Some 0%Z
  | S754_finite s m e =>
      let v := if s then Zneg m else Zpos m in
      Some (if (0 <=? e)%Z then v * 2 ^ e else v / 2 ^ (- e))%Z
  | _ => None
  end.

(** The decimal numeral of a non-negative integer, as string
    concatenation ['mock' + Date.now()] renders it. *)
Definition toString (n : N) : string :=
  NilEmpty.string_of_uint (N.to_uint n).

Definition toStringZ (z : Z) : string :=
  match z with
  | Zneg p => "-" ++ toString (Npos p)
  | _ => toString (Z.to_N z)
  end.

(** [Math.PI]. *)
Definition PI : number := 3.141592653589793.

(** The functions of [Math] that ECMAScript leaves to the implementation
    ("implementation-approximated").  [Math.sqrt] is the correctly rounded
    square root of IEEE 754. *)
Class Math : Set := {
  sin : number -> number;
  cos : number -> number;
  atan2 : number -> number -> number
}.

End JS.

(** ** A reference [Math]

    A plain series implementation, used to run the programs on concrete
    inputs. *)

Module RefMath.

Fixpoint sinSeries (fuel : nat) (k : JS.number) (term x2 acc : JS.number) : JS.number :=
  match fuel with
  | O => acc
  | S fuel' =>
      let term' := - term * x2 / ((k + 1) * (k + 2)) in
      sinSeries fuel' (k + 2) term' x2 (acc + term')
  end.

(** Reduce to [-pi, pi], then sum the Taylor series. *)
Definition reduce (x : JS.number) : JS.number :=
  let twoPi := 2 * JS.PI in
  let r := JS.rem x twoPi in
  if JS.PI <? r then r - twoPi
  else if r <? - JS.PI then r + twoPi
  else r.

Definition sin (x : JS.number) : JS.number :=
  let r := reduce x in
  sinSeries 16 1 r (r * r) r.

Definition cos (x : JS.number) : JS.number :=
  let r := reduce x in
  sinSeries 16 0 1 (r * r) 1.

Fixpoint atanSeries (fuel : nat) (k : JS.number) (pow x2 acc : JS.number) : JS.number :=
  match fuel with
  | O => acc
  | S fuel' =>
      let pow' := - pow * x2 in
      atanSeries fuel' (k + 2) pow' x2 (acc + pow' / (k + 2))
  end.

(** [atan] for [0 <= t <= 1]: three half-angle reductions, then the series. *)
Definition atan01 (t : JS.number) : JS.number :=
  let h := fun u => u / (1 + sqrt (1 + u * u)) in
  let u := h (h (h t)) in
  8 * atanSeries 12 1 u (u * u) u.

Definition atanPos (t : JS.number) : JS.number :=
  if t <=? 1 then atan01 t else JS.PI / 2 - atan01 (1 / t).

Definition atan2 (y x : JS.number) : JS.number :=
  if 0 <? x then
    (if y <? 0 then - atanPos (- y / x) else atanPos (y / x))
  else if x <? 0 then
    (if y <? 0 then atanPos (y / x) - JS.PI else JS.PI - atanPos (- y / x))
  else if 0 <? y then JS.PI / 2
  else if y <? 0 then - (JS.PI / 2)
  else y.

Definition math : JS.Math :=
  {| JS.sin := sin; JS.cos := cos; JS.atan2 := atan2 |}.

End RefMath.

(** ** Geodesy

    [calculateDistance] and [calculateBearing] are textually the same in the
    three files (App.jsx 9-27, part_000 12-30 and 375-393). *)

Section Geodesy.

Context {M : JS.Math}.

Definition calculateDistance (lat1 lon1 lat2 lon2 : JS.number) : JS.number :=
  let R := 6371 in
  let dLat := (lat2 - lat1) * JS.PI / 180 in
  let dLon := (lon2 - lon1) * JS.PI / 180 in
  let a := JS.sin (dLat / 2) * JS.sin (dLat / 2) +
           JS.cos (lat1 * JS.PI / 180) * JS.cos (lat2 * JS.PI / 180) *
           JS.sin (dLon / 2) * JS.sin (dLon / 2) in
  let c := 2 * JS.atan2 (sqrt a) (sqrt (1 - a)) in
  R * c.

Definition toRad (deg : JS.number) : JS.number := deg * JS.PI / 180.
Definition toDeg (rad : JS.number) : JS.number := rad * 180 / JS.PI.

Definition calculateBearing (lat1 lon1 lat2 lon2 : JS.number) : JS.number :=
  let y := JS.sin (toRad (lon2 - lon1)) * JS.cos (toRad lat2) in
  let x := JS.cos (toRad lat1) * JS.sin (toRad lat2) -
           JS.sin (toRad lat1) * JS.cos (toRad lat2) * JS.cos (toRad (lon2 - lon1)) in
  JS.rem (toDeg (JS.atan2 y x) + 360) 360.

End Geodesy.

(** ** Sector classification *)

(** The first branch of an [if]-chain whose guard holds. *)
Fixpoint firstMatch {A : Type} (branches : list (bool * A)) (fallback : A) : A :=
  match branches with
  | [] => fallback
  | (guard, value) :: rest => if guard then value else firstMatch rest fallback
  end.

(** The guards of the eight [if] statements of [getDirectionPhrase], in source
    order; they are the same in the three files. *)
Definition sectorGuards (bearing : JS.number) : list bool :=
  [ (337.5 <? bearing) || (bearing <=? 22.5);
    (22.5 <? bearing) && (bearing <=? 67.5);
    (67.5 <? bearing) && (bearing <=? 112.5);
    (112.5 <? bearing) && (bearing <=? 157.5);
    (157.5 <? bearing) && (bearing <=? 202.5);
    (202.5 <? bearing) && (bearing <=? 247.5);
    (247.5 <? bearing) && (bearing <=? 292.5);
    (292.5 <? bearing) && (bearing <=? 337.5) ].

(** The number of guards that hold. *)
Definition matching (guards : list bool) : nat :=
  List.length (List.filter (fun g => g) guards).

(** Compound policy: App.jsx 29-39 and part_000 395-405. *)
Module Compound.

Definition getDirectionPhrase (bearing : JS.number) : list string :=
  if (337.5 <? bearing) || (bearing <=? 22.5) then ["North"]
  else if (22.5 <? bearing) && (bearing <=? 67.5) then ["between"; "North"; "and"; "East"]
  else if (67.5 <? bearing) && (bearing <=? 112.5) then ["East"]
  else if (112.5 <? bearing) && (bearing <=? 157.5) then ["between"; "East"; "and"; "South"]
  else if (157.5 <? bearing) && (bearing <=? 202.5) then ["South"]
  else if (202.5 <? bearing) && (bearing <=? 247.5) then ["between"; "South"; "and"; "West"]
  else if (247.5 <? bearing) && (bearing <=? 292.5) then ["West"]
  else if (292.5 <? bearing) && (bearing <=? 337.5) then ["between"; "West"; "and"; "North"]
  else [].

Definition phrases : list (list string) :=
  [ ["North"]; ["between"; "North"; "and"; "East"]; ["East"];
    ["between"; "East"; "and"; "South"]; ["South"];
    ["between"; "South"; "and"; "West"]; ["West"];
    ["between"; "West"; "and"; "North"] ].

End Compound.

(** Named-intercardinal policy: part_000 32-42. *)
Module Named.

Definition getDirectionPhrase (bearing : JS.number) : list string :=
  if (337.5 <? bearing) || (bearing <=? 22.5) then ["North"]
  else if (22.5 <? bearing) && (bearing <=? 67.5) then ["NorthEast"]
  else if (67.5 <? bearing) && (bearing <=? 112.5) then ["East"]
  else if (112.5 <? bearing) && (bearing <=? 157.5) then ["EastSouth"]
  else if (157.5 <? bearing) && (bearing <=? 202.5) then ["South"]
  else if (202.5 <? bearing) && (bearing <=? 247.5) then ["SouthWest"]
  else if (247.5 <? bearing) && (bearing <=? 292.5) then ["West"]
  else if (292.5 <? bearing) && (bearing <=? 337.5) then ["NorthWest"]
  else [].

Definition phrases : list (list string) :=
  [ ["North"]; ["NorthEast"]; ["East"]; ["EastSouth"]; ["South"];
    ["SouthWest"]; ["West"]; ["NorthWest"] ].

End Named.


(** ** Data model *)

(** [userLocation]: [{ lat, lng }]. *)
Module LatLng.
Record t : Set := make { lat : JS.number; lng : JS.number }.
End LatLng.

(** An entry of [data.planes], and the mock plane of part_000. *)
Record Plane : Set := {
  icao24 : string;
  callsign : string;
  lat : JS.number;
  lon : JS.number;
  altitude_m : JS.number;
  velocity_ms : JS.number
}.

(** [{ ...plane, altitude_ft }], with [isMock] when the object has it. *)
Record Detected : Set := {
  plane : Plane;
  altitude_ft : JS.number;
  isMock : option bool
}.

(** The state of the [App] component: the [useState] cells, the [useRef]
    cells, and what the audio elements are doing.  A cell that a file does
    not declare keeps its initial value there.

    - [detectedPlaneRef] and [userLocationRef] stand for the identity of the
      object a cell holds: every [setDetectedPlane(obj)] and
      [setUserLocation(obj)] stores a fresh object, which React's dependency
      comparison ([Object.is]) tells apart from the previous one;
    - [playing] lists the clips that are sounding;
    - [notificationPlays] counts the [play()] calls on the notification
      sound, the "new detection" signal. *)
Record State (P : Type) : Type := {
  isTracking : bool;
  isMockMode : bool;
  userLocation : option LatLng.t;
  userLocationRef : nat;
  detectedPlane : option P;
  detectedPlaneRef : nat;
  bearing : JS.number;
  statusMessage : string;
  audioQueue : list string;
  isSpeaking : bool;
  playing : list string;
  notificationPlays : nat
}.

Arguments isTracking {P} _.
Arguments isMockMode {P} _.
Arguments userLocation {P} _.
Arguments userLocationRef {P} _.
Arguments detectedPlane {P} _.
Arguments detectedPlaneRef {P} _.
Arguments bearing {P} _.
Arguments statusMessage {P} _.
Arguments audioQueue {P} _.
Arguments isSpeaking {P} _.
Arguments playing {P} _.
Arguments notificationPlays {P} _.

Section Setters.

Context {P : Type}.

Definition setIsTracking (v : bool) (st : State P) : State P :=
  {| isTracking := v; isMockMode := isMockMode st;
     userLocation := userLocation st; userLocationRef := userLocationRef st;
     detectedPlane := detectedPlane st; detectedPlaneRef := detectedPlaneRef st;
     bearing := bearing st; statusMessage := statusMessage st;
     audioQueue := audioQueue st; isSpeaking := isSpeaking st;
     playing := playing st; notificationPlays := notificationPlays st |}.

Definition setIsMockMode (v : bool) (st : State P) : State P :=
  {| isTracking := isTracking st; isMockMode := v;
     userLocation := userLocation st; userLocationRef := userLocationRef st;
     detectedPlane := detectedPlane st; detectedPlaneRef := detectedPlaneRef st;
     bearing := bearing st; statusMessage := statusMessage st;
     audioQueue := audioQueue st; isSpeaking := isSpeaking st;
     playing := playing st; notificationPlays := notificationPlays st |}.

(** [setUserLocation({ lat, lng })]: always called with a fresh object. *)
Definition setUserLocation (v : LatLng.t) (st : State P) : State P :=
  {| isTracking := isTracking st; isMockMode := isMockMode st;
     userLocation := Some v; userLocationRef := S (userLocationRef st);
     detectedPlane := detectedPlane st; detectedPlaneRef := detectedPlaneRef st;
     bearing := bearing st; statusMessage := statusMessage st;
     audioQueue := audioQueue st; isSpeaking := isSpeaking st;
     playing := playing st; notificationPlays := notificationPlays st |}.

(** [setDetectedPlane(v)]: [null], or a fresh object. *)
Definition setDetectedPlane (v : option P) (st : State P) : State P :=
  {| isTracking := isTracking st; isMockMode := isMockMode st;
     userLocation := userLocation st; userLocationRef := userLocationRef st;
     detectedPlane := v;
     detectedPlaneRef := match v with
                         | Some _ => S (detectedPlaneRef st)
                         | None => detectedPlaneRef st
                         end;
     bearing := bearing st; statusMessage := statusMessage st;
     audioQueue := audioQueue st; isSpeaking := isSpeaking st;
     playing := playing st; notificationPlays := notificationPlays st |}.

Definition setBearing (v : JS.number) (st : State P) : State P :=
  {| isTracking := isTracking st; isMockMode := isMockMode st;
     userLocation := userLocation st; userLocationRef := userLocationRef st;
     detectedPlane := detectedPlane st; detectedPlaneRef := detectedPlaneRef st;
     bearing := v; statusMessage := statusMessage st;
     audioQueue := audioQueue st; isSpeaking := isSpeaking st;
     playing := playing st; notificationPlays := notificationPlays st |}.

Definition setStatusMessage (v : string) (st : State P) : State P :=
  {| isTracking := isTracking st; isMockMode := isMockMode st;
     userLocation := userLocation st; userLocationRef := userLocationRef st;
     detectedPlane := detectedPlane st; detectedPlaneRef := detectedPlaneRef st;
     bearing := bearing st; statusMessage := v;
     audioQueue := audioQueue st; isSpeaking := isSpeaking st;
     playing := playing st; notificationPlays := notificationPlays st |}.

(** [audioQueue.current = v]. *)
Definition setAudioQueue (v : list string) (st : State P) : State P :=
  {| isTracking := isTracking st; isMockMode := isMockMode st;
     userLocation := userLocation st; userLocationRef := userLocationRef st;
     detectedPlane := detectedPlane st; detectedPlaneRef := detectedPlaneRef st;
     bearing := bearing st; statusMessage := statusMessage st;
     audioQueue := v; isSpeaking := isSpeaking st;
     playing := playing st; notificationPlays := notificationPlays st |}.

(** [isSpeaking.current = v]. *)
Definition setIsSpeaking (v : bool) (st : State P) : State P :=
  {| isTracking := isTracking st; isMockMode := isMockMode st;
     userLocation := userLocation st; userLocationRef := userLocationRef st;
     detectedPlane := detectedPlane st; detectedPlaneRef := detectedPlaneRef st;
     bearing := bearing st; statusMessage := statusMessage st;
     audioQueue := audioQueue st; isSpeaking := v;
     playing := playing st; notificationPlays := notificationPlays st |}.

Definition setPlaying (v : list string) (st : State P) : State P :=
  {| isTracking := isTracking st; isMockMode := isMockMode st;
     userLocation := userLocation st; userLocationRef := userLocationRef st;
     detectedPlane := detectedPlane st; detectedPlaneRef := detectedPlaneRef st;
     bearing := bearing st; statusMessage := statusMessage st;
     audioQueue := audioQueue st; isSpeaking := isSpeaking st;
     playing := v; notificationPlays := notificationPlays st |}.

(** [play()] on the notification sound. *)
Definition playNotificationSound (st : State P) : State P :=
  {| isTracking := isTracking st; isMockMode := isMockMode st;
     userLocation := userLocation st; userLocationRef := userLocationRef st;
     detectedPlane := detectedPlane st; detectedPlaneRef := detectedPlaneRef st;
     bearing := bearing st; statusMessage := statusMessage st;
     audioQueue := audioQueue st; isSpeaking := isSpeaking st;
     playing := playing st; notificationPlays := S (notificationPlays st) |}.

(** The state at mount: every [useState] and [useRef] initial value. *)
Definition initialState (status : string) : State P :=
  {| isTracking := false; isMockMode := false;
     userLocation := None; userLocationRef := 0;
     detectedPlane := None; detectedPlaneRef := 0;
     bearing := 0; statusMessage := status;
     audioQueue := []; isSpeaking := false;
     playing := []; notificationPlays := 0 |}.

(** [getLocation], in a browser that has [navigator.geolocation]: the status
    line it sets; the position arrives later, through one of the two
    callbacks of [getCurrentPosition]. *)
Definition getLocation (st : State P) : State P :=
  setStatusMessage "Getting your location..." st.

(** The fallback position of the error callback. *)
Definition defaultLocation : LatLng.t := LatLng.make 10.5925 76.1555.

End Setters.

(** [useEffect]: after a commit, an effect whose dependencies changed is
    cleaned up and set up again; otherwise what it registered stays. *)
Definition useEffect {T : Type} (depsChanged : bool) (registered setup : T) : T :=
  if depsChanged then setup else registered.

Definition isSome {A : Type} (o : option A) : bool :=
  match o with Some _ => true | None => false end.

(** The identity of what an object-valued cell holds, as [Object.is] sees
    it: [null], or the object stored by the [ref]-th call of the setter. *)
Definition identity {A : Type} (cell : option A) (ref : nat) : option nat :=
  match cell with Some _ => Some ref | None => None end.

Definition sameIdentity (a b : option nat) : bool :=
  match a, b with
  | None, None => true
  | Some m, Some n => Nat.eqb m n
  | _, _ => false
  end.

(** ** Detection: the loop over [data.planes]

    part_000 186-200 and 515-533; the two files agree on the loop and on the
    two thresholds. *)

Definition NOTIFICATION_RADIUS_KM : JS.number := 30.
Definition MINIMUM_ALTITUDE_FT : JS.number := 10000.

(** The three variables the loop assigns. *)
Record Closest : Set := {
  closestPlaneForNotification : option Detected;
  closestPlaneForCompass : option Plane;
  minDistance : JS.number
}.

(** What a failed or a successful [fetch] hands to the rest of the poll:
    anything thrown inside [try] ends in the [catch] block. *)
Inductive FetchResult : Set :=
| FetchError
| FetchOk (planes : list Plane).

(** What a call of [fetchRealPlaneData] carries across its [await]: the
    [userLocation] and the [detectedPlane] of the render that created the
    callback ([useCallback] with these two cells as dependencies, part_000
    219 and 557).  The part that runs when the response arrives reads these,
    not the cells of that moment. *)
Record Fetch : Set := {
  seenLocation : LatLng.t;
  seenPlane : option Detected
}.

(** The list without its [k]-th element. *)
Definition without {A : Type} (k : nat) (l : list A) : list A :=
  (firstn k l ++ skipn (S k) l)%list.

(** The fetch a call has put in flight, when it has. *)
Definition started (f : option Fetch) : list Fetch :=
  match f with Some f => [f] | None => [] end.

Section Detection.

Context {M : JS.Math}.

(** [let] declarations before the loop. *)
Definition noneYet : Closest :=
  {| closestPlaneForNotification := None;
     closestPlaneForCompass := None;
     minDistance := infinity |}.

(** One iteration of [for (const plane of data.planes)]. *)
Definition scanPlane (userLocation : LatLng.t) (acc : Closest) (plane : Plane) : Closest :=
  let distance :=
    calculateDistance (LatLng.lat userLocation) (LatLng.lng userLocation)
                      (lat plane) (lon plane) in
  let acc :=
    if distance <? minDistance acc
    then {| closestPlaneForNotification := closestPlaneForNotification acc;
            closestPlaneForCompass := Some plane;
            minDistance := distance |}
    else acc in
  let altitudeFt := altitude_m plane * 3.28084 in
  if (distance <? NOTIFICATION_RADIUS_KM) && (MINIMUM_ALTITUDE_FT <? altitudeFt)
  then {| closestPlaneForNotification :=
            Some {| plane := plane; altitude_ft := altitudeFt; isMock := None |};
          closestPlaneForCompass := closestPlaneForCompass acc;
          minDistance := minDistance acc |}
  else acc.

Definition scanPlanes (userLocation : LatLng.t) (planes : list Plane) : Closest :=
  fold_left (scanPlane userLocation) planes noneYet.

(** The distance of a sighting from the user, and the admission test, as the
    loop computes them. *)
Definition distanceTo (userLocation : LatLng.t) (plane : Plane) : JS.number :=
  calculateDistance (LatLng.lat userLocation) (LatLng.lng userLocation)
                    (lat plane) (lon plane).

Definition bearingTo (userLocation : LatLng.t) (plane : Plane) : JS.number :=
  calculateBearing (LatLng.lat userLocation) (LatLng.lng userLocation)
                   (lat plane) (lon plane).

Definition qualifies (userLocation : LatLng.t) (plane : Plane) : bool :=
  (distanceTo userLocation plane <? NOTIFICATION_RADIUS_KM)
  && (MINIMUM_ALTITUDE_FT <? altitude_m plane * 3.28084).

(** [{ ...plane, altitude_ft: altitudeFt }]. *)
Definition withAltitudeFt (plane : Plane) : Detected :=
  {| plane := plane; altitude_ft := altitude_m plane * 3.28084; isMock := None |}.

(** [!detectedPlane || detectedPlane.icao24 !== id]. *)
Definition isNewPlane (detectedPlane : option Detected) (id : string) : bool :=
  match detectedPlane with
  | None => true
  | Some d => negb (String.eqb (icao24 (plane d)) id)
  end.

(** The successive results of [Math.random()] in [mockFetchPlaneData]. *)
Record MockDraw : Set := {
  forCallsign : JS.number;
  forLat : JS.number;
  forLon : JS.number;
  forAltitude : JS.number;
  forVelocity : JS.number
}.

(** [prefix + Math.floor(x)]. *)
Definition appendFloor (prefix : string) (x : JS.number) : string :=
  prefix ++ match JS.floorZ x with
            | Some z => JS.toStringZ z
            | None => "NaN"
            end.

(** The object literal [mockPlane] of part_000 (153-160 and 564-571);
    [now] is [Date.now()]. *)
Definition mockPlane (userLocation : LatLng.t) (now : N) (draw : MockDraw) : Plane :=
  {| icao24 := "mock" ++ JS.toString now;
     callsign := appendFloor "MOCK " (forCallsign draw * 1000);
     lat := LatLng.lat userLocation + (forLat draw - 0.5) * 0.1;
     lon := LatLng.lng userLocation + (forLon draw - 0.5) * 0.1;
     altitude_m := (MINIMUM_ALTITUDE_FT + forAltitude draw * 20000) / 3.28084;
     velocity_ms := 200 + forVelocity draw * 100 |}.

(** [mockFetchPlaneData] of part_000 (149-176 and 560-587; the two agree up
    to how the notification sound is reached). *)
Definition mockFetchPlaneData (now : N) (draw : MockDraw) (st : State Detected)
  : State Detected :=
  match userLocation st with
  | None => st
  | Some location =>
      let st := setStatusMessage "Generating mock plane data..." st in
      let mockPlane := mockPlane location now draw in
      let distance :=
        calculateDistance (LatLng.lat location) (LatLng.lng location)
                          (lat mockPlane) (lon mockPlane) in
      let newBearing :=
        calculateBearing (LatLng.lat location) (LatLng.lng location)
                         (lat mockPlane) (lon mockPlane) in
      let altitudeFt := altitude_m mockPlane * 3.28084 in
      let st := setBearing newBearing st in
      if (distance <? NOTIFICATION_RADIUS_KM) && (MINIMUM_ALTITUDE_FT <? altitudeFt)
      then
        if isNewPlane (detectedPlane st) (icao24 mockPlane)
        then playNotificationSound
               (setDetectedPlane
                  (Some {| plane := mockPlane; altitude_ft := altitudeFt;
                           isMock := Some true |}) st)
        else st
      else setDetectedPlane None st
  end.

End Detection.

(** ** part_000, first file (lines 1-366) *)

Module VCompass.

Definition TRACKING_INTERVAL_MS : JS.number := 15000.
Definition MOCK_TRACKING_INTERVAL_MS : JS.number := 25000.

Definition soundFiles (name : string) : option string :=
  if String.eqb name "notification" then Some "/arfan-odraa.mp3"
  else if String.eqb name "North" then Some "/aruna-vadak.mp3"
  else if String.eqb name "South" then Some "/aruna-thekk.mp3"
  else if String.eqb name "East" then Some "/aruna-kizhakk.mp3"
  else if String.eqb name "West" then Some "/aruna-padinjaru.mp3"
  else if String.eqb name "NorthWest" then Some "/fadil-north-west.mp3"
  else if String.eqb name "NorthEast" then Some "/fadil-north-east.mp3"
  else if String.eqb name "SouthWest" then Some "/fadil-south-west.mp3"
  else if String.eqb name "EastSouth" then Some "/fadil-east-south.mp3"
  else None.

Definition getDirectionPhrase := Named.getDirectionPhrase.

Section App.

Context {M : JS.Math}.

(** [fetchRealPlaneData] (178-219), one poll; [result] is what the [fetch]
    of this poll produced. *)
Definition fetchRealPlaneData (result : FetchResult) (st : State Detected)
  : State Detected :=
  match userLocation st with
  | None => st
  | Some location =>
      let st := setStatusMessage "Scanning the skies for live data..." st in
      match result with
      | FetchError =>
          setStatusMessage "Error connecting to server. Is it running?" st
      | FetchOk planes =>
          let found := scanPlanes location planes in
          let st :=
            match closestPlaneForCompass found with
            | Some nearest =>
                let newBearing :=
                  calculateBearing (LatLng.lat location) (LatLng.lng location)
                                   (lat nearest) (lon nearest) in
                setBearing newBearing st
            | None => st
            end in
          match closestPlaneForNotification found with
          | Some candidate =>
              if isNewPlane (detectedPlane st) (icao24 (plane candidate))
              then playNotificationSound
                     (setDetectedPlane
                        (Some {| plane := plane candidate;
                                 altitude_ft := altitude_ft candidate;
                                 isMock := Some false |}) st)
              else st
          | None => setDetectedPlane None st
          end
      end
  end.

(** [fetchRealPlaneData] in two parts, for a response that arrives after
    other handlers have run.  [fetchStarts] is the call up to [await fetch]
    (179-182): without a position it returns at once, otherwise it sets the
    status line and the request leaves with what the closure holds. *)
Definition fetchStarts (st : State Detected) : State Detected * option Fetch :=
  match userLocation st with
  | None => (st, None)
  | Some location =>
      (setStatusMessage "Scanning the skies for live data..." st,
       Some {| seenLocation := location; seenPlane := detectedPlane st |})
  end.

(** [fetchLands] is the continuation (183-218), run on the state [st] of the
    moment the response arrives: the distances, the bearing and the test
    [!detectedPlane || detectedPlane.icao24 !== ...] read the closure [f];
    the setters act on [st].  Nothing in it looks at [isTracking] or
    [isMockMode], and nothing cancels a request. *)
Definition fetchLands (f : Fetch) (result : FetchResult) (st : State Detected)
  : State Detected :=
  match result with
  | FetchError =>
      setStatusMessage "Error connecting to server. Is it running?" st
  | FetchOk planes =>
      let found := scanPlanes (seenLocation f) planes in
      let st :=
        match closestPlaneForCompass found with
        | Some nearest =>
            let newBearing :=
              calculateBearing (LatLng.lat (seenLocation f)) (LatLng.lng (seenLocation f))
                               (lat nearest) (lon nearest) in
            setBearing newBearing st
        | None => st
        end in
      match closestPlaneForNotification found with
      | Some candidate =>
          if isNewPlane (seenPlane f) (icao24 (plane candidate))
          then playNotificationSound
                 (setDetectedPlane
                    (Some {| plane := plane candidate;
                             altitude_ft := altitude_ft candidate;
                             isMock := Some false |}) st)
          else st
      | None => setDetectedPlane None st
      end
  end.

(** [stopAllAudio] (250-257): the one [<audio>] element is paused and
    rewound, the queue emptied, the flag cleared. *)
Definition stopAllAudio {P : Type} (st : State P) : State P :=
  setIsSpeaking false (setAudioQueue [] (setPlaying [] st)).

(** [playNextInQueue] (259-277), with the queue it reads as an argument: the
    recursion follows the queue, a name without a sound file is dropped and
    the next one tried.  The [<audio>] element is mounted; setting [src] on
    it and calling [play()] replaces whatever it was playing. *)
Fixpoint playQueue {P : Type} (queue : list string) (st : State P) : State P :=
  match queue with
  | [] => setIsSpeaking false st
  | soundName :: rest =>
      let st := setIsSpeaking true (setAudioQueue rest st) in
      match soundFiles soundName with
      | Some soundSrc => setPlaying [soundSrc] st
      | None => playQueue rest st
      end
  end.

Definition playNextInQueue {P : Type} (st : State P) : State P :=
  playQueue (audioQueue st) st.

(** [handleSpeakDirection] (279-286).  Without a user location the read of
    [userLocation.lat] throws after [stopAllAudio] has run. *)
Definition handleSpeakDirection (st : State Detected) : State Detected :=
  if isSpeaking st || negb (isSome (detectedPlane st)) then st
  else
    let st := stopAllAudio st in
    match userLocation st, detectedPlane st with
    | Some location, Some detected =>
        let planeBearing :=
          calculateBearing (LatLng.lat location) (LatLng.lng location)
                           (lat (plane detected)) (lon (plane detected)) in
        let phrase := getDirectionPhrase planeBearing in
        playNextInQueue (setAudioQueue phrase st)
    | _, _ => st
    end.

(** [handleStartStopClick] (289-302). *)
Definition handleStartStopClick (st : State Detected) : State Detected :=
  let st := if isSome (userLocation st) then st else getLocation st in
  if isTracking st
  then setStatusMessage "Tracking stopped."
         (setIsTracking false (stopAllAudio st))
  else setStatusMessage "Live tracking activated..."
         (setIsTracking true
            (setDetectedPlane None (setIsMockMode false (stopAllAudio st)))).

(** [handleMockModeClick] (304-317). *)
Definition handleMockModeClick (st : State Detected) : State Detected :=
  let st := if isSome (userLocation st) then st else getLocation st in
  if isMockMode st
  then setStatusMessage "Mock mode stopped."
         (setIsMockMode false (stopAllAudio st))
  else setStatusMessage "Mock mode activated..."
         (setIsMockMode true
            (setDetectedPlane None (setIsTracking false (stopAllAudio st)))).

End App.

End VCompass.

(** ** Narration with one [Audio] object per token

    [audioRefs] and [playNextInQueue] of App.jsx (123-133, 211-225) and of the
    second file of part_000 (469-476, 653-667). *)

Module TokenAudio.

(** [audioRefs.current[name]]: the [Audio] object of a token, named by its
    key. *)
Definition audioRefs (name : string) : option string :=
  if String.eqb name "North" then Some "North"
  else if String.eqb name "South" then Some "South"
  else if String.eqb name "East" then Some "East"
  else if String.eqb name "West" then Some "West"
  else if String.eqb name "between" then Some "between"
  else if String.eqb name "and" then Some "and"
  else None.

(** [audio.currentTime = 0; audio.play()]: the object sounds from its start;
    the other objects are not touched. *)
Definition play {P : Type} (audio : string) (st : State P) : State P :=
  setPlaying (audio :: List.filter (fun a => negb (String.eqb a audio)) (playing st)) st.

Fixpoint playQueue {P : Type} (queue : list string) (st : State P) : State P :=
  match queue with
  | [] => setIsSpeaking false st
  | name :: rest =>
      let st := setIsSpeaking true (setAudioQueue rest st) in
      match audioRefs name with
      | Some audio => play audio st
      | None => playQueue rest st
      end
  end.

Definition playNextInQueue {P : Type} (st : State P) : State P :=
  playQueue (audioQueue st) st.

(** [audio.onended]: the object stops sounding and the next token is played. *)
Definition ended {P : Type} (audio : string) (st : State P) : State P :=
  if List.existsb (String.eqb audio) (playing st)
  then playNextInQueue
         (setPlaying (List.filter (fun a => negb (String.eqb a audio)) (playing st)) st)
  else st.

End TokenAudio.

(** ** src/src/App.jsx *)

Module SkyPing.

Definition NOTIFICATION_RADIUS_KM : JS.number := 5.
Definition MINIMUM_ALTITUDE_FT : JS.number := 10000.
Definition TRACKING_INTERVAL_MS : JS.number := 4000.

(** The mock plane of this file: [altitude] is in feet. *)
Record Plane : Set := {
  icao24 : string;
  callsign : string;
  lat : JS.number;
  lon : JS.number;
  altitude : JS.number;
  velocity : JS.number
}.

Definition getDirectionPhrase := Compound.getDirectionPhrase.

(** [!detectedPlane || detectedPlane.icao24 !== id]. *)
Definition isNewPlane (detectedPlane : option Plane) (id : string) : bool :=
  match detectedPlane with
  | None => true
  | Some d => negb (String.eqb (icao24 d) id)
  end.

Section App.

Context {M : JS.Math}.

(** The object literal [mockPlane] (167-174). *)
Definition mockPlane (userLocation : LatLng.t) (now : N) (draw : MockDraw) : Plane :=
  {| icao24 := "mock" ++ JS.toString now;
     callsign := appendFloor "SKYFUN " (forCallsign draw * 100);
     lat := LatLng.lat userLocation + (forLat draw - 0.5) * 0.1;
     lon := LatLng.lng userLocation + (forLon draw - 0.5) * 0.1;
     altitude := MINIMUM_ALTITUDE_FT + forAltitude draw * 20000;
     velocity := 200 + forVelocity draw * 100 |}.

(** [mockFetchPlaneData] (163-191). *)
Definition mockFetchPlaneData (now : N) (draw : MockDraw) (st : State Plane)
  : State Plane :=
  match userLocation st with
  | None => st
  | Some location =>
      let mockPlane := mockPlane location now draw in
      let distance :=
        calculateDistance (LatLng.lat location) (LatLng.lng location)
                          (lat mockPlane) (lon mockPlane) in
      let newBearing :=
        calculateBearing (LatLng.lat location) (LatLng.lng location)
                         (lat mockPlane) (lon mockPlane) in
      let st := setBearing newBearing st in
      if (distance <? NOTIFICATION_RADIUS_KM) && (MINIMUM_ALTITUDE_FT <? altitude mockPlane)
      then
        if isNewPlane (detectedPlane st) (icao24 mockPlane)
        then playNotificationSound (setDetectedPlane (Some mockPlane) st)
        else st
      else setDetectedPlane None st
  end.

(** [handleSpeakDirection] (227-232). *)
Definition handleSpeakDirection (st : State Plane) : State Plane :=
  if isSpeaking st then st
  else
    let phrase := getDirectionPhrase (bearing st) in
    TokenAudio.playNextInQueue (setAudioQueue phrase st).

(** [handleStartStopClick] (235-251); [granted] tells whether the
    notification permission is, or becomes, granted. *)
Definition handleStartStopClick (granted : bool) (st : State Plane) : State Plane :=
  let st := if isSome (userLocation st) then st else getLocation st in
  if granted then setIsTracking (negb (isTracking st)) st else st.

End App.

End SkyPing.

(** ** part_000, second file (lines 367-724) *)

Module VCompassLocal.

Definition TRACKING_INTERVAL_MS : JS.number := 10000.

Definition getDirectionPhrase := Compound.getDirectionPhrase.

Section App.

Context {M : JS.Math}.

(** [fetchRealPlaneData] (504-557). *)
Definition fetchRealPlaneData (result : FetchResult) (st : State Detected)
  : State Detected :=
  match userLocation st with
  | None => st
  | Some location =>
      let st := setStatusMessage "Scanning the skies to find your happiness..." st in
      match result with
      | FetchError =>
          setStatusMessage "Error connecting to server. Is it running?" st
      | FetchOk planes =>
          let found := scanPlanes location planes in
          let st :=
            match closestPlaneForCompass found with
            | Some nearest =>
                let newBearing :=
                  calculateBearing (LatLng.lat location) (LatLng.lng location)
                                   (lat nearest) (lon nearest) in
                setBearing newBearing st
            | None => st
            end in
          match closestPlaneForNotification found with
          | Some candidate =>
              if isNewPlane (detectedPlane st) (icao24 (plane candidate))
              then playNotificationSound (setDetectedPlane (Some candidate) st)
              else st
          | None => setDetectedPlane None st
          end
      end
  end.

(** [fetchRealPlaneData] in two parts, as in the first file: the call up
    to [await fetch] (505-509) and the continuation (510-556). *)
Definition fetchStarts (st : State Detected) : State Detected * option Fetch :=
  match userLocation st with
  | None => (st, None)
  | Some location =>
      (setStatusMessage "Scanning the skies to find your happiness..." st,
       Some {| seenLocation := location; seenPlane := detectedPlane st |})
  end.

Definition fetchLands (f : Fetch) (result : FetchResult) (st : State Detected)
  : State Detected :=
  match result with
  | FetchError =>
      setStatusMessage "Error connecting to server. Is it running?" st
  | FetchOk planes =>
      let found := scanPlanes (seenLocation f) planes in
      let st :=
        match closestPlaneForCompass found with
        | Some nearest =>
            let newBearing :=
              calculateBearing (LatLng.lat (seenLocation f)) (LatLng.lng (seenLocation f))
                               (lat nearest) (lon nearest) in
            setBearing newBearing st
        | None => st
        end in
      match closestPlaneForNotification found with
      | Some candidate =>
          if isNewPlane (seenPlane f) (icao24 (plane candidate))
          then playNotificationSound (setDetectedPlane (Some candidate) st)
          else st
      | None => setDetectedPlane None st
      end
  end.

(** [handleSpeakDirection] (669-675). *)
Definition handleSpeakDirection (st : State Detected) : State Detected :=
  if isSpeaking st || negb (isSome (detectedPlane st)) then st
  else
    match userLocation st, detectedPlane st with
    | Some location, Some detected =>
        let planeBearing :=
          calculateBearing (LatLng.lat location) (LatLng.lng location)
                           (lat (plane detected)) (lon (plane detected)) in
        let phrase := getDirectionPhrase planeBearing in
        TokenAudio.playNextInQueue (setAudioQueue phrase st)
    | _, _ => st
    end.

(** [handleStartStopClick] (678-693). *)
Definition handleStartStopClick (granted : bool) (st : State Detected)
  : State Detected :=
  let st := if isSome (userLocation st) then st else getLocation st in
  if granted then setIsTracking (negb (isTracking st)) st else st.

End App.

End VCompassLocal.

(** ** The tracking loop of part_000, first file: timers and events *)

Module VCompassLoop.

Import VCompass.

(** What the three effects (221-247) have registered. *)
Record Timers : Set := {
  pollInterval : bool;       (* [intervalId], every [TRACKING_INTERVAL_MS] *)
  mockInterval : bool;       (* [mockIntervalId], every [MOCK_TRACKING_INTERVAL_MS] *)
  scanningInterval : bool    (* [scanningInterval], every 50 ms *)
}.

(** [inFlight]: the calls of [fetchRealPlaneData] that wait for their
    response, oldest first. *)
Record World : Type := {
  app : State Detected;
  timers : Timers;
  inFlight : list Fetch
}.

(** What the user, the timers, the network and the audio element can make
    happen.  [FetchStarts] is a tick of the polling interval: the request
    leaves.  [FetchLands k result] is the arrival of the response to the
    [k]-th request in flight, in any order and whatever has happened since
    the request left.  [Poll result] is a tick whose response arrives before
    anything else happens.  [MockPoll] is a call of [mockFetchPlaneData],
    which is synchronous: by a tick of its interval, or by the effect that
    sets the interval up (230-237), which calls it at once; that call reads
    the clock and the random source, so it is the [MockPoll] that follows the
    commit. *)
Inductive Event : Set :=
| ClickStartStop
| ClickMockMode
| LocationFound (location : LatLng.t)
| LocationDenied
| Poll (result : FetchResult)
| MockPoll (now : N) (draw : MockDraw)
| ScanTick
| ClickSpeak
| ClipEnded
| PlayRejected
| FetchStarts
| FetchLands (k : nat) (result : FetchResult).

(** The condition under which each effect registers its timer. *)
Definition pollWanted {P : Type} (st : State P) : bool :=
  isTracking st && isSome (userLocation st).

Definition mockWanted {P : Type} (st : State P) : bool :=
  isMockMode st && isSome (userLocation st).

Definition scanWanted {P : Type} (st : State P) : bool :=
  (isTracking st || isMockMode st) && negb (isSome (detectedPlane st)).

(** Dependency arrays.  [fetchRealPlaneData] and [mockFetchPlaneData] are
    [useCallback] values that change with [userLocation] and
    [detectedPlane]. *)
Definition sameLocation {P : Type} (prev next : State P) : bool :=
  sameIdentity (identity (userLocation prev) (userLocationRef prev))
               (identity (userLocation next) (userLocationRef next)).

Definition samePlane {P : Type} (prev next : State P) : bool :=
  sameIdentity (identity (detectedPlane prev) (detectedPlaneRef prev))
               (identity (detectedPlane next) (detectedPlaneRef next)).

Definition pollDepsChanged {P : Type} (prev next : State P) : bool :=
  negb (Bool.eqb (isTracking prev) (isTracking next)
        && sameLocation prev next && samePlane prev next).

Definition mockDepsChanged {P : Type} (prev next : State P) : bool :=
  negb (Bool.eqb (isMockMode prev) (isMockMode next)
        && sameLocation prev next && samePlane prev next).

Definition scanDepsChanged {P : Type} (prev next : State P) : bool :=
  negb (Bool.eqb (isTracking prev) (isTracking next)
        && Bool.eqb (isMockMode prev) (isMockMode next)
        && samePlane prev next).

(** The render that follows a handler: the new state is committed and the
    effects whose dependencies changed run again.  The polling effect
    (221-228), when it sets its interval up, calls [fetchRealPlaneData()] at
    once: the status line is set and a request leaves with the cells of this
    render.  The mock effect (230-237) calls [mockFetchPlaneData()] at once
    in the same way; what that call does depends on the clock and on the
    random source, so it is left to the [MockPoll] event, which is enabled
    from this commit on. *)
Definition commit (w : World) (next : State Detected) (flying : list Fetch) : World :=
  let prev := app w in
  let setup := pollDepsChanged prev next && pollWanted next in
  {| app := if setup then fst (fetchStarts next) else next;
     timers :=
       {| pollInterval :=
            useEffect (pollDepsChanged prev next)
                      (pollInterval (timers w)) (pollWanted next);
          mockInterval :=
            useEffect (mockDepsChanged prev next)
                      (mockInterval (timers w)) (mockWanted next);
          scanningInterval :=
            useEffect (scanDepsChanged prev next)
                      (scanningInterval (timers w)) (scanWanted next) |};
     inFlight :=
       if setup then (flying ++ started (snd (fetchStarts next)))%list else flying |}.

Section Loop.

Context {M : JS.Math}.

(** The handler an event runs.  A timer callback runs only while its timer
    is registered; the continuation of a request in flight runs whenever its
    response arrives; [onEnded] and a rejected [play()] need a sounding
    clip. *)
Definition handle (ev : Event) (w : World) : State Detected :=
  let st := app w in
  match ev with
  | ClickStartStop => handleStartStopClick st
  | ClickMockMode => handleMockModeClick st
  | LocationFound location =>
      setStatusMessage "Location found! Ready to track." (setUserLocation location st)
  | LocationDenied =>
      setUserLocation defaultLocation
        (setStatusMessage "Unable to get location. Using default. Please allow access." st)
  | Poll result =>
      if pollInterval (timers w) then fetchRealPlaneData result st else st
  | MockPoll now draw =>
      if mockInterval (timers w) then mockFetchPlaneData now draw st else st
  | ScanTick =>
      if scanningInterval (timers w)
      then setBearing (JS.rem (bearing st + 2) 360) st
      else st
  | ClickSpeak => handleSpeakDirection st
  | ClipEnded =>
      match playing st with
      | [] => st
      | _ :: _ => playNextInQueue (setPlaying [] st)
      end
  | PlayRejected =>
      match playing st with
      | [] => st
      | _ :: _ => setIsSpeaking false (setPlaying [] st)
      end
  | FetchStarts =>
      if pollInterval (timers w) then fst (fetchStarts st) else st
  | FetchLands k result =>
      match nth_error (inFlight w) k with
      | Some f => fetchLands f result st
      | None => st
      end
  end.

(** The requests in flight after the handler of an event. *)
Definition flights (ev : Event) (w : World) : list Fetch :=
  match ev with
  | FetchStarts =>
      if pollInterval (timers w)
      then (inFlight w ++ started (snd (fetchStarts (app w))))%list
      else inFlight w
  | FetchLands k _ => without k (inFlight w)
  | _ => inFlight w
  end.

Definition step (w : World) (ev : Event) : World :=
  commit w (handle ev w) (flights ev w).

Definition run (w : World) (events : list Event) : World := fold_left step events w.

(** The world after mount: the three effects ran once on the initial state. *)
Definition mounted : World :=
  let st := initialState "Vimaanam Compass your compass to happiness." in
  {| app := st;
     timers := {| pollInterval := pollWanted st;
                  mockInterval := mockWanted st;
                  scanningInterval := scanWanted st |};
     inFlight := [] |}.

End Loop.

End VCompassLoop.

(** ** The tracking loop of part_000, second file: timers and events *)

Module VCompassLocalLoop.

Import VCompassLocal.

(** What the two effects (590-647) have registered; [lastTime] is the
    variable of the rotation effect. *)
Record Timers : Set := {
  pollInterval : bool;                (* [intervalId] *)
  animationFrame : bool;              (* a frame is requested under [animationFrameId] *)
  lastTime : option JS.number
}.

Record World : Type := {
  app : State Detected;
  timers : Timers;
  inFlight : list Fetch               (* the requests that wait for their response *)
}.

(** [FetchStarts], [FetchLands] and [Poll] as in the first file. *)
Inductive Event : Set :=
| ClickStartStop (granted : bool)
| LocationFound (location : LatLng.t)
| LocationDenied
| Poll (result : FetchResult)
| Frame (time : JS.number)
| ClickSpeak
| ClipEnded (audio : string)
| FetchStarts
| FetchLands (k : nat) (result : FetchResult).

Definition pollWanted {P : Type} (st : State P) : bool :=
  isTracking st && isSome (userLocation st).

(** [isTracking && !detectedPlane], as the rotation effect tests it. *)
Definition rotateWanted {P : Type} (st : State P) : bool :=
  isTracking st && negb (isSome (detectedPlane st)).

Definition pollDepsChanged {P : Type} (prev next : State P) : bool :=
  negb (Bool.eqb (isTracking prev) (isTracking next)
        && VCompassLoop.sameLocation prev next && VCompassLoop.samePlane prev next).

Definition rotateDepsChanged {P : Type} (prev next : State P) : bool :=
  negb (Bool.eqb (isTracking prev) (isTracking next)
        && VCompassLoop.samePlane prev next).

(** The status line the polling effect (590-602) sets when it runs. *)
Definition pollEffectStatus {P : Type} (st : State P) : State P :=
  if pollWanted st then setStatusMessage "Scanning the skies..." st
  else if negb (isTracking st) then setStatusMessage "Tracking stopped." st
  else st.

(** The render that follows a handler.  The polling effect (590-602), when
    it sets its interval up, calls [fetchRealPlaneData()] at once, so a
    request leaves with the cells of this render, and then sets the status
    line. *)
Definition commit (w : World) (next : State Detected) : World :=
  let prev := app w in
  let rotate := rotateDepsChanged prev next in
  let setup := pollDepsChanged prev next && pollWanted next in
  {| app := if pollDepsChanged prev next then pollEffectStatus next else next;
     timers :=
       {| pollInterval :=
            useEffect (pollDepsChanged prev next)
                      (pollInterval (timers w)) (pollWanted next);
          animationFrame :=
            useEffect rotate (animationFrame (timers w)) (rotateWanted next);
          lastTime := useEffect rotate (lastTime (timers w)) None |};
     inFlight :=
       if setup then (inFlight w ++ started (snd (fetchStarts next)))%list
       else inFlight w |}.

Section Loop.

Context {M : JS.Math}.

(** [!lastTime]. *)
Definition noLastTime (lastTime : option JS.number) : bool :=
  match lastTime with
  | None => true
  | Some t => negb (JS.truthy t)
  end.

(** [rotateNeedle(time)] (627-638): the bearing it sets.  The frame is
    requested again because the [isTracking && !detectedPlane] it tests is
    the one of the render that set the effect up. *)
Definition rotateNeedle (time : JS.number) (w : World) : World :=
  let last := match lastTime (timers w) with
              | Some t => if JS.truthy t then t else time
              | None => time
              end in
  let delta := (time - last) / 1000 in
  {| app := setBearing (JS.rem (bearing (app w) + delta * 2) 360) (app w);
     timers := {| pollInterval := pollInterval (timers w);
                  animationFrame := true;
                  lastTime := Some time |};
     inFlight := inFlight w |}.

Definition handle (ev : Event) (w : World) : World :=
  let st := app w in
  let keep st' := {| app := st'; timers := timers w; inFlight := inFlight w |} in
  match ev with
  | ClickStartStop granted => keep (handleStartStopClick granted st)
  | LocationFound location =>
      keep (setStatusMessage "Location found! Ready to track."
              (setUserLocation location st))
  | LocationDenied =>
      keep (setUserLocation defaultLocation
              (setStatusMessage "Unable to get location. Please allow access." st))
  | Poll result =>
      keep (if pollInterval (timers w) then fetchRealPlaneData result st else st)
  | Frame time =>
      if animationFrame (timers w) then rotateNeedle time w else w
  | ClickSpeak => keep (handleSpeakDirection st)
  | ClipEnded audio => keep (TokenAudio.ended audio st)
  | FetchStarts =>
      if pollInterval (timers w)
      then {| app := fst (fetchStarts st); timers := timers w;
              inFlight := (inFlight w ++ started (snd (fetchStarts st)))%list |}
      else w
  | FetchLands k result =>
      match nth_error (inFlight w) k with
      | Some f => {| app := fetchLands f result st; timers := timers w;
                     inFlight := without k (inFlight w) |}
      | None => w
      end
  end.

Definition step (w : World) (ev : Event) : World :=
  let handled := handle ev w in
  commit {| app := app w; timers := timers handled; inFlight := inFlight handled |}
         (app handled).

Definition run (w : World) (events : list Event) : World := fold_left step events w.

(** The world after mount: both effects ran once on the initial state. *)
Definition mounted : World :=
  let st := initialState "Click 'Start Tracking' to begin." in
  {| app := pollEffectStatus st;
     timers := {| pollInterval := pollWanted st;
                  animationFrame := rotateWanted st;
                  lastTime := None |};
     inFlight := [] |}.

End Loop.

End VCompassLocalLoop.

(** ** Runs of polls, and what the properties below speak about *)

(** The last element of a list. *)
Fixpoint lastOf {A : Type} (l : list A) : option A :=
  match l with
  | [] => None
  | [a] => Some a
  | _ :: rest => lastOf rest
  end.

(** The [icao24] of the plane a cell holds. *)
Definition identityOf (cell : option Detected) : option string :=
  option_map (fun d => icao24 (plane d)) cell.

Section Runs.

Context {M : JS.Math}.

(** The notification candidate of one poll: what the loop leaves in
    [closestPlaneForNotification]. *)
Definition candidate (userLocation : LatLng.t) (planes : list Plane) : option Detected :=
  closestPlaneForNotification (scanPlanes userLocation planes).

(** The compass target of one poll: what the loop leaves in
    [closestPlaneForCompass]. *)
Definition compassTarget (userLocation : LatLng.t) (planes : list Plane) : option Plane :=
  closestPlaneForCompass (scanPlanes userLocation planes).

(** Successive successful polls of the first file of part_000, each
    answered before anything else happens: the response of a poll is handled
    on the state its request left, so the [detectedPlane] of its closure is
    the one the poll before left.  Requests that overlap are events of
    [VCompassLoop]. *)
Definition polls (batches : list (list Plane)) (st : State Detected) : State Detected :=
  fold_left (fun st planes => VCompass.fetchRealPlaneData (FetchOk planes) st) batches st.

(** Successive mock polls, each with its [Date.now()] and its random draws. *)
Definition mockPolls (cycles : list (N * MockDraw)) (st : State Detected)
  : State Detected :=
  fold_left (fun st c => mockFetchPlaneData (fst c) (snd c) st) cycles st.

Definition skyPingPolls (cycles : list (N * MockDraw)) (st : State SkyPing.Plane)
  : State SkyPing.Plane :=
  fold_left (fun st c => SkyPing.mockFetchPlaneData (fst c) (snd c) st) cycles st.

(** Whether the mock plane of a cycle meets the admission thresholds. *)
Definition mockQualifies (userLocation : LatLng.t) (c : N * MockDraw) : bool :=
  qualifies userLocation (mockPlane userLocation (fst c) (snd c)).

Definition skyPingQualifies (userLocation : LatLng.t) (c : N * MockDraw) : bool :=
  let p := SkyPing.mockPlane userLocation (fst c) (snd c) in
  (calculateDistance (LatLng.lat userLocation) (LatLng.lng userLocation)
                     (SkyPing.lat p) (SkyPing.lon p) <? SkyPing.NOTIFICATION_RADIUS_KM)
  && (SkyPing.MINIMUM_ALTITUDE_FT <? SkyPing.altitude p).

End Runs.

(** ** Predicates of the properties below *)

(** The fields the audio functions leave alone. *)
Definition sameTracking {P : Type} (a b : State P) : Prop :=
  isTracking a = isTracking b /\ isMockMode a = isMockMode b
  /\ userLocation a = userLocation b /\ userLocationRef a = userLocationRef b
  /\ detectedPlane a = detectedPlane b /\ detectedPlaneRef a = detectedPlaneRef b
  /\ bearing a = bearing b /\ notificationPlays a = notificationPlays b.

(** The fields the polls leave alone. *)
Definition sameAudio {P : Type} (a b : State P) : Prop :=
  audioQueue a = audioQueue b /\ isSpeaking a = isSpeaking b
  /\ playing a = playing b.

(** At most one clip sounds, and only while the flag is set. *)
Definition oneClip {P : Type} (st : State P) : Prop :=
  (List.length (playing st) <= 1)%nat /\ (playing st <> [] -> isSpeaking st = true).

(** The notified identity is none, or a mock identity stamped before
    [bound]. *)
Definition stampedBefore (bound : N) (id : option string) : Prop :=
  match id with
  | None => True
  | Some s => exists t, (t < bound)%N /\ s = "mock" ++ JS.toString t
  end.

(** Every step of the first file keeps each timer registered exactly when
    its effect wants it. *)
Definition timersFollow (w : VCompassLoop.World) : Prop :=
  VCompassLoop.scanningInterval (VCompassLoop.timers w)
  = VCompassLoop.scanWanted (VCompassLoop.app w)
  /\ VCompassLoop.pollInterval (VCompassLoop.timers w)
     = VCompassLoop.pollWanted (VCompassLoop.app w).

(** The same for the second file and its animation frame. *)
Definition frameFollows (w : VCompassLocalLoop.World) : Prop :=
  VCompassLocalLoop.animationFrame (VCompassLocalLoop.timers w)
  = VCompassLocalLoop.rotateWanted (VCompassLocalLoop.app w).

Section Invariants.

Context {M : JS.Math}.

(** What the loop maintains for the compass: the plane held is one of the
    planes seen, [minDistance] is its distance, and no plane seen is
    strictly closer; while no plane is held, [minDistance] is [Infinity] and
    no plane seen is below it. *)
Definition compassInvariant (location : LatLng.t) (seen : list Plane) (acc : Closest) : Prop :=
  match closestPlaneForCompass acc with
  | Some p =>
      In p seen /\ minDistance acc = distanceTo location p
      /\ (distanceTo location p <? infinity) = true
      /\ forall q, In q seen -> (distanceTo location q <? distanceTo location p) = false
  | None =>
      minDistance acc = infinity
      /\ forall q, In q seen -> (distanceTo location q <? infinity) = false
  end.

End Invariants.

(** ** Concrete inputs *)

Module Example.

Definition user : LatLng.t := LatLng.make 10 76.

(** 5.56 km north of [user], at 16404 ft. *)
Definition near : Plane :=
  {| icao24 := "near1"; callsign := "NEAR"; lat := 10.05; lon := 76;
     altitude_m := 5000; velocity_ms := 230 |}.

(** 22.2 km north of [user], at 16404 ft. *)
Definition far : Plane :=
  {| icao24 := "far2"; callsign := "FAR"; lat := 10.2; lon := 76;
     altitude_m := 5000; velocity_ms := 230 |}.

(** 2.2 km north of [user], at 1640 ft: below the altitude threshold. *)
Definition low : Plane :=
  {| icao24 := "low3"; callsign := "LOW"; lat := 10.02; lon := 76;
     altitude_m := 500; velocity_ms := 80 |}.

(** The aircraft of [near] at a later time, 44 km east of [user]: outside
    the radius. *)
Definition distant : Plane :=
  {| icao24 := "near1"; callsign := "NEAR"; lat := 10; lon := 76.4;
     altitude_m := 5000; velocity_ms := 230 |}.

(** Tracking has been started and the position is known. *)
Definition tracking : State Detected :=
  setUserLocation user (setIsTracking true (initialState "")).

Definition draw : MockDraw :=
  {| forCallsign := 0.5; forLat := 0.75; forLon := 0.5;
     forAltitude := 0.5; forVelocity := 0.5 |}.

(** Mock mode has been activated and the position is known. *)
Definition mocking : State Detected :=
  setUserLocation user (setIsMockMode true (initialState "")).

(** App.jsx with tracking started and the position known. *)
Definition skyTracking : State SkyPing.Plane :=
  setUserLocation user (setIsTracking true (initialState "")).

(** Three mock polls, 25 s apart. *)
Definition cycles : list (N * MockDraw) :=
  [ (1730000000000%N, draw); (1730000025000%N, draw); (1730000050000%N, draw) ].

(** App.jsx: a mock poll notifies a plane 2.8 km north of the user and
    commits the bearing to it; then a second position fix arrives, 5.6 km
    north of the first. *)
Definition skyMoved : State SkyPing.Plane :=
  setStatusMessage "Location found! Ready to track."
    (setUserLocation (LatLng.make 10.05 76)
       (@SkyPing.mockFetchPlaneData RefMath.math 1730000000000 draw skyTracking)).

End Example.

(** ** Playing a queue to its end *)

Module Playback.

(** [onEnded={playNextInQueue}] of the first file of part_000 (352-356): the
    clip that ended no longer sounds, the next one is started. *)
Definition onEnded {P : Type} (st : State P) : State P :=
  match playing st with
  | [] => st
  | _ :: _ => VCompass.playNextInQueue (setPlaying [] st)
  end.

(** What is heard over [n] successive ends of a clip: the clip sounding
    before each of them. *)
Fixpoint heard {P : Type} (n : nat) (st : State P) : list string :=
  match n with
  | O => []
  | S n' => playing st ++ heard n' (onEnded st)
  end.

(** The state after [n] successive ends of a clip. *)
Fixpoint afterEnds {P : Type} (n : nat) (st : State P) : State P :=
  match n with
  | O => st
  | S n' => afterEnds n' (onEnded st)
  end.

(** The sound files of the names of a queue that have one, in order. *)
Definition clips (queue : list string) : list string :=
  flat_map (fun name => match VCompass.soundFiles name with
                        | Some src => [src]
                        | None => []
                        end) queue.

(** The same for the files with one [Audio] object per token: the object
    that ends is the one that sounds. *)
Definition tokenEnded {P : Type} (st : State P) : State P :=
  match playing st with
  | [] => st
  | audio :: _ => TokenAudio.ended audio st
  end.

Fixpoint tokensHeard {P : Type} (n : nat) (st : State P) : list string :=
  match n with
  | O => []
  | S n' => playing st ++ tokensHeard n' (tokenEnded st)
  end.

Fixpoint afterTokenEnds {P : Type} (n : nat) (st : State P) : State P :=
  match n with
  | O => st
  | S n' => afterTokenEnds n' (tokenEnded st)
  end.

Definition tokenClips (queue : list string) : list string :=
  flat_map (fun name => match TokenAudio.audioRefs name with
                        | Some audio => [audio]
                        | None => []
                        end) queue.

End Playback.

(** More concrete inputs. *)
Module Example2.

(** The first file of part_000 after a poll that notified [Example.near]. *)
Definition notified : State Detected :=
  @VCompass.fetchRealPlaneData RefMath.math (FetchOk [Example.near]) Example.tracking.

(** App.jsx after a mock poll that left a bearing of 45. *)
Definition skyNorthEast : State SkyPing.Plane :=
  setBearing 45 Example.skyTracking.

End Example2.

(** ** Invariants of the tracking loops *)

(** First file of part_000: live tracking and mock mode exclude each other,
    each timer is registered exactly when its effect wants it, and a plane
    notified while live tracking is on carries the flag of a live plane. *)
Definition loopInvariant (w : VCompassLoop.World) : Prop :=
  isTracking (VCompassLoop.app w) && isMockMode (VCompassLoop.app w) = false
  /\ VCompassLoop.pollInterval (VCompassLoop.timers w)
     = VCompassLoop.pollWanted (VCompassLoop.app w)
  /\ VCompassLoop.mockInterval (VCompassLoop.timers w)
     = VCompassLoop.mockWanted (VCompassLoop.app w)
  /\ VCompassLoop.scanningInterval (VCompassLoop.timers w)
     = VCompassLoop.scanWanted (VCompassLoop.app w)
  /\ match detectedPlane (VCompassLoop.app w) with
     | Some d => isTracking (VCompassLoop.app w) = true -> isMock d = Some false
     | None => True
     end.

(** Second file of part_000: the polling interval and the animation frame
    are registered exactly when their effects want them. *)
Definition localInvariant (v : VCompassLocalLoop.World) : Prop :=
  VCompassLocalLoop.pollInterval (VCompassLocalLoop.timers v)
  = VCompassLocalLoop.pollWanted (VCompassLocalLoop.app v)
  /\ VCompassLocalLoop.animationFrame (VCompassLocalLoop.timers v)
     = VCompassLocalLoop.rotateWanted (VCompassLocalLoop.app v).

Module Example3.

(** The first file of part_000: a position arrives, live tracking is started
    and a poll notifies [Example.near]. *)
Definition liveEvents : list VCompassLoop.Event :=
  [ VCompassLoop.LocationFound Example.user;
    VCompassLoop.ClickStartStop;
    VCompassLoop.Poll (FetchOk [Example.near]) ].

(** Mock mode is on with a known position. *)
Definition mockEvents : list VCompassLoop.Event :=
  [ VCompassLoop.LocationFound Example.user;
    VCompassLoop.ClickMockMode;
    VCompassLoop.MockPoll 1730000000000 Example.draw ].

(** The second file of part_000: the same as [liveEvents], then the
    narration is requested. *)
Definition localEvents : list VCompassLocalLoop.Event :=
  [ VCompassLocalLoop.LocationFound Example.user;
    VCompassLocalLoop.ClickStartStop true;
    VCompassLocalLoop.Poll (FetchOk [Example.near]);
    VCompassLocalLoop.ClickSpeak ].

(** The first file of part_000: live tracking is started with a known
    position, which sends a request. *)
Definition startedEvents : list VCompassLoop.Event :=
  [ VCompassLoop.LocationFound Example.user;
    VCompassLoop.ClickStartStop ].

(** The first file of part_000: the request that the start of live tracking
    sent is still in flight when mock mode is switched on; the mock effect
    calls [mockFetchPlaneData] at once, and again, in the same millisecond,
    after the notification; then the response arrives. *)
Definition strayEvents : list VCompassLoop.Event :=
  [ VCompassLoop.LocationFound Example.user;
    VCompassLoop.ClickStartStop;
    VCompassLoop.ClickMockMode;
    VCompassLoop.MockPoll 1730000000000 Example.draw;
    VCompassLoop.MockPoll 1730000000000 Example.draw;
    VCompassLoop.FetchLands 0 (FetchOk [Example.near]) ].

(** The first file of part_000: three quick clicks on Start / Stop before
    the position is known ask for the position three times; two answers
    arrive, each sets [userLocation] and so sends a request; then the two
    responses arrive, both listing [Example.near]. *)
Definition overlappingEvents : list VCompassLoop.Event :=
  [ VCompassLoop.ClickStartStop;
    VCompassLoop.ClickStartStop;
    VCompassLoop.ClickStartStop;
    VCompassLoop.LocationFound Example.user;
    VCompassLoop.LocationFound Example.user;
    VCompassLoop.FetchLands 0 (FetchOk [Example.near]);
    VCompassLoop.FetchLands 0 (FetchOk [Example.near]) ].

(** The same clicks and answers in the second file of part_000. *)
Definition localOverlappingEvents : list VCompassLocalLoop.Event :=
  [ VCompassLocalLoop.ClickStartStop true;
    VCompassLocalLoop.ClickStartStop true;
    VCompassLocalLoop.ClickStartStop true;
    VCompassLocalLoop.LocationFound Example.user;
    VCompassLocalLoop.LocationFound Example.user;
    VCompassLocalLoop.FetchLands 0 (FetchOk [Example.near]);
    VCompassLocalLoop.FetchLands 0 (FetchOk [Example.near]) ].

End Example3.

(** ** Sequences of polls, seen from the notification sound *)

Section PollRuns.

Context {M : JS.Math}.

(** Successive successful polls of the second file of part_000, each
    answered before anything else happens. *)
Definition localPolls (batches : list (list Plane)) (st : State Detected)
  : State Detected :=
  fold_left (fun st planes => VCompassLocal.fetchRealPlaneData (FetchOk planes) st)
            batches st.

(** What the loop maintains for the compass, with the order of the list: the
    plane held is the first one of its distance, every plane before it is
    not at most as far, and no plane after it is strictly closer. *)
Definition firstNearest (location : LatLng.t) (seen : list Plane) (acc : Closest) : Prop :=
  match closestPlaneForCompass acc with
  | Some p =>
      minDistance acc = distanceTo location p
      /\ exists before after,
           seen = (before ++ p :: after)%list
           /\ (forall q, In q before ->
                 (distanceTo location q <=? distanceTo location p) = false)
           /\ (forall q, In q after ->
                 (distanceTo location q <? distanceTo location p) = false)
  | None =>
      minDistance acc = infinity
      /\ forall q, In q seen -> (distanceTo location q <? infinity) = false
  end.

End PollRuns.

(** The number of times a notification is due over a sequence of polls, given
    the identity notified before the first one and the identity of the
    candidate of every poll ([None]: no candidate): once for every candidate
    whose identity is not the one notified before it; a poll without
    candidate leaves nothing notified. *)
Fixpoint announcements (notified : option string) (candidates : list (option string))
  : nat :=
  match candidates with
  | [] => 0
  | None :: rest => announcements None rest
  | Some id :: rest =>
      match notified with
      | Some n =>
          if String.eqb n id then announcements notified rest
          else S (announcements (Some id) rest)
      | None => S (announcements (Some id) rest)
      end
  end.

(** The identity a mock cycle offers to the debounce: that of its sighting,
    when the sighting meets the thresholds. *)
Definition mockCandidate {M : JS.Math} (location : LatLng.t) (c : N * MockDraw)
  : option string :=
  if mockQualifies location c
  then Some (icao24 (mockPlane location (fst c) (snd c)))
  else None.

Definition skyPingCandidate {M : JS.Math} (location : LatLng.t) (c : N * MockDraw)
  : option string :=
  if skyPingQualifies location c
  then Some (SkyPing.icao24 (SkyPing.mockPlane location (fst c) (snd c)))
  else None.

Module Example4.


(** Another aircraft at the position of [Example.near]. *)
Definition twin : Plane :=
  {| icao24 := "twin4"; callsign := "TWIN"; lat := 10.05; lon := 76;
     altitude_m := 5000; velocity_ms := 230 |}.

(** Three polls in all of which [Example.near] meets the thresholds; in the
    second one [Example.far] does too and is listed after it. *)
Definition crowded : list (list Plane) :=
  [ [Example.near]; [Example.near; Example.far]; [Example.near] ].

(** Two mock cycles in the same millisecond. *)
Definition sameMillisecond : list (N * MockDraw) :=
  [ (1730000000000%N, Example.draw); (1730000000000%N, Example.draw) ].

(** Three polls that see the same two aircraft, listed in changing order. *)
Definition shuffled : list (list Plane) :=
  [ [Example.near; Example.far]; [Example.far; Example.near];
    [Example.near; Example.far] ].

End Example4.
(* ================================================================== *)
(** * Theorems *)
(* ================================================================== *)

(** ** The order of JavaScript numbers *)

Lemma ltb_rank x y :
  (x <? y) = match JS.rank x, JS.rank y with
             | Some r, Some s => JS.keyltb r s
             | _, _ => false
             end.
Proof.
  rewrite ltb_spec. unfold JS.rank, SFltb, SFcompare, JS.keyltb.
  destruct (Prim2SF x) as [[|]|[|]| |[|] m e], (Prim2SF y) as [[|]|[|]| |[|] m' e'];
    try reflexivity;
    rewrite Pos.compare_cont_spec; simpl;
    destruct (Z.compare_spec e e'), (Pos.compare_spec m m'); simpl;
    repeat match goal with
    | |- context [(?a <? ?b)%Z] => destruct (Z.ltb_spec a b)
    | |- context [(?a =? ?b)%Z] => destruct (Z.eqb_spec a b)
    end; simpl; try reflexivity; lia.
Qed.

Lemma leb_rank x y :
  (x <=? y) = match JS.rank x, JS.rank y with
              | Some r, Some s => JS.keyleb r s
              | _, _ => false
              end.
Proof.
  rewrite leb_spec. unfold JS.rank, SFleb, SFcompare, JS.keyleb.
  destruct (Prim2SF x) as [[|]|[|]| |[|] m e], (Prim2SF y) as [[|]|[|]| |[|] m' e'];
    try reflexivity;
    rewrite Pos.compare_cont_spec; simpl;
    destruct (Z.compare_spec e e'), (Pos.compare_spec m m'); simpl;
    repeat match goal with
    | |- context [(?a <? ?b)%Z] => destruct (Z.ltb_spec a b)
    | |- context [(?a <=? ?b)%Z] => destruct (Z.leb_spec a b)
    | |- context [(?a =? ?b)%Z] => destruct (Z.eqb_spec a b)
    end; simpl; try reflexivity; lia.
Qed.

(** Turn every comparison of numbers into a statement about keys. *)
Ltac rank_cases :=
  rewrite ?ltb_rank, ?leb_rank in *; unfold JS.isNumber in *;
  repeat match goal with
  | |- context [JS.rank ?x] => destruct (JS.rank x) as [[[? ?] ?]|]
  | H : context [JS.rank ?x] |- _ => destruct (JS.rank x) as [[[? ?] ?]|]
  end;
  try discriminate; try reflexivity;
  unfold JS.keyltb, JS.keyleb in *;
  rewrite ?orb_true_iff, ?andb_true_iff, ?orb_false_iff, ?andb_false_iff,
    ?negb_true_iff, ?negb_false_iff,
    ?Z.ltb_lt, ?Z.leb_le, ?Z.eqb_eq, ?Z.ltb_ge, ?Z.leb_gt, ?Z.eqb_neq in *.

Lemma ltb_isNumber x y : (x <? y) = true -> JS.isNumber x = true /\ JS.isNumber y = true.
Proof. intros H. rank_cases; auto. Qed.

Lemma leb_isNumber x y : (x <=? y) = true -> JS.isNumber x = true /\ JS.isNumber y = true.
Proof. intros H. rank_cases; auto. Qed.

Lemma leb_refl x : JS.isNumber x = true -> (x <=? x) = true.
Proof. intros H. rank_cases. lia. Qed.

Lemma leb_trans x y z : (x <=? y) = true -> (y <=? z) = true -> (x <=? z) = true.
Proof. intros H1 H2. rank_cases. lia. Qed.

Lemma ltb_leb_trans x y z : (x <? y) = true -> (y <=? z) = true -> (x <? z) = true.
Proof. intros H1 H2. rank_cases. lia. Qed.

Lemma leb_ltb_trans x y z : (x <=? y) = true -> (y <? z) = true -> (x <? z) = true.
Proof. intros H1 H2. rank_cases. lia. Qed.

Lemma ltb_trans x y z : (x <? y) = true -> (y <? z) = true -> (x <? z) = true.
Proof. intros H1 H2. rank_cases. lia. Qed.

Lemma ltb_leb x y : (x <? y) = true -> (x <=? y) = true.
Proof. intros H. rank_cases. lia. Qed.

Lemma ltb_irrefl x : (x <? x) = false.
Proof. apply not_true_is_false. intros H. rank_cases. lia. Qed.

Lemma ltb_negb_leb x y :
  JS.isNumber x = true -> JS.isNumber y = true -> (x <? y) = negb (y <=? x).
Proof.
  intros Hx Hy. destruct (y <=? x) eqn:E; simpl.
  - apply not_true_is_false. intros H. rank_cases. lia.
  - rank_cases. lia.
Qed.

Lemma NaN_ltb_r x y : JS.isNumber y = false -> (x <? y) = false.
Proof. intros H. rank_cases. Qed.

Lemma NaN_leb_l x y : JS.isNumber x = false -> (x <=? y) = false.
Proof. intros H. rank_cases. Qed.

(** ** Sector classification *)

Lemma leb_mono b s t : (s <=? t) = true -> (b <=? s) = true -> (b <=? t) = true.
Proof. intros Hst Hbs. exact (leb_trans _ _ _ Hbs Hst). Qed.

(** For a number, every guard is a function of the eight tests [b <= t], and
    these tests are monotone in the threshold [t]. *)
Ltac sector_tests b Hb :=
  rewrite ?(ltb_negb_leb 22.5 b eq_refl Hb), ?(ltb_negb_leb 67.5 b eq_refl Hb),
    ?(ltb_negb_leb 112.5 b eq_refl Hb), ?(ltb_negb_leb 157.5 b eq_refl Hb),
    ?(ltb_negb_leb 202.5 b eq_refl Hb), ?(ltb_negb_leb 247.5 b eq_refl Hb),
    ?(ltb_negb_leb 292.5 b eq_refl Hb), ?(ltb_negb_leb 337.5 b eq_refl Hb) in *;
  pose proof (leb_mono b 22.5 67.5 eq_refl);
  pose proof (leb_mono b 67.5 112.5 eq_refl);
  pose proof (leb_mono b 112.5 157.5 eq_refl);
  pose proof (leb_mono b 157.5 202.5 eq_refl);
  pose proof (leb_mono b 202.5 247.5 eq_refl);
  pose proof (leb_mono b 247.5 292.5 eq_refl);
  pose proof (leb_mono b 292.5 337.5 eq_refl);
  destruct (b <=? 22.5); [|destruct (b <=? 67.5); [|destruct (b <=? 112.5);
    [|destruct (b <=? 157.5); [|destruct (b <=? 202.5); [|destruct (b <=? 247.5);
    [|destruct (b <=? 292.5); [|destruct (b <=? 337.5)]]]]]]];
  repeat match goal with
  | H : true = true -> _ |- _ => specialize (H eq_refl); rewrite H in *
  end;
  simpl in *.

Ltac sector_NaN b Hb :=
  rewrite ?(NaN_ltb_r _ b Hb), ?(NaN_leb_l b _ Hb) in *; simpl in *.

Lemma Compound_guards b :
  Compound.getDirectionPhrase b
  = firstMatch (combine (sectorGuards b) Compound.phrases) [].
Proof. reflexivity. Qed.

Lemma Named_guards b :
  Named.getDirectionPhrase b
  = firstMatch (combine (sectorGuards b) Named.phrases) [].
Proof. reflexivity. Qed.

Lemma sector_unique b :
  JS.isNumber b = true -> matching (sectorGuards b) = 1%nat.
Proof.
  intros Hb. unfold matching, sectorGuards.
  sector_tests b Hb; try reflexivity; discriminate.
Qed.

Lemma sector_NaN_none b :
  JS.isNumber b = false -> matching (sectorGuards b) = 0%nat.
Proof. intros Hb. unfold matching, sectorGuards. sector_NaN b Hb. reflexivity. Qed.

(** The phrase of sector [i] is returned exactly when guard [i] holds. *)
Lemma Compound_sector b :
  Forall (fun i => Compound.getDirectionPhrase b = nth i Compound.phrases []
                   <-> nth i (sectorGuards b) false = true)
         (seq 0 8).
Proof.
  unfold Compound.getDirectionPhrase, sectorGuards, Compound.phrases.
  destruct (JS.isNumber b) eqn:Hb.
  - sector_tests b Hb; try discriminate;
      repeat constructor; simpl; intros; try discriminate; try reflexivity.
  - sector_NaN b Hb. repeat constructor; simpl; intros; discriminate.
Qed.

Lemma Named_sector b :
  Forall (fun i => Named.getDirectionPhrase b = nth i Named.phrases []
                   <-> nth i (sectorGuards b) false = true)
         (seq 0 8).
Proof.
  unfold Named.getDirectionPhrase, sectorGuards, Named.phrases.
  destruct (JS.isNumber b) eqn:Hb.
  - sector_tests b Hb; try discriminate;
      repeat constructor; simpl; intros; try discriminate; try reflexivity.
  - sector_NaN b Hb. repeat constructor; simpl; intros; discriminate.
Qed.

(** The upper edge of every sector, with the index of the sector it falls in. *)
Lemma upper_edges_closed :
  Forall (fun '(t, i) => Compound.getDirectionPhrase t = nth i Compound.phrases []
                         /\ Named.getDirectionPhrase t = nth i Named.phrases [])
         [ (22.5, 0%nat); (67.5, 1%nat); (112.5, 2%nat); (157.5, 3%nat);
           (202.5, 4%nat); (247.5, 5%nat); (292.5, 6%nat); (337.5, 7%nat) ].
Proof. repeat constructor. Qed.

(** C4, the claim as stated fails: a bearing of exactly 337.5 is not classified
    as North; it is the closed upper edge of the West-North sector. *)
Lemma bearing_337_5_is_not_North :
  Compound.getDirectionPhrase 337.5 = ["between"; "West"; "and"; "North"]
  /\ Named.getDirectionPhrase 337.5 = ["NorthWest"]
  /\ Compound.getDirectionPhrase 337.5 <> ["North"]
  /\ Named.getDirectionPhrase 337.5 <> ["North"].
Proof. repeat split; try reflexivity; discriminate. Qed.

(** C4 (amended): a bearing of exactly 0 resolves to North, and so does every
    bearing strictly above 337.5 (360 included) and every bearing up to and
    including 22.5; exactly 337.5 resolves to the West-North sector.  Every
    sector is open on its lower edge and closed on its upper edge: the phrase
    of a sector is returned exactly when its guard [lo < b && b <= hi] holds
    (for North, [337.5 < b || b <= 22.5]), under both policies. *)
Theorem sector_boundary_rule :
  (Compound.getDirectionPhrase 0 = ["North"] /\ Named.getDirectionPhrase 0 = ["North"])
  /\ (Compound.getDirectionPhrase 360 = ["North"] /\ Named.getDirectionPhrase 360 = ["North"])
  /\ (forall b, (337.5 <? b) = true ->
        Compound.getDirectionPhrase b = ["North"] /\ Named.getDirectionPhrase b = ["North"])
  /\ (forall b, (b <=? 22.5) = true ->
        Compound.getDirectionPhrase b = ["North"] /\ Named.getDirectionPhrase b = ["North"])
  /\ (Compound.getDirectionPhrase 337.5 = ["between"; "West"; "and"; "North"]
      /\ Named.getDirectionPhrase 337.5 = ["NorthWest"])
  /\ Forall (fun '(t, i) => Compound.getDirectionPhrase t = nth i Compound.phrases []
                            /\ Named.getDirectionPhrase t = nth i Named.phrases [])
       [ (22.5, 0%nat); (67.5, 1%nat); (112.5, 2%nat); (157.5, 3%nat);
         (202.5, 4%nat); (247.5, 5%nat); (292.5, 6%nat); (337.5, 7%nat) ]
  /\ (forall b,
        Forall (fun i => Compound.getDirectionPhrase b = nth i Compound.phrases []
                         <-> nth i (sectorGuards b) false = true) (seq 0 8)
        /\ Forall (fun i => Named.getDirectionPhrase b = nth i Named.phrases []
                            <-> nth i (sectorGuards b) false = true) (seq 0 8)).
Proof.
  split; [split; reflexivity|].
  split; [split; reflexivity|].
  split.
  { intros b Hb. unfold Compound.getDirectionPhrase, Named.getDirectionPhrase.
    rewrite Hb. split; reflexivity. }
  split.
  { intros b Hb. unfold Compound.getDirectionPhrase, Named.getDirectionPhrase.
    rewrite Hb, orb_true_r. split; reflexivity. }
  split; [split; reflexivity|].
  split; [exact upper_edges_closed|].
  intros b. split; [apply Compound_sector | apply Named_sector].
Qed.

(** C5: for every bearing [b] with [0 <= b < 360], [getDirectionPhrase]
    returns a non-empty token sequence under both policies: exactly one of the
    eight guards holds, the phrase returned is the one of that guard, and the
    final [return []] is not reached. *)
Theorem getDirectionPhrase_nonempty (b : JS.number) :
  (0 <=? b) = true -> (b <? 360) = true ->
  matching (sectorGuards b) = 1%nat
  /\ Compound.getDirectionPhrase b <> []
  /\ Named.getDirectionPhrase b <> []
  /\ exists i, (i < 8)%nat
       /\ nth i (sectorGuards b) false = true
       /\ Compound.getDirectionPhrase b = nth i Compound.phrases []
       /\ Named.getDirectionPhrase b = nth i Named.phrases [].
Proof.
  intros H0 _. apply leb_isNumber in H0. destruct H0 as [_ Hb].
  split; [apply sector_unique; exact Hb|].
  unfold Compound.getDirectionPhrase, Named.getDirectionPhrase, sectorGuards.
  sector_tests b Hb;
    (split; [discriminate|]); (split; [discriminate|]);
    [ exists 0%nat | exists 1%nat | exists 2%nat | exists 3%nat | exists 4%nat
    | exists 5%nat | exists 6%nat | exists 7%nat | exists 0%nat ];
    simpl; repeat split; lia.
Qed.

Lemma getDirectionPhrase_nonempty_witness :
  (0 <=? 45) = true /\ (45 <? 360) = true
  /\ matching (sectorGuards 45) = 1%nat
  /\ Compound.getDirectionPhrase 45 <> []
  /\ Named.getDirectionPhrase 45 <> []
  /\ exists i, (i < 8)%nat
       /\ nth i (sectorGuards 45) false = true
       /\ Compound.getDirectionPhrase 45 = nth i Compound.phrases []
       /\ Named.getDirectionPhrase 45 = nth i Named.phrases [].
Proof.
  split; [reflexivity|]. split; [reflexivity|].
  apply (getDirectionPhrase_nonempty 45); reflexivity.
Defined.

(** ** The loop over the sightings *)

Section DetectionFacts.

Context {M : JS.Math}.

Lemma lastOf_In {A : Type} (l : list A) a : lastOf l = Some a -> In a l.
Proof.
  induction l as [|x l IH]; [discriminate|].
  destruct l as [|y l]; cbn [lastOf].
  - intros [= ->]. now left.
  - intros H. right. exact (IH H).
Qed.

Lemma lastOf_None {A : Type} (l : list A) : lastOf l = None -> l = [].
Proof.
  induction l as [|x l IH]; [reflexivity|].
  destruct l as [|y l]; cbn [lastOf]; [discriminate|].
  intros H. specialize (IH H). discriminate.
Qed.

Lemma scanPlane_notification location acc p :
  closestPlaneForNotification (scanPlane location acc p)
  = if qualifies location p then Some (withAltitudeFt p)
    else closestPlaneForNotification acc.
Proof.
  unfold scanPlane, qualifies, distanceTo, withAltitudeFt.
  destruct (_ && _); [reflexivity|].
  destruct (_ <? minDistance acc); reflexivity.
Qed.

Lemma scan_notification location planes : forall acc,
  closestPlaneForNotification (fold_left (scanPlane location) planes acc)
  = match lastOf (filter (qualifies location) planes) with
    | Some p => Some (withAltitudeFt p)
    | None => closestPlaneForNotification acc
    end.
Proof.
  induction planes as [|p planes IH]; intros acc; [reflexivity|].
  cbn [fold_left filter]. rewrite IH, scanPlane_notification.
  destruct (qualifies location p); [|reflexivity].
  destruct (filter (qualifies location) planes) as [|p' rest]; [reflexivity|].
  change (lastOf (p :: p' :: rest)) with (lastOf (p' :: rest)).
  destruct (lastOf (p' :: rest)) eqn:E; [reflexivity|].
  apply lastOf_None in E. discriminate.
Qed.

(** The notification candidate is the last sighting, in list order, that
    meets both thresholds. *)
Lemma candidate_last_qualifying location planes :
  candidate location planes
  = option_map withAltitudeFt (lastOf (filter (qualifies location) planes)).
Proof.
  unfold candidate, scanPlanes. rewrite scan_notification.
  destruct (lastOf _); reflexivity.
Qed.

Lemma candidate_qualifies location planes c :
  candidate location planes = Some c ->
  In (plane c) planes /\ qualifies location (plane c) = true
  /\ c = withAltitudeFt (plane c).
Proof.
  rewrite candidate_last_qualifying.
  destruct (lastOf _) as [p|] eqn:E; [|discriminate].
  intros [= <-]. apply lastOf_In, filter_In in E. cbn. tauto.
Qed.

Lemma candidate_none location planes :
  candidate location planes = None <->
  forall p, In p planes -> qualifies location p = false.
Proof.
  rewrite candidate_last_qualifying. split.
  - destruct (lastOf _) eqn:E; [discriminate|]. intros _ p Hp.
    apply lastOf_None in E. destruct (qualifies location p) eqn:Q; [|reflexivity].
    assert (In p (filter (qualifies location) planes)) as H
      by (apply filter_In; tauto).
    rewrite E in H. destruct H.
  - intros H. destruct (lastOf _) as [p|] eqn:E; [|reflexivity].
    apply lastOf_In, filter_In in E. destruct E as [Hp Q].
    rewrite (H p Hp) in Q. discriminate.
Qed.

Lemma scanPlane_compass location acc p :
  closestPlaneForCompass (scanPlane location acc p)
  = (if distanceTo location p <? minDistance acc then Some p
     else closestPlaneForCompass acc)
  /\ minDistance (scanPlane location acc p)
     = (if distanceTo location p <? minDistance acc then distanceTo location p
        else minDistance acc).
Proof.
  unfold scanPlane, distanceTo.
  destruct (_ && _); destruct (_ <? minDistance acc); split; reflexivity.
Qed.

Lemma compassInvariant_step location seen acc p :
  compassInvariant location seen acc ->
  compassInvariant location (seen ++ [p]) (scanPlane location acc p).
Proof.
  unfold compassInvariant. intros Inv.
  destruct (scanPlane_compass location acc p) as [-> ->].
  destruct (closestPlaneForCompass acc) as [best|].
  - destruct Inv as (Hin & -> & Hfin & Hmin).
    destruct (distanceTo location p <? distanceTo location best) eqn:E.
    + repeat split.
      * apply in_or_app. right. now left.
      * exact (ltb_trans _ _ _ E Hfin).
      * intros q Hq. apply in_app_or in Hq. destruct Hq as [Hq|[<-|[]]].
        -- apply not_true_is_false. intros Hlt.
           pose proof (ltb_trans _ _ _ Hlt E) as Hc.
           rewrite (Hmin q Hq) in Hc. discriminate.
        -- apply ltb_irrefl.
    + repeat split; auto.
      * apply in_or_app. now left.
      * intros q Hq. apply in_app_or in Hq. destruct Hq as [Hq|[<-|[]]]; auto.
  - destruct Inv as (-> & Hnone).
    destruct (distanceTo location p <? infinity) eqn:E.
    + repeat split; auto.
      * apply in_or_app. right. now left.
      * intros q Hq. apply in_app_or in Hq. destruct Hq as [Hq|[<-|[]]].
        -- apply not_true_is_false. intros Hlt.
           pose proof (ltb_trans _ _ _ Hlt E) as Hc.
           rewrite (Hnone q Hq) in Hc. discriminate.
        -- apply ltb_irrefl.
    + split; auto.
      intros q Hq. apply in_app_or in Hq. destruct Hq as [Hq|[<-|[]]]; auto.
Qed.

Lemma compassInvariant_fold location planes : forall seen acc,
  compassInvariant location seen acc ->
  compassInvariant location (seen ++ planes) (fold_left (scanPlane location) planes acc).
Proof.
  induction planes as [|p planes IH]; intros seen acc Inv; cbn [fold_left].
  - now rewrite app_nil_r.
  - replace (seen ++ p :: planes)%list with ((seen ++ [p]) ++ planes)%list
      by (now rewrite <- app_assoc).
    apply IH, compassInvariant_step, Inv.
Qed.

Lemma compassInvariant_scanPlanes location planes :
  compassInvariant location planes (scanPlanes location planes).
Proof.
  apply (compassInvariant_fold location planes [] noneYet).
  split; [reflexivity|]. intros q [].
Qed.

(** When every distance is a finite number, the compass target of a
    non-empty list is a sighting of minimum distance. *)
Lemma compassTarget_nearest location planes :
  planes <> [] ->
  (forall q, In q planes -> (distanceTo location q <? infinity) = true) ->
  exists nearest,
    compassTarget location planes = Some nearest
    /\ In nearest planes
    /\ forall q, In q planes ->
         (distanceTo location nearest <=? distanceTo location q) = true.
Proof.
  intros Hne Hfin. pose proof (compassInvariant_scanPlanes location planes) as Inv.
  unfold compassInvariant, compassTarget in *.
  destruct (closestPlaneForCompass (scanPlanes location planes)) as [p|].
  - destruct Inv as (Hin & _ & Hp & Hmin). exists p. repeat split; auto.
    intros q Hq. specialize (Hmin q Hq).
    destruct (ltb_isNumber _ _ Hp) as [Np _].
    destruct (ltb_isNumber _ _ (Hfin q Hq)) as [Nq _].
    rewrite (ltb_negb_leb _ _ Nq Np) in Hmin.
    now apply negb_false_iff in Hmin.
  - destruct Inv as (_ & Hnone). destruct planes as [|q planes]; [congruence|].
    specialize (Hnone q (or_introl eq_refl)). rewrite Hfin in Hnone by now left.
    discriminate.
Qed.

Lemma compassTarget_nil location : compassTarget location [] = None.
Proof. reflexivity. Qed.

End DetectionFacts.

(** ** One poll *)

Section PollFacts.

Context {M : JS.Math}.

Lemma isNewPlane_false cell id :
  isNewPlane cell id = false <-> identityOf cell = Some id.
Proof.
  destruct cell as [d|]; cbn.
  - rewrite negb_false_iff, String.eqb_eq. split; [now intros ->|now intros [= ->]].
  - split; discriminate.
Qed.

Lemma isNewPlane_true cell id :
  isNewPlane cell id = true <-> identityOf cell <> Some id.
Proof.
  rewrite <- isNewPlane_false. destruct (isNewPlane cell id); split; congruence.
Qed.

(** The debounce of [fetchRealPlaneData], first file of part_000. *)
Lemma poll_debounce (st : State Detected) location planes :
  userLocation st = Some location ->
  let st' := VCompass.fetchRealPlaneData (FetchOk planes) st in
  userLocation st' = Some location
  /\ match candidate location planes with
     | None =>
         detectedPlane st' = None /\ notificationPlays st' = notificationPlays st
     | Some c =>
         (identityOf (detectedPlane st) = Some (icao24 (plane c)) ->
            detectedPlane st' = detectedPlane st
            /\ detectedPlaneRef st' = detectedPlaneRef st
            /\ notificationPlays st' = notificationPlays st)
         /\ (identityOf (detectedPlane st) <> Some (icao24 (plane c)) ->
               detectedPlane st'
               = Some {| plane := plane c; altitude_ft := altitude_ft c;
                         isMock := Some false |}
               /\ notificationPlays st' = S (notificationPlays st))
     end.
Proof.
  intros Hloc. unfold VCompass.fetchRealPlaneData, candidate. rewrite Hloc.
  destruct (closestPlaneForCompass (scanPlanes location planes));
    destruct (closestPlaneForNotification (scanPlanes location planes)) as [c|];
    cbn; try (repeat split; assumption);
    destruct (isNewPlane (detectedPlane st) (icao24 (plane c))) eqn:E;
    [ apply isNewPlane_true in E | apply isNewPlane_false in E
    | apply isNewPlane_true in E | apply isNewPlane_false in E ];
    cbn; (split; [exact Hloc|]); split; intros H;
    try contradiction; try congruence; repeat split.
Qed.

(** The same debounce in the second file of part_000. *)
Lemma local_poll_debounce (st : State Detected) location planes :
  userLocation st = Some location ->
  let st' := VCompassLocal.fetchRealPlaneData (FetchOk planes) st in
  match candidate location planes with
  | None =>
      detectedPlane st' = None /\ notificationPlays st' = notificationPlays st
  | Some c =>
      (identityOf (detectedPlane st) = Some (icao24 (plane c)) ->
         detectedPlane st' = detectedPlane st
         /\ notificationPlays st' = notificationPlays st)
      /\ (identityOf (detectedPlane st) <> Some (icao24 (plane c)) ->
            detectedPlane st' = Some c
            /\ notificationPlays st' = S (notificationPlays st))
  end.
Proof.
  intros Hloc. unfold VCompassLocal.fetchRealPlaneData, candidate. rewrite Hloc.
  destruct (closestPlaneForCompass (scanPlanes location planes));
    destruct (closestPlaneForNotification (scanPlanes location planes)) as [c|];
    cbn; try (split; reflexivity);
    destruct (isNewPlane (detectedPlane st) (icao24 (plane c))) eqn:E;
    [ apply isNewPlane_true in E | apply isNewPlane_false in E
    | apply isNewPlane_true in E | apply isNewPlane_false in E ];
    cbn; split; intros H; try contradiction; try congruence; repeat split.
Qed.

(** The bearing a successful poll commits. *)
Lemma poll_bearing (st : State Detected) location planes :
  userLocation st = Some location ->
  bearing (VCompass.fetchRealPlaneData (FetchOk planes) st)
  = match compassTarget location planes with
    | Some nearest => bearingTo location nearest
    | None => bearing st
    end
  /\ bearing (VCompassLocal.fetchRealPlaneData (FetchOk planes) st)
     = match compassTarget location planes with
       | Some nearest => bearingTo location nearest
       | None => bearing st
       end.
Proof.
  intros Hloc.
  unfold VCompass.fetchRealPlaneData, VCompassLocal.fetchRealPlaneData, compassTarget.
  rewrite Hloc.
  destruct (closestPlaneForCompass (scanPlanes location planes));
    destruct (closestPlaneForNotification (scanPlanes location planes)) as [c|];
    cbn; try (split; reflexivity);
    destruct (isNewPlane (detectedPlane st) (icao24 (plane c)));
    split; reflexivity.
Qed.

(** The debounce of the continuation: the notified plane it compares with is
    the one of its closure. *)
Lemma lands_debounce f planes (st : State Detected) :
  let st' := VCompass.fetchLands f (FetchOk planes) st in
  match candidate (seenLocation f) planes with
  | None =>
      detectedPlane st' = None /\ notificationPlays st' = notificationPlays st
  | Some c =>
      (identityOf (seenPlane f) = Some (icao24 (plane c)) ->
         detectedPlane st' = detectedPlane st
         /\ detectedPlaneRef st' = detectedPlaneRef st
         /\ notificationPlays st' = notificationPlays st)
      /\ (identityOf (seenPlane f) <> Some (icao24 (plane c)) ->
            detectedPlane st'
            = Some {| plane := plane c; altitude_ft := altitude_ft c;
                      isMock := Some false |}
            /\ notificationPlays st' = S (notificationPlays st))
  end.
Proof.
  unfold VCompass.fetchLands, candidate. cbv zeta.
  destruct (closestPlaneForCompass (scanPlanes (seenLocation f) planes));
    destruct (closestPlaneForNotification (scanPlanes (seenLocation f) planes)) as [c|];
    cbn; try (repeat split; reflexivity);
    destruct (isNewPlane (seenPlane f) (icao24 (plane c))) eqn:E;
    [ apply isNewPlane_true in E | apply isNewPlane_false in E
    | apply isNewPlane_true in E | apply isNewPlane_false in E ];
    cbn; split; intros H; try contradiction; try congruence; repeat split.
Qed.

Lemma local_lands_debounce f planes (st : State Detected) :
  let st' := VCompassLocal.fetchLands f (FetchOk planes) st in
  match candidate (seenLocation f) planes with
  | None =>
      detectedPlane st' = None /\ notificationPlays st' = notificationPlays st
  | Some c =>
      (identityOf (seenPlane f) = Some (icao24 (plane c)) ->
         detectedPlane st' = detectedPlane st
         /\ notificationPlays st' = notificationPlays st)
      /\ (identityOf (seenPlane f) <> Some (icao24 (plane c)) ->
            detectedPlane st' = Some c
            /\ notificationPlays st' = S (notificationPlays st))
  end.
Proof.
  unfold VCompassLocal.fetchLands, candidate. cbv zeta.
  destruct (closestPlaneForCompass (scanPlanes (seenLocation f) planes));
    destruct (closestPlaneForNotification (scanPlanes (seenLocation f) planes)) as [c|];
    cbn; try (split; reflexivity);
    destruct (isNewPlane (seenPlane f) (icao24 (plane c))) eqn:E;
    [ apply isNewPlane_true in E | apply isNewPlane_false in E
    | apply isNewPlane_true in E | apply isNewPlane_false in E ];
    cbn; split; intros H; try contradiction; try congruence; repeat split.
Qed.

End PollFacts.

(** ** Mock polls *)

Lemma toString_inj a b : JS.toString a = JS.toString b -> a = b.
Proof.
  unfold JS.toString. intros H.
  apply (f_equal NilEmpty.uint_of_string) in H.
  rewrite !NilEmpty.usu in H. injection H as H.
  apply (f_equal N.of_uint) in H.
  now rewrite !DecimalN.Unsigned.of_to in H.
Qed.

Lemma mock_identity_inj a b :
  "mock" ++ JS.toString a = "mock" ++ JS.toString b -> a = b.
Proof. cbn. intros [= H]. now apply toString_inj. Qed.

Lemma stampedBefore_le a b id : (a <= b)%N -> stampedBefore a id -> stampedBefore b id.
Proof.
  destruct id as [s|]; cbn; [|auto]. intros Hab (t & Ht & ->).
  exists t. split; [lia|reflexivity].
Qed.

Lemma stampedBefore_fresh now id :
  stampedBefore now id -> id <> Some ("mock" ++ JS.toString now).
Proof.
  destruct id as [s|]; cbn; [|discriminate].
  intros (t & Ht & ->) [= H]. apply toString_inj in H. lia.
Qed.

Lemma increasing_tail (stamp : N) (rest : list N) :
  Sorted N.lt (stamp :: rest) ->
  Sorted N.lt rest /\ Forall (fun t => (stamp + 1 <= t)%N) rest.
Proof.
  intros H. apply Sorted_StronglySorted in H.
  - inversion H as [|? ? Hs Hall]; subst. split.
    + now apply StronglySorted_Sorted.
    + eapply Forall_impl; [|exact Hall]. cbn. intros; lia.
  - intros x y z. apply N.lt_trans.
Qed.

Lemma announcements_step notified id rest :
  announcements notified (Some id :: rest)
  = if match notified with Some n => String.eqb n id | None => false end
    then announcements notified rest
    else S (announcements (Some id) rest).
Proof. destruct notified; reflexivity. Qed.

Lemma notified_cases (notified : option string) id :
  (notified = Some id
   /\ match notified with Some n => String.eqb n id | None => false end = true)
  \/ (notified <> Some id
      /\ match notified with Some n => String.eqb n id | None => false end = false).
Proof.
  destruct notified as [n|].
  - destruct (String.eqb_spec n id) as [->|Hne]; [left|right]; split; congruence.
  - right. split; [discriminate|reflexivity].
Qed.

Section MockFacts.

Context {M : JS.Math}.

(** One mock poll of part_000: when the identity of the mock plane is not
    the notified one, the poll fires exactly when the plane qualifies. *)
Lemma mock_poll (st : State Detected) location now draw :
  userLocation st = Some location ->
  identityOf (detectedPlane st) <> Some ("mock" ++ JS.toString now) ->
  let st' := mockFetchPlaneData now draw st in
  userLocation st' = Some location
  /\ (mockQualifies location (now, draw) = true ->
        identityOf (detectedPlane st') = Some ("mock" ++ JS.toString now)
        /\ notificationPlays st' = S (notificationPlays st))
  /\ (mockQualifies location (now, draw) = false ->
        detectedPlane st' = None
        /\ notificationPlays st' = notificationPlays st).
Proof.
  intros Hloc Hid. apply isNewPlane_true in Hid.
  unfold mockFetchPlaneData, mockQualifies, qualifies, distanceTo. rewrite Hloc. cbn.
  change (icao24 (mockPlane location now draw)) with ("mock" ++ JS.toString now).
  cbn in Hid. rewrite Hid.
  match goal with |- context [if ?c then _ else _] => destruct c end;
    cbn; repeat split; auto; discriminate.
Qed.

Lemma mockPolls_count location cycles : forall (st : State Detected) bound,
  userLocation st = Some location ->
  stampedBefore bound (identityOf (detectedPlane st)) ->
  Forall (fun t => (bound <= t)%N) (map fst cycles) ->
  Sorted N.lt (map fst cycles) ->
  notificationPlays (mockPolls cycles st)
  = (notificationPlays st + List.length (filter (mockQualifies location) cycles))%nat.
Proof.
  induction cycles as [|[now draw] cycles IH]; intros st bound Hloc Hst Hge Hinc.
  - cbn. lia.
  - cbn [map fst] in *. inversion Hge as [|? ? Hnow _]; subst.
    apply increasing_tail in Hinc. destruct Hinc as [Hinc Hnext].
    pose proof (stampedBefore_le _ _ _ Hnow Hst) as Hst'.
    destruct (mock_poll st location now draw Hloc (stampedBefore_fresh _ _ Hst'))
      as (Hloc' & Hq & Hnq).
    change (mockPolls ((now, draw) :: cycles) st)
      with (mockPolls cycles (mockFetchPlaneData now draw st)).
    cbn [filter]. cbv zeta in Hloc', Hq, Hnq.
    destruct (mockQualifies location (now, draw)).
    + destruct (Hq eq_refl) as [Hid Hn].
      assert (stampedBefore (now + 1) (identityOf (detectedPlane (mockFetchPlaneData now draw st)))) as Hs
        by (rewrite Hid; exists now; split; [lia|reflexivity]).
      rewrite (IH _ (now + 1)%N Hloc' Hs Hnext Hinc), Hn. cbn. lia.
    + destruct (Hnq eq_refl) as [Hd Hn].
      assert (stampedBefore (now + 1) (identityOf (detectedPlane (mockFetchPlaneData now draw st)))) as Hs
        by (rewrite Hd; exact I).
      rewrite (IH _ (now + 1)%N Hloc' Hs Hnext Hinc), Hn. reflexivity.
Qed.

(** The same for App.jsx. *)
Lemma skyPing_poll (st : State SkyPing.Plane) location now draw :
  userLocation st = Some location ->
  option_map SkyPing.icao24 (detectedPlane st) <> Some ("mock" ++ JS.toString now) ->
  let st' := SkyPing.mockFetchPlaneData now draw st in
  userLocation st' = Some location
  /\ (skyPingQualifies location (now, draw) = true ->
        detectedPlane st' = Some (SkyPing.mockPlane location now draw)
        /\ notificationPlays st' = S (notificationPlays st))
  /\ (skyPingQualifies location (now, draw) = false ->
        detectedPlane st' = None
        /\ notificationPlays st' = notificationPlays st).
Proof.
  intros Hloc Hid.
  assert (SkyPing.isNewPlane (detectedPlane st) ("mock" ++ JS.toString now) = true) as Hnew.
  { destruct (detectedPlane st) as [d|]; [|reflexivity]. cbn in *.
    apply negb_true_iff, String.eqb_neq. congruence. }
  unfold SkyPing.mockFetchPlaneData, skyPingQualifies. rewrite Hloc. cbn.
  change (SkyPing.icao24 (SkyPing.mockPlane location now draw))
    with ("mock" ++ JS.toString now).
  cbn in Hnew. rewrite Hnew.
  match goal with |- context [if ?c then _ else _] => destruct c end;
    cbn; repeat split; auto; discriminate.
Qed.

Lemma skyPingPolls_count location cycles : forall (st : State SkyPing.Plane) bound,
  userLocation st = Some location ->
  stampedBefore bound (option_map SkyPing.icao24 (detectedPlane st)) ->
  Forall (fun t => (bound <= t)%N) (map fst cycles) ->
  Sorted N.lt (map fst cycles) ->
  notificationPlays (skyPingPolls cycles st)
  = (notificationPlays st + List.length (filter (skyPingQualifies location) cycles))%nat.
Proof.
  induction cycles as [|[now draw] cycles IH]; intros st bound Hloc Hst Hge Hinc.
  - cbn. lia.
  - cbn [map fst] in *. inversion Hge as [|? ? Hnow _]; subst.
    apply increasing_tail in Hinc. destruct Hinc as [Hinc Hnext].
    pose proof (stampedBefore_le _ _ _ Hnow Hst) as Hst'.
    destruct (skyPing_poll st location now draw Hloc (stampedBefore_fresh _ _ Hst'))
      as (Hloc' & Hq & Hnq).
    change (skyPingPolls ((now, draw) :: cycles) st)
      with (skyPingPolls cycles (SkyPing.mockFetchPlaneData now draw st)).
    cbn [filter]. cbv zeta in Hloc', Hq, Hnq.
    destruct (skyPingQualifies location (now, draw)).
    + destruct (Hq eq_refl) as [Hid Hn].
      assert (stampedBefore (now + 1) (option_map SkyPing.icao24
                 (detectedPlane (SkyPing.mockFetchPlaneData now draw st)))) as Hs
        by (rewrite Hid; exists now; split; [lia|reflexivity]).
      rewrite (IH _ (now + 1)%N Hloc' Hs Hnext Hinc), Hn. cbn. lia.
    + destruct (Hnq eq_refl) as [Hd Hn].
      assert (stampedBefore (now + 1) (option_map SkyPing.icao24
                 (detectedPlane (SkyPing.mockFetchPlaneData now draw st)))) as Hs
        by (rewrite Hd; exact I).
      rewrite (IH _ (now + 1)%N Hloc' Hs Hnext Hinc), Hn. reflexivity.
Qed.

(** One mock cycle, whatever is notified. *)
Lemma mock_cycle (st : State Detected) location now draw :
  userLocation st = Some location ->
  let st' := mockFetchPlaneData now draw st in
  userLocation st' = Some location
  /\ (mockQualifies location (now, draw) = true ->
        (identityOf (detectedPlane st) <> Some ("mock" ++ JS.toString now) ->
           identityOf (detectedPlane st') = Some ("mock" ++ JS.toString now)
           /\ notificationPlays st' = S (notificationPlays st))
        /\ (identityOf (detectedPlane st) = Some ("mock" ++ JS.toString now) ->
              detectedPlane st' = detectedPlane st
              /\ notificationPlays st' = notificationPlays st))
  /\ (mockQualifies location (now, draw) = false ->
        detectedPlane st' = None
        /\ notificationPlays st' = notificationPlays st).
Proof.
  intros Hloc. cbv zeta.
  destruct (isNewPlane (detectedPlane st) ("mock" ++ JS.toString now)) eqn:Hnew.
  - apply isNewPlane_true in Hnew.
    destruct (mock_poll st location now draw Hloc Hnew) as (Hl & Hq & Hnq).
    split; [exact Hl|]. split; [|exact Hnq].
    intros Q. split; [intros _; exact (Hq Q)|intros Hsame; contradiction].
  - pose proof Hnew as Hsame. apply isNewPlane_false in Hsame.
    unfold mockFetchPlaneData, mockQualifies, qualifies, distanceTo. rewrite Hloc. cbn.
    change (icao24 (mockPlane location now draw)) with ("mock" ++ JS.toString now).
    cbn in Hnew. rewrite Hnew.
    match goal with |- context [if ?c then _ else _] => destruct c end;
      cbn; repeat split; auto; try discriminate; intros; contradiction.
Qed.

Lemma skyPing_cycle (st : State SkyPing.Plane) location now draw :
  userLocation st = Some location ->
  let st' := SkyPing.mockFetchPlaneData now draw st in
  userLocation st' = Some location
  /\ (skyPingQualifies location (now, draw) = true ->
        (option_map SkyPing.icao24 (detectedPlane st) <> Some ("mock" ++ JS.toString now) ->
           detectedPlane st' = Some (SkyPing.mockPlane location now draw)
           /\ notificationPlays st' = S (notificationPlays st))
        /\ (option_map SkyPing.icao24 (detectedPlane st) = Some ("mock" ++ JS.toString now) ->
              detectedPlane st' = detectedPlane st
              /\ notificationPlays st' = notificationPlays st))
  /\ (skyPingQualifies location (now, draw) = false ->
        detectedPlane st' = None
        /\ notificationPlays st' = notificationPlays st).
Proof.
  intros Hloc. cbv zeta.
  assert (userLocation (SkyPing.mockFetchPlaneData now draw st) = Some location) as Hl.
  { unfold SkyPing.mockFetchPlaneData. rewrite Hloc. cbv zeta.
    repeat match goal with |- context [if ?c then _ else _] => destruct c end;
      exact Hloc. }
  split; [exact Hl|]. split.
  - intros Q. split.
    + intros Hnew.
      destruct (skyPing_poll st location now draw Hloc Hnew) as (_ & Hq & _).
      exact (Hq Q).
    + intros Hsame.
      unfold SkyPing.mockFetchPlaneData. rewrite Hloc. cbv zeta.
      unfold skyPingQualifies in Q. cbv zeta in Q. cbn [fst snd] in Q. rewrite Q.
      cbn [detectedPlane setBearing].
      destruct (detectedPlane st) as [d|] eqn:Hd; [|discriminate].
      cbn [option_map] in Hsame. injection Hsame as Hsame.
      unfold SkyPing.isNewPlane. rewrite Hsame.
      change (SkyPing.icao24 (SkyPing.mockPlane location now draw))
        with ("mock" ++ JS.toString now).
      rewrite String.eqb_refl. cbn. split; [exact Hd|reflexivity].
  - intros Q. unfold SkyPing.mockFetchPlaneData. rewrite Hloc. cbv zeta.
    unfold skyPingQualifies in Q. cbv zeta in Q. cbn [fst snd] in Q. rewrite Q.
    split; reflexivity.
Qed.

(** The notification sounds of any sequence of mock cycles. *)
Lemma mockPolls_announcements location cycles : forall st : State Detected,
  userLocation st = Some location ->
  notificationPlays (mockPolls cycles st)
  = (notificationPlays st
     + announcements (identityOf (detectedPlane st))
         (map (mockCandidate location) cycles))%nat.
Proof.
  induction cycles as [|[now draw] cycles IH]; intros st Hloc.
  - cbn. now rewrite Nat.add_0_r.
  - change (mockPolls ((now, draw) :: cycles) st)
      with (mockPolls cycles (mockFetchPlaneData now draw st)).
    destruct (mock_cycle st location now draw Hloc) as (Hloc' & Hq & Hnq).
    cbv zeta in Hloc', Hq, Hnq. rewrite (IH _ Hloc').
    cbn [map]. unfold mockCandidate at 2. cbn [fst snd].
    change (icao24 (mockPlane location now draw)) with ("mock" ++ JS.toString now).
    destruct (mockQualifies location (now, draw)).
    + rewrite announcements_step. destruct (Hq eq_refl) as [Hnew Hsame].
      destruct (notified_cases (identityOf (detectedPlane st)) ("mock" ++ JS.toString now))
        as [[Hid ->]|[Hid ->]].
      * destruct (Hsame Hid) as [-> ->]. reflexivity.
      * destruct (Hnew Hid) as [-> ->]. cbn. lia.
    + destruct (Hnq eq_refl) as [-> ->]. reflexivity.
Qed.

Lemma skyPingPolls_announcements location cycles : forall st : State SkyPing.Plane,
  userLocation st = Some location ->
  notificationPlays (skyPingPolls cycles st)
  = (notificationPlays st
     + announcements (option_map SkyPing.icao24 (detectedPlane st))
         (map (skyPingCandidate location) cycles))%nat.
Proof.
  induction cycles as [|[now draw] cycles IH]; intros st Hloc.
  - cbn. now rewrite Nat.add_0_r.
  - change (skyPingPolls ((now, draw) :: cycles) st)
      with (skyPingPolls cycles (SkyPing.mockFetchPlaneData now draw st)).
    destruct (skyPing_cycle st location now draw Hloc) as (Hloc' & Hq & Hnq).
    cbv zeta in Hloc', Hq, Hnq. rewrite (IH _ Hloc').
    cbn [map]. unfold skyPingCandidate at 2. cbn [fst snd].
    change (SkyPing.icao24 (SkyPing.mockPlane location now draw))
      with ("mock" ++ JS.toString now).
    destruct (skyPingQualifies location (now, draw)).
    + rewrite announcements_step. destruct (Hq eq_refl) as [Hnew Hsame].
      destruct (notified_cases (option_map SkyPing.icao24 (detectedPlane st))
                  ("mock" ++ JS.toString now)) as [[Hid ->]|[Hid ->]].
      * destruct (Hsame Hid) as [-> ->]. reflexivity.
      * destruct (Hnew Hid) as [-> ->]. cbn. lia.
    + destruct (Hnq eq_refl) as [-> ->]. reflexivity.
Qed.

End MockFacts.

(** ** Narration: the queue and the one audio element of part_000, first file *)

(** Case analysis over every [match] and [if] of a handler. *)
Ltac handler_cases :=
  repeat match goal with
  | |- context [match ?x with _ => _ end] => destruct x eqn:?; cbn in *
  end.

Lemma playQueue_tracking {P : Type} queue : forall st : State P,
  sameTracking (VCompass.playQueue queue st) st.
Proof.
  induction queue as [|name queue IH]; intros st; cbn.
  - repeat split.
  - destruct (VCompass.soundFiles name); [repeat split|].
    destruct (IH (setIsSpeaking true (setAudioQueue queue st)))
      as (?&?&?&?&?&?&?&?). repeat split; assumption.
Qed.

(** [playNextInQueue] starts one clip and sets the flag, or starts none and
    clears the flag. *)
Lemma playQueue_starts_one {P : Type} queue : forall st : State P,
  (exists src, playing (VCompass.playQueue queue st) = [src]
               /\ isSpeaking (VCompass.playQueue queue st) = true)
  \/ (playing (VCompass.playQueue queue st) = playing st
      /\ isSpeaking (VCompass.playQueue queue st) = false).
Proof.
  induction queue as [|name queue IH]; intros st; cbn.
  - right. repeat split.
  - destruct (VCompass.soundFiles name) as [src|].
    + left. exists src. split; reflexivity.
    + exact (IH (setIsSpeaking true (setAudioQueue queue st))).
Qed.

(** When it starts none, the queue has been used up. *)
Lemma playQueue_drained {P : Type} queue : forall st : State P,
  audioQueue st = queue ->
  isSpeaking (VCompass.playQueue queue st) = false ->
  audioQueue (VCompass.playQueue queue st) = [].
Proof.
  induction queue as [|name queue IH]; intros st Hq; cbn.
  - intros _. exact Hq.
  - destruct (VCompass.soundFiles name) as [src|]; [discriminate|].
    apply IH. reflexivity.
Qed.

Lemma playQueue_oneClip {P : Type} queue (st : State P) :
  playing st = [] -> oneClip (VCompass.playQueue queue st).
Proof.
  intros Hp. unfold oneClip.
  destruct (playQueue_starts_one queue st) as [(src & -> & ->)|(-> & _)].
  - cbn. split; [lia|reflexivity].
  - rewrite Hp. cbn. split; [lia|congruence].
Qed.

(** The same for the files with one [Audio] object per token. *)
Lemma tokenQueue_oneClip {P : Type} queue : forall st : State P,
  playing st = [] -> oneClip (TokenAudio.playQueue queue st).
Proof.
  induction queue as [|name queue IH]; intros st Hp; cbn.
  - unfold oneClip. cbn. rewrite Hp. split; [cbn; lia|congruence].
  - destruct (TokenAudio.audioRefs name) as [audio|].
    + unfold oneClip, TokenAudio.play. cbn. rewrite Hp. cbn. split; [lia|reflexivity].
    + apply IH. exact Hp.
Qed.

Lemma token_ended_oneClip {P : Type} audio (st : State P) :
  oneClip st -> oneClip (TokenAudio.ended audio st).
Proof.
  intros Hst. unfold TokenAudio.ended.
  destruct (existsb (String.eqb audio) (playing st)) eqn:E; [|exact Hst].
  apply tokenQueue_oneClip. cbn. destruct Hst as [Hlen _].
  destruct (playing st) as [|a [|b rest]]; cbn in *; [reflexivity| |lia].
  rewrite orb_false_r in E. rewrite String.eqb_sym in E. now rewrite E.
Qed.

Lemma skyPing_speak_oneClip {M : JS.Math} (st : State SkyPing.Plane) :
  oneClip st -> oneClip (SkyPing.handleSpeakDirection st).
Proof.
  intros Hst. unfold SkyPing.handleSpeakDirection.
  destruct (isSpeaking st) eqn:Hs; [exact Hst|].
  apply tokenQueue_oneClip. cbn. destruct Hst as [_ Hflag].
  destruct (playing st); [reflexivity|].
  rewrite Hflag in Hs by discriminate. discriminate.
Qed.

Lemma local_speak_oneClip {M : JS.Math} (st : State Detected) :
  oneClip st -> oneClip (VCompassLocal.handleSpeakDirection st).
Proof.
  intros Hst. unfold VCompassLocal.handleSpeakDirection.
  destruct (isSpeaking st) eqn:Hs; [exact Hst|]. cbn.
  destruct (negb (isSome (detectedPlane st))); [exact Hst|].
  destruct (userLocation st); [|exact Hst].
  destruct (detectedPlane st); [|exact Hst].
  apply tokenQueue_oneClip. cbn. destruct Hst as [_ Hflag].
  destruct (playing st); [reflexivity|].
  rewrite Hflag in Hs by discriminate. discriminate.
Qed.

(** ** Requests in flight *)

Lemma fetchStarts_status (st : State Detected) :
  fst (VCompass.fetchStarts st) = st
  \/ fst (VCompass.fetchStarts st)
     = setStatusMessage "Scanning the skies for live data..." st.
Proof. unfold VCompass.fetchStarts. destruct (userLocation st); auto. Qed.

Lemma local_fetchStarts_status (st : State Detected) :
  fst (VCompassLocal.fetchStarts st) = st
  \/ fst (VCompassLocal.fetchStarts st)
     = setStatusMessage "Scanning the skies to find your happiness..." st.
Proof. unfold VCompassLocal.fetchStarts. destruct (userLocation st); auto. Qed.

(** The first-file commit changes at most the status line of the state it
    is given. *)
Lemma commit_status (w : VCompassLoop.World) next flying :
  VCompassLoop.app (VCompassLoop.commit w next flying) = next
  \/ VCompassLoop.app (VCompassLoop.commit w next flying)
     = setStatusMessage "Scanning the skies for live data..." next.
Proof.
  unfold VCompassLoop.commit. cbn [VCompassLoop.app].
  destruct (_ && _); [apply fetchStarts_status|now left].
Qed.

Section FetchFacts.

Context {M : JS.Math}.

(** A poll whose response arrives before anything else happens is the
    request followed by its continuation. *)
Lemma poll_starts_then_lands result (st : State Detected) :
  VCompass.fetchRealPlaneData result st
  = match snd (VCompass.fetchStarts st) with
    | Some f => VCompass.fetchLands f result (fst (VCompass.fetchStarts st))
    | None => st
    end.
Proof.
  unfold VCompass.fetchRealPlaneData, VCompass.fetchStarts, VCompass.fetchLands.
  destruct (userLocation st) as [location|]; [|reflexivity].
  cbn [fst snd seenLocation seenPlane]. destruct result as [|planes]; [reflexivity|].
  cbv zeta. destruct (closestPlaneForCompass (scanPlanes location planes));
    destruct (closestPlaneForNotification (scanPlanes location planes)); reflexivity.
Qed.

Lemma local_poll_starts_then_lands result (st : State Detected) :
  VCompassLocal.fetchRealPlaneData result st
  = match snd (VCompassLocal.fetchStarts st) with
    | Some f => VCompassLocal.fetchLands f result (fst (VCompassLocal.fetchStarts st))
    | None => st
    end.
Proof.
  unfold VCompassLocal.fetchRealPlaneData, VCompassLocal.fetchStarts,
    VCompassLocal.fetchLands.
  destruct (userLocation st) as [location|]; [|reflexivity].
  cbn [fst snd seenLocation seenPlane]. destruct result as [|planes]; [reflexivity|].
  cbv zeta. destruct (closestPlaneForCompass (scanPlanes location planes));
    destruct (closestPlaneForNotification (scanPlanes location planes)); reflexivity.
Qed.

Lemma lands_audio f result (st : State Detected) :
  sameAudio (VCompass.fetchLands f result st) st.
Proof.
  unfold VCompass.fetchLands, sameAudio. handler_cases; repeat split.
Qed.

Lemma local_lands_audio f result (st : State Detected) :
  sameAudio (VCompassLocal.fetchLands f result st) st.
Proof.
  unfold VCompassLocal.fetchLands, sameAudio. handler_cases; repeat split.
Qed.

(** The continuation leaves the modes and the position alone. *)
Lemma lands_modes f result (st : State Detected) :
  let st' := VCompass.fetchLands f result st in
  isTracking st' = isTracking st /\ isMockMode st' = isMockMode st
  /\ userLocation st' = userLocation st /\ userLocationRef st' = userLocationRef st.
Proof.
  unfold VCompass.fetchLands. handler_cases; repeat split.
Qed.

Lemma local_lands_modes f result (st : State Detected) :
  let st' := VCompassLocal.fetchLands f result st in
  isTracking st' = isTracking st /\ isMockMode st' = isMockMode st
  /\ userLocation st' = userLocation st /\ userLocationRef st' = userLocationRef st.
Proof.
  unfold VCompassLocal.fetchLands. handler_cases; repeat split.
Qed.

End FetchFacts.

Section AudioFacts.

Context {M : JS.Math}.

Lemma poll_audio result (st : State Detected) :
  sameAudio (VCompass.fetchRealPlaneData result st) st.
Proof.
  unfold VCompass.fetchRealPlaneData, sameAudio.
  handler_cases; repeat split.
Qed.

Lemma mock_audio now draw (st : State Detected) :
  sameAudio (mockFetchPlaneData now draw st) st.
Proof.
  unfold mockFetchPlaneData, sameAudio.
  handler_cases; repeat split.
Qed.

Lemma speak_while_speaking (st : State Detected) :
  isSpeaking st = true -> VCompass.handleSpeakDirection st = st.
Proof. intros H. unfold VCompass.handleSpeakDirection. now rewrite H. Qed.

Lemma speak_oneClip (st : State Detected) :
  oneClip st -> oneClip (VCompass.handleSpeakDirection st).
Proof.
  intros Hst. unfold VCompass.handleSpeakDirection.
  destruct (isSpeaking st || negb (isSome (detectedPlane st))); [exact Hst|].
  cbn. destruct (userLocation st); [|unfold oneClip; cbn; split; [lia|congruence]].
  destruct (detectedPlane st); [|unfold oneClip; cbn; split; [lia|congruence]].
  apply playQueue_oneClip. reflexivity.
Qed.

Lemma handle_oneClip ev (w : VCompassLoop.World) :
  oneClip (VCompassLoop.app w) -> oneClip (VCompassLoop.handle ev w).
Proof.
  intros Hst. destruct ev; cbn.
  - unfold VCompass.handleStartStopClick, oneClip.
    handler_cases; split; cbn; solve [lia | congruence].
  - unfold VCompass.handleMockModeClick, oneClip.
    handler_cases; split; cbn; solve [lia | congruence].
  - exact Hst.
  - exact Hst.
  - destruct (VCompassLoop.pollInterval _); [|exact Hst].
    destruct (poll_audio result (VCompassLoop.app w)) as (_ & Hs & Hp).
    unfold oneClip. now rewrite Hs, Hp.
  - destruct (VCompassLoop.mockInterval _); [|exact Hst].
    destruct (mock_audio now draw (VCompassLoop.app w)) as (_ & Hs & Hp).
    unfold oneClip. now rewrite Hs, Hp.
  - destruct (VCompassLoop.scanningInterval _); exact Hst.
  - now apply speak_oneClip.
  - destruct (playing (VCompassLoop.app w)) eqn:E; [exact Hst|].
    apply playQueue_oneClip. reflexivity.
  - destruct (playing (VCompassLoop.app w)) eqn:E; [exact Hst|].
    unfold oneClip. cbn. split; [lia|congruence].
  - destruct (VCompassLoop.pollInterval _); [|exact Hst].
    destruct (fetchStarts_status (VCompassLoop.app w)) as [->| ->]; exact Hst.
  - destruct (nth_error _ _) as [f|]; [|exact Hst].
    destruct (lands_audio f result (VCompassLoop.app w)) as (_ & Hs & Hp).
    unfold oneClip. now rewrite Hs, Hp.
Qed.

Lemma step_oneClip ev (w : VCompassLoop.World) :
  oneClip (VCompassLoop.app w) -> oneClip (VCompassLoop.app (VCompassLoop.step w ev)).
Proof.
  intros Hw. unfold VCompassLoop.step.
  destruct (commit_status w (VCompassLoop.handle ev w) (VCompassLoop.flights ev w))
    as [->| ->]; now apply handle_oneClip.
Qed.

Lemma run_oneClip events : forall w : VCompassLoop.World,
  oneClip (VCompassLoop.app w) ->
  oneClip (VCompassLoop.app (VCompassLoop.run w events)).
Proof.
  induction events as [|ev events IH]; intros w Hw; [exact Hw|].
  cbn. apply IH. now apply step_oneClip.
Qed.

(** While a clip sounds, only its end lets another clip start. *)
Lemma no_start_during_clip ev (w : VCompassLoop.World) :
  oneClip (VCompassLoop.app w) ->
  playing (VCompassLoop.app w) <> [] ->
  ev <> VCompassLoop.ClipEnded ->
  playing (VCompassLoop.handle ev w) = playing (VCompassLoop.app w)
  \/ playing (VCompassLoop.handle ev w) = [].
Proof.
  intros [_ Hflag] Hp Hev. specialize (Hflag Hp). destruct ev; cbn.
  - right. unfold VCompass.handleStartStopClick. handler_cases; reflexivity.
  - right. unfold VCompass.handleMockModeClick. handler_cases; reflexivity.
  - now left.
  - now left.
  - left. destruct (VCompassLoop.pollInterval _); [|reflexivity].
    apply (poll_audio result (VCompassLoop.app w)).
  - left. destruct (VCompassLoop.mockInterval _); [|reflexivity].
    apply (mock_audio now draw (VCompassLoop.app w)).
  - left. destruct (VCompassLoop.scanningInterval _); reflexivity.
  - left. now rewrite speak_while_speaking.
  - congruence.
  - right. destruct (playing (VCompassLoop.app w)); [congruence|reflexivity].
  - left. destruct (VCompassLoop.pollInterval _); [|reflexivity].
    destruct (fetchStarts_status (VCompassLoop.app w)) as [->| ->]; reflexivity.
  - left. destruct (nth_error _ _) as [f|]; [|reflexivity].
    apply (lands_audio f result (VCompassLoop.app w)).
Qed.

(** What a step leaves in every cell but the status line is what its
    handler left. *)
Lemma step_cells (w : VCompassLoop.World) ev :
  sameTracking (VCompassLoop.app (VCompassLoop.step w ev)) (VCompassLoop.handle ev w)
  /\ sameAudio (VCompassLoop.app (VCompassLoop.step w ev)) (VCompassLoop.handle ev w).
Proof.
  unfold VCompassLoop.step.
  destruct (commit_status w (VCompassLoop.handle ev w) (VCompassLoop.flights ev w))
    as [->| ->]; split; repeat split.
Qed.

End AudioFacts.

(** ** Effects and timers *)

Lemma sameIdentity_refl a : sameIdentity a a = true.
Proof. destruct a; cbn; [apply Nat.eqb_refl|reflexivity]. Qed.

Lemma sameIdentity_isSome {A : Type} (c c' : option A) r r' :
  sameIdentity (identity c r) (identity c' r') = true -> isSome c = isSome c'.
Proof. destruct c, c'; cbn; congruence. Qed.

(** An effect that is not run again would have registered the same thing. *)
Lemma scan_deps_sound {P : Type} (prev next : State P) :
  VCompassLoop.scanDepsChanged prev next = false ->
  VCompassLoop.scanWanted next = VCompassLoop.scanWanted prev.
Proof.
  unfold VCompassLoop.scanDepsChanged, VCompassLoop.scanWanted, VCompassLoop.samePlane.
  rewrite negb_false_iff, !andb_true_iff. intros [[Ht Hm] Hp].
  apply Bool.eqb_prop in Ht, Hm. apply sameIdentity_isSome in Hp.
  now rewrite Ht, Hm, Hp.
Qed.

Lemma rotate_deps_sound {P : Type} (prev next : State P) :
  VCompassLocalLoop.rotateDepsChanged prev next = false ->
  VCompassLocalLoop.rotateWanted next = VCompassLocalLoop.rotateWanted prev.
Proof.
  unfold VCompassLocalLoop.rotateDepsChanged, VCompassLocalLoop.rotateWanted,
    VCompassLoop.samePlane.
  rewrite negb_false_iff, !andb_true_iff. intros [Ht Hp].
  apply Bool.eqb_prop in Ht. apply sameIdentity_isSome in Hp.
  now rewrite Ht, Hp.
Qed.

Lemma poll_deps_sound {P : Type} (prev next : State P) :
  VCompassLoop.pollDepsChanged prev next = false ->
  VCompassLoop.pollWanted next = VCompassLoop.pollWanted prev.
Proof.
  unfold VCompassLoop.pollDepsChanged, VCompassLoop.pollWanted, VCompassLoop.sameLocation.
  rewrite negb_false_iff, !andb_true_iff. intros [[Ht Hl] _].
  apply Bool.eqb_prop in Ht. apply sameIdentity_isSome in Hl.
  now rewrite Ht, Hl.
Qed.

(** A handler that leaves the tracking cells alone makes no effect run. *)
Lemma deps_unchanged {P : Type} (prev next : State P) :
  sameTracking next prev ->
  VCompassLoop.pollDepsChanged prev next = false
  /\ VCompassLoop.mockDepsChanged prev next = false
  /\ VCompassLoop.scanDepsChanged prev next = false
  /\ VCompassLocalLoop.pollDepsChanged prev next = false
  /\ VCompassLocalLoop.rotateDepsChanged prev next = false.
Proof.
  intros (Ht & Hm & Hl & Hlr & Hp & Hpr & _).
  unfold VCompassLoop.pollDepsChanged, VCompassLoop.mockDepsChanged,
    VCompassLoop.scanDepsChanged, VCompassLocalLoop.pollDepsChanged,
    VCompassLocalLoop.rotateDepsChanged, VCompassLoop.sameLocation,
    VCompassLoop.samePlane.
  rewrite Ht, Hm, Hl, Hlr, Hp, Hpr, !Bool.eqb_reflx, !sameIdentity_refl.
  repeat split.
Qed.

(** The request the polling effect sends at once changes nothing the
    effects test. *)
Lemma setup_wanted (c : bool) (st : State Detected) :
  VCompassLoop.scanWanted (if c then fst (VCompass.fetchStarts st) else st)
  = VCompassLoop.scanWanted st
  /\ VCompassLoop.pollWanted (if c then fst (VCompass.fetchStarts st) else st)
     = VCompassLoop.pollWanted st
  /\ VCompassLoop.mockWanted (if c then fst (VCompass.fetchStarts st) else st)
     = VCompassLoop.mockWanted st.
Proof.
  destruct c; [|repeat split].
  destruct (fetchStarts_status st) as [->| ->]; repeat split.
Qed.

Ltac setup_wanted :=
  match goal with
  | |- context [if ?c then fst (VCompass.fetchStarts ?s) else ?s] =>
      let Hs := fresh in let Hp := fresh in let Hm := fresh in
      destruct (setup_wanted c s) as (Hs & Hp & Hm); rewrite ?Hs, ?Hp, ?Hm;
      clear Hs Hp Hm
  end.

Section LoopFacts.

Context {M : JS.Math}.

Lemma step_timersFollow w ev :
  timersFollow w -> timersFollow (VCompassLoop.step w ev).
Proof.
  intros [Hs Hp]. unfold timersFollow, VCompassLoop.step, VCompassLoop.commit, useEffect.
  cbn [VCompassLoop.app VCompassLoop.timers VCompassLoop.scanningInterval
       VCompassLoop.pollInterval].
  setup_wanted. split.
  - destruct (VCompassLoop.scanDepsChanged _ _) eqn:E; [reflexivity|].
    rewrite Hs. symmetry. now apply scan_deps_sound.
  - destruct (VCompassLoop.pollDepsChanged _ _) eqn:E; [reflexivity|].
    rewrite Hp. symmetry. now apply poll_deps_sound.
Qed.

Lemma run_timersFollow events : forall w,
  timersFollow w -> timersFollow (VCompassLoop.run w events).
Proof.
  induction events as [|ev events IH]; intros w Hw; [exact Hw|].
  cbn. apply IH. now apply step_timersFollow.
Qed.

Lemma pollEffectStatus_rotateWanted {P : Type} (st : State P) :
  VCompassLocalLoop.rotateWanted (VCompassLocalLoop.pollEffectStatus st)
  = VCompassLocalLoop.rotateWanted st.
Proof.
  unfold VCompassLocalLoop.pollEffectStatus.
  destruct (VCompassLocalLoop.pollWanted st); [reflexivity|].
  destruct (negb (isTracking st)); reflexivity.
Qed.

Lemma handle_frame ev (w : VCompassLocalLoop.World) :
  frameFollows w ->
  VCompassLocalLoop.animationFrame (VCompassLocalLoop.timers (VCompassLocalLoop.handle ev w))
  = VCompassLocalLoop.animationFrame (VCompassLocalLoop.timers w).
Proof.
  intros Hw. destruct ev; cbn; try reflexivity.
  - destruct (VCompassLocalLoop.animationFrame (VCompassLocalLoop.timers w)) eqn:E;
      [reflexivity|exact E].
  - destruct (VCompassLocalLoop.pollInterval (VCompassLocalLoop.timers w)); reflexivity.
  - destruct (nth_error (VCompassLocalLoop.inFlight w) k); reflexivity.
Qed.

Lemma local_step_frameFollows w ev :
  frameFollows w -> frameFollows (VCompassLocalLoop.step w ev).
Proof.
  intros Hw. pose proof (handle_frame ev w Hw) as Hf.
  unfold frameFollows, VCompassLocalLoop.step, VCompassLocalLoop.commit, useEffect in *.
  cbn.
  assert (forall (c : bool) (st : State Detected),
            VCompassLocalLoop.rotateWanted
              (if c then VCompassLocalLoop.pollEffectStatus st else st)
            = VCompassLocalLoop.rotateWanted st) as Hstatus
    by (intros [] st; [apply pollEffectStatus_rotateWanted|reflexivity]).
  rewrite Hstatus.
  destruct (VCompassLocalLoop.rotateDepsChanged _ _) eqn:E; [reflexivity|].
  rewrite Hf, Hw. symmetry. now apply rotate_deps_sound.
Qed.

Lemma local_run_frameFollows events : forall w,
  frameFollows w -> frameFollows (VCompassLocalLoop.run w events).
Proof.
  induction events as [|ev events IH]; intros w Hw; [exact Hw|].
  cbn. apply IH. now apply local_step_frameFollows.
Qed.

(** A failed poll changes the status line only. *)
Lemma poll_error (st : State Detected) :
  VCompass.fetchRealPlaneData FetchError st
  = match userLocation st with
    | Some _ => setStatusMessage "Error connecting to server. Is it running?" st
    | None => st
    end.
Proof. unfold VCompass.fetchRealPlaneData. destruct (userLocation st); reflexivity. Qed.

Lemma local_poll_error (st : State Detected) :
  VCompassLocal.fetchRealPlaneData FetchError st
  = match userLocation st with
    | Some _ => setStatusMessage "Error connecting to server. Is it running?" st
    | None => st
    end.
Proof. unfold VCompassLocal.fetchRealPlaneData. destruct (userLocation st); reflexivity. Qed.

Lemma setStatusMessage_tracking {P : Type} msg (st : State P) :
  sameTracking (setStatusMessage msg st) st.
Proof. repeat split. Qed.

Lemma sameTracking_refl {P : Type} (st : State P) : sameTracking st st.
Proof. repeat split. Qed.

Lemma failed_poll_step (w : VCompassLoop.World) :
  VCompassLoop.timers (VCompassLoop.step w (VCompassLoop.Poll FetchError))
  = VCompassLoop.timers w
  /\ sameTracking (VCompassLoop.app (VCompassLoop.step w (VCompassLoop.Poll FetchError)))
                  (VCompassLoop.app w).
Proof.
  unfold VCompassLoop.step, VCompassLoop.commit, useEffect.
  set (next := VCompassLoop.handle _ w).
  assert (sameTracking next (VCompassLoop.app w)) as Hsame.
  { subst next. cbn. destruct (VCompassLoop.pollInterval _); [|apply sameTracking_refl].
    rewrite poll_error. destruct (userLocation _);
      [apply setStatusMessage_tracking|apply sameTracking_refl]. }
  destruct (deps_unchanged _ _ Hsame) as (-> & -> & -> & _). cbn.
  split; [|exact Hsame]. destruct (VCompassLoop.timers w); reflexivity.
Qed.

Lemma local_failed_poll_step (w : VCompassLocalLoop.World) :
  VCompassLocalLoop.timers (VCompassLocalLoop.step w (VCompassLocalLoop.Poll FetchError))
  = VCompassLocalLoop.timers w
  /\ sameTracking
       (VCompassLocalLoop.app (VCompassLocalLoop.step w (VCompassLocalLoop.Poll FetchError)))
       (VCompassLocalLoop.app w).
Proof.
  unfold VCompassLocalLoop.step, VCompassLocalLoop.commit, useEffect. cbn.
  set (next := if VCompassLocalLoop.pollInterval _ then _ else _).
  assert (sameTracking next (VCompassLocalLoop.app w)) as Hsame.
  { subst next. destruct (VCompassLocalLoop.pollInterval _); [|apply sameTracking_refl].
    rewrite local_poll_error. destruct (userLocation _);
      [apply setStatusMessage_tracking|apply sameTracking_refl]. }
  destruct (deps_unchanged _ _ Hsame) as (_ & _ & _ & -> & ->). cbn.
  split; [|exact Hsame]. destruct (VCompassLocalLoop.timers w); reflexivity.
Qed.

End LoopFacts.

(** ** Narration requests *)

Lemma playQueue_setBearing {P : Type} b queue : forall st : State P,
  VCompass.playQueue queue (setBearing b st)
  = setBearing b (VCompass.playQueue queue st).
Proof.
  induction queue as [|name queue IH]; intros st; cbn; [reflexivity|].
  destruct (VCompass.soundFiles name); [reflexivity|].
  exact (IH (setIsSpeaking true (setAudioQueue queue st))).
Qed.

Lemma tokenQueue_setBearing {P : Type} b queue : forall st : State P,
  TokenAudio.playQueue queue (setBearing b st)
  = setBearing b (TokenAudio.playQueue queue st).
Proof.
  induction queue as [|name queue IH]; intros st; cbn; [reflexivity|].
  destruct (TokenAudio.audioRefs name); [reflexivity|].
  exact (IH (setIsSpeaking true (setAudioQueue queue st))).
Qed.

Lemma tokenQueue_setDetectedPlane {P : Type} p queue : forall st : State P,
  TokenAudio.playQueue queue (setDetectedPlane p st)
  = setDetectedPlane p (TokenAudio.playQueue queue st).
Proof.
  induction queue as [|name queue IH]; intros st; cbn; [reflexivity|].
  destruct (TokenAudio.audioRefs name); [reflexivity|].
  exact (IH (setIsSpeaking true (setAudioQueue queue st))).
Qed.

Section SpeakFacts.

Context {M : JS.Math}.

(** part_000: the bearing that is classified is computed from the two
    positions; the [bearing] cell is neither read nor written. *)
Lemma speak_fresh (st : State Detected) location detected :
  isSpeaking st = false ->
  userLocation st = Some location ->
  detectedPlane st = Some detected ->
  VCompass.handleSpeakDirection st
  = VCompass.playNextInQueue
      (setAudioQueue (Named.getDirectionPhrase (bearingTo location (plane detected)))
                     (VCompass.stopAllAudio st))
  /\ VCompassLocal.handleSpeakDirection st
     = TokenAudio.playNextInQueue
         (setAudioQueue (Compound.getDirectionPhrase (bearingTo location (plane detected)))
                        st).
Proof.
  intros Hs Hl Hd.
  unfold VCompass.handleSpeakDirection, VCompassLocal.handleSpeakDirection.
  rewrite Hs, Hd. cbn. rewrite Hl, Hd. split; reflexivity.
Qed.

Lemma speak_ignores_bearing (st : State Detected) b :
  VCompass.handleSpeakDirection (setBearing b st)
  = setBearing b (VCompass.handleSpeakDirection st)
  /\ VCompassLocal.handleSpeakDirection (setBearing b st)
     = setBearing b (VCompassLocal.handleSpeakDirection st).
Proof.
  unfold VCompass.handleSpeakDirection, VCompassLocal.handleSpeakDirection. cbn.
  destruct (isSpeaking st || negb (isSome (detectedPlane st))); [split; reflexivity|].
  destruct (userLocation st); [|split; reflexivity].
  destruct (detectedPlane st); [|split; reflexivity].
  split.
  - unfold VCompass.playNextInQueue. cbn.
    exact (playQueue_setBearing b _ (setAudioQueue _ (VCompass.stopAllAudio st))).
  - unfold TokenAudio.playNextInQueue. cbn.
    exact (tokenQueue_setBearing b _ (setAudioQueue _ st)).
Qed.

(** App.jsx: the [bearing] cell is what is classified; [detectedPlane] is
    neither read nor written. *)
Lemma skyPing_speak (st : State SkyPing.Plane) :
  isSpeaking st = false ->
  SkyPing.handleSpeakDirection st
  = TokenAudio.playNextInQueue
      (setAudioQueue (Compound.getDirectionPhrase (bearing st)) st).
Proof. intros Hs. unfold SkyPing.handleSpeakDirection. now rewrite Hs. Qed.

Lemma skyPing_speak_ignores_plane (st : State SkyPing.Plane) p :
  SkyPing.handleSpeakDirection (setDetectedPlane p st)
  = setDetectedPlane p (SkyPing.handleSpeakDirection st).
Proof.
  unfold SkyPing.handleSpeakDirection. cbn.
  destruct (isSpeaking st); [reflexivity|].
  unfold TokenAudio.playNextInQueue. cbn.
  exact (tokenQueue_setDetectedPlane p _ (setAudioQueue _ st)).
Qed.

End SpeakFacts.

(* ================================================================== *)
(** * The claims *)
(* ================================================================== *)

(** C1: the notification candidate is claimed to be the qualifying sighting
    of minimum distance.  The loop keeps no distance for the candidate: every
    qualifying sighting overwrites [closestPlaneForNotification], so the
    candidate is the last qualifying sighting in list order, and none when no
    sighting qualifies.  With two qualifying sightings, the nearer one first,
    the poll notifies the farther one. *)
Theorem candidate_is_last_qualifying_not_nearest :
  (forall (M : JS.Math) location planes,
     candidate location planes
     = option_map withAltitudeFt (lastOf (filter (qualifies location) planes)))
  /\ (forall (M : JS.Math) location planes,
        candidate location planes = None
        <-> forall p, In p planes -> qualifies location p = false)
  /\ let M := RefMath.math in
     let planes := [Example.near; Example.far] in
     qualifies Example.user Example.near = true
     /\ qualifies Example.user Example.far = true
     /\ (distanceTo Example.user Example.near <? distanceTo Example.user Example.far) = true
     /\ candidate Example.user planes = Some (withAltitudeFt Example.far)
     /\ identityOf (detectedPlane
                      (VCompass.fetchRealPlaneData (FetchOk planes) Example.tracking))
        = Some "far2"
     /\ identityOf (detectedPlane
                      (VCompassLocal.fetchRealPlaneData (FetchOk planes) Example.tracking))
        = Some "far2"
     /\ compassTarget Example.user planes = Some Example.near.
Proof.
  split; [intros; apply candidate_last_qualifying|].
  split; [intros; apply candidate_none|].
  cbv zeta. repeat split; vm_compute; reflexivity.
Qed.

(** C3: in every poll the compass target is a sighting from which no other
    sighting is strictly closer, whether or not it meets the admission
    thresholds, and the bearing the poll commits is the bearing to it; there
    is no target only when no sighting lies below [Infinity].  When every
    distance is a finite number the target of a non-empty list is a sighting
    of minimum distance.  With an empty list there is no compass target, the
    poll leaves the bearing as it was and nothing is notified, which is the
    condition of the idle rotation. *)
Theorem compass_points_at_nearest {M : JS.Math}
  (st : State Detected) (location : LatLng.t) (planes : list Plane) :
  userLocation st = Some location ->
  match compassTarget location planes with
  | Some nearest =>
      In nearest planes
      /\ (forall q, In q planes ->
            (distanceTo location q <? distanceTo location nearest) = false)
      /\ bearing (VCompass.fetchRealPlaneData (FetchOk planes) st)
         = bearingTo location nearest
      /\ bearing (VCompassLocal.fetchRealPlaneData (FetchOk planes) st)
         = bearingTo location nearest
  | None =>
      (forall q, In q planes -> (distanceTo location q <? infinity) = false)
      /\ bearing (VCompass.fetchRealPlaneData (FetchOk planes) st) = bearing st
      /\ bearing (VCompassLocal.fetchRealPlaneData (FetchOk planes) st) = bearing st
  end
  /\ ((forall q, In q planes -> (distanceTo location q <? infinity) = true) ->
      planes <> [] ->
      exists nearest,
        In nearest planes
        /\ (forall q, In q planes ->
              (distanceTo location nearest <=? distanceTo location q) = true)
        /\ compassTarget location planes = Some nearest
        /\ bearing (VCompass.fetchRealPlaneData (FetchOk planes) st)
           = bearingTo location nearest
        /\ bearing (VCompassLocal.fetchRealPlaneData (FetchOk planes) st)
           = bearingTo location nearest)
  /\ (planes = [] ->
        compassTarget location planes = None
        /\ bearing (VCompass.fetchRealPlaneData (FetchOk planes) st) = bearing st
        /\ bearing (VCompassLocal.fetchRealPlaneData (FetchOk planes) st) = bearing st
        /\ detectedPlane (VCompass.fetchRealPlaneData (FetchOk planes) st) = None
        /\ detectedPlane (VCompassLocal.fetchRealPlaneData (FetchOk planes) st) = None).
Proof.
  intros Hloc. destruct (poll_bearing st location planes Hloc) as [Hb Hb'].
  split; [|split].
  - pose proof (compassInvariant_scanPlanes location planes) as Inv.
    unfold compassInvariant in Inv. rewrite Hb, Hb'. unfold compassTarget.
    destruct (closestPlaneForCompass (scanPlanes location planes)) as [p|].
    + destruct Inv as (Hin & _ & _ & Hmin). repeat split; assumption.
    + destruct Inv as (_ & Hnone). repeat split; assumption.
  - intros Hfin Hne.
    destruct (compassTarget_nearest location planes Hne Hfin) as (p & Hp & Hin & Hmin).
    exists p. rewrite Hb, Hb', Hp. repeat split; auto.
  - intros ->. rewrite Hb, Hb'.
    unfold VCompass.fetchRealPlaneData, VCompassLocal.fetchRealPlaneData.
    rewrite Hloc. repeat split.
Qed.

Lemma compass_points_at_nearest_witness :
  let M := RefMath.math in
  let planes := [Example.near; Example.far; Example.low] in
  qualifies Example.user Example.low = false
  /\ exists nearest,
       In nearest planes
       /\ (forall q, In q planes ->
             (distanceTo Example.user nearest <=? distanceTo Example.user q) = true)
       /\ compassTarget Example.user planes = Some nearest
       /\ bearing (VCompass.fetchRealPlaneData (FetchOk planes) Example.tracking)
          = bearingTo Example.user nearest
       /\ bearing (VCompassLocal.fetchRealPlaneData (FetchOk planes) Example.tracking)
          = bearingTo Example.user nearest.
Proof.
  cbv zeta. split; [vm_compute; reflexivity|].
  apply (@compass_points_at_nearest RefMath.math Example.tracking Example.user
           [Example.near; Example.far; Example.low] eq_refl).
  - intros q [<-|[<-|[<-|[]]]]; vm_compute; reflexivity.
  - discriminate.
Defined.

(** C2: the debounce is claimed with respect to the plane that is notified
    when the cycle is evaluated.  [mockFetchPlaneData] of App.jsx is
    synchronous and does that.  [fetchRealPlaneData] is asynchronous: the
    test [!detectedPlane || detectedPlane.icao24 !== ...] of its continuation
    reads the [detectedPlane] of its closure, the plane that was notified when
    the request left.  For a request that is answered before anything else
    happens the two planes are the same and the rule of the claim holds.
    When two requests are in flight, both sent while nothing was notified,
    both responses notify the same aircraft: the second one plays the sound
    although the aircraft it finds is the one notified.  And as the candidate
    is the last qualifying sighting of the list, an aircraft that meets the
    thresholds in three consecutive polls is announced twice when another
    one is listed after it in the second poll. *)
Theorem debounce_compares_with_the_plane_of_the_closure :
  (forall (M : JS.Math) (f : Fetch) planes (st : State Detected),
     let st' := VCompass.fetchLands f (FetchOk planes) st in
     match candidate (seenLocation f) planes with
     | None =>
         detectedPlane st' = None /\ notificationPlays st' = notificationPlays st
     | Some c =>
         (identityOf (seenPlane f) = Some (icao24 (plane c)) ->
            detectedPlane st' = detectedPlane st
            /\ detectedPlaneRef st' = detectedPlaneRef st
            /\ notificationPlays st' = notificationPlays st)
         /\ (identityOf (seenPlane f) <> Some (icao24 (plane c)) ->
               detectedPlane st'
               = Some {| plane := plane c; altitude_ft := altitude_ft c;
                         isMock := Some false |}
               /\ notificationPlays st' = S (notificationPlays st))
     end)
  /\ (forall (M : JS.Math) (s : State Detected) location planes,
        userLocation s = Some location ->
        let s' := VCompass.fetchRealPlaneData (FetchOk planes) s in
        match candidate location planes with
        | None =>
            detectedPlane s' = None /\ notificationPlays s' = notificationPlays s
        | Some c =>
            (identityOf (detectedPlane s) = Some (icao24 (plane c)) ->
               detectedPlane s' = detectedPlane s
               /\ detectedPlaneRef s' = detectedPlaneRef s
               /\ notificationPlays s' = notificationPlays s)
            /\ (identityOf (detectedPlane s) <> Some (icao24 (plane c)) ->
                  detectedPlane s'
                  = Some {| plane := plane c; altitude_ft := altitude_ft c;
                            isMock := Some false |}
                  /\ notificationPlays s' = S (notificationPlays s))
        end)
  /\ (forall (M : JS.Math) (s : State SkyPing.Plane) location now draw,
        userLocation s = Some location ->
        let s' := SkyPing.mockFetchPlaneData now draw s in
        let id := "mock" ++ JS.toString now in
        if skyPingQualifies location (now, draw)
        then (option_map SkyPing.icao24 (detectedPlane s) = Some id ->
                detectedPlane s' = detectedPlane s
                /\ notificationPlays s' = notificationPlays s)
             /\ (option_map SkyPing.icao24 (detectedPlane s) <> Some id ->
                   detectedPlane s' = Some (SkyPing.mockPlane location now draw)
                   /\ notificationPlays s' = S (notificationPlays s))
        else detectedPlane s' = None /\ notificationPlays s' = notificationPlays s)
  /\ (let M := RefMath.math in
      let before :=
        VCompassLoop.run VCompassLoop.mounted (removelast Example3.overlappingEvents) in
      let after := VCompassLoop.run VCompassLoop.mounted Example3.overlappingEvents in
      nth_error (VCompassLoop.inFlight before) 0
      = Some {| seenLocation := Example.user; seenPlane := None |}
      /\ identityOf (detectedPlane (VCompassLoop.app before)) = Some "near1"
      /\ identityOf (candidate Example.user [Example.near]) = Some "near1"
      /\ notificationPlays (VCompassLoop.app before) = 1%nat
      /\ after = VCompassLoop.step before (VCompassLoop.FetchLands 0 (FetchOk [Example.near]))
      /\ identityOf (detectedPlane (VCompassLoop.app after)) = Some "near1"
      /\ notificationPlays (VCompassLoop.app after) = 2%nat)
  /\ (let M := RefMath.math in
      let after :=
        VCompassLocalLoop.run VCompassLocalLoop.mounted Example3.localOverlappingEvents in
      identityOf (detectedPlane (VCompassLocalLoop.app after)) = Some "near1"
      /\ notificationPlays (VCompassLocalLoop.app after) = 2%nat)
  /\ (let M := RefMath.math in
      Forall (fun planes => qualifies Example.user Example.near = true
                            /\ In Example.near planes) Example4.crowded
      /\ map (fun planes => identityOf (candidate Example.user planes)) Example4.crowded
         = [Some "near1"; Some "far2"; Some "near1"]
      /\ notificationPlays (polls Example4.crowded Example.tracking) = 3%nat).
Proof.
  split; [intros M f planes st; apply lands_debounce|].
  split; [intros M s location planes Hs; exact (proj2 (poll_debounce s location planes Hs))|].
  split.
  { intros M s location now draw Hs. cbv zeta.
    destruct (skyPing_cycle s location now draw Hs) as (_ & Hq & Hnq).
    destruct (skyPingQualifies location (now, draw)).
    - destruct (Hq eq_refl) as [Hnew Hsame]. split; assumption.
    - exact (Hnq eq_refl). }
  split; [cbv zeta; repeat split; vm_compute; reflexivity|].
  split; [cbv zeta; split; vm_compute; reflexivity|].
  cbv zeta. split; [|split; vm_compute; reflexivity].
  repeat (apply Forall_cons; [split; [vm_compute; reflexivity|cbn; tauto]|]).
  apply Forall_nil.
Qed.

(** C10, the claim as stated fails: two mock cycles in the same millisecond
    generate the same identity, so the second one, which meets the
    thresholds, finds its identity notified and is suppressed.  In the first
    file of part_000 the effect that sets the mock interval up calls
    [mockFetchPlaneData] at once, again after the notification, so cycles in
    one millisecond do occur: here mock mode is switched on, the first call
    notifies, the second call falls in the same millisecond. *)
Lemma mock_cycles_in_one_millisecond_are_debounced :
  let M := RefMath.math in
  let once := VCompassLoop.run VCompassLoop.mounted Example3.mockEvents in
  let twice := VCompassLoop.step once (VCompassLoop.MockPoll 1730000000000 Example.draw) in
  mockQualifies Example.user (1730000000000%N, Example.draw) = true
  /\ VCompassLoop.mockInterval (VCompassLoop.timers once) = true
  /\ icao24 (mockPlane Example.user 1730000000000 Example.draw) = "mock1730000000000"
  /\ identityOf (detectedPlane (VCompassLoop.app once)) = Some "mock1730000000000"
  /\ notificationPlays (VCompassLoop.app once) = 1%nat
  /\ notificationPlays (VCompassLoop.app twice) = 1%nat
  /\ List.length (filter (mockQualifies Example.user) Example4.sameMillisecond) = 2%nat
  /\ notificationPlays (mockPolls Example4.sameMillisecond Example.mocking) = 1%nat
  /\ List.length (filter (skyPingQualifies Example.user) Example4.sameMillisecond) = 2%nat
  /\ notificationPlays (skyPingPolls Example4.sameMillisecond Example.skyTracking) = 1%nat.
Proof. cbv zeta. repeat split; vm_compute; reflexivity. Qed.

(** C10 (amended): the identity of a mock sighting is ["mock"] followed by
    the timestamp of its cycle, in milliseconds, so two cycles have the same
    identity exactly when they have the same timestamp.  A mock cycle that
    meets the thresholds fires when its identity is not the notified one, and
    is suppressed when it is: when the notified plane is the mock sighting of
    the same millisecond.  Over any cycles the notification sound is played
    once for every qualifying cycle whose identity is not the one notified
    before it; over cycles with increasing timestamps, started with nothing
    notified, once for every qualifying cycle: none is suppressed. *)
Theorem mock_identity_is_the_timestamp {M : JS.Math}
  (st : State Detected) (sky : State SkyPing.Plane)
  (location : LatLng.t) (cycles : list (N * MockDraw)) :
  userLocation st = Some location ->
  userLocation sky = Some location ->
  (forall now draw,
     icao24 (mockPlane location now draw) = "mock" ++ JS.toString now
     /\ SkyPing.icao24 (SkyPing.mockPlane location now draw) = "mock" ++ JS.toString now)
  /\ (forall earlier now,
        "mock" ++ JS.toString earlier = "mock" ++ JS.toString now <-> earlier = now)
  /\ (forall (s : State Detected) now draw,
        userLocation s = Some location ->
        mockQualifies location (now, draw) = true ->
        let s' := mockFetchPlaneData now draw s in
        (identityOf (detectedPlane s) <> Some ("mock" ++ JS.toString now) ->
           identityOf (detectedPlane s') = Some ("mock" ++ JS.toString now)
           /\ notificationPlays s' = S (notificationPlays s))
        /\ (identityOf (detectedPlane s) = Some ("mock" ++ JS.toString now) ->
              detectedPlane s' = detectedPlane s
              /\ notificationPlays s' = notificationPlays s))
  /\ (forall (s : State SkyPing.Plane) now draw,
        userLocation s = Some location ->
        skyPingQualifies location (now, draw) = true ->
        let s' := SkyPing.mockFetchPlaneData now draw s in
        (option_map SkyPing.icao24 (detectedPlane s) <> Some ("mock" ++ JS.toString now) ->
           detectedPlane s' = Some (SkyPing.mockPlane location now draw)
           /\ notificationPlays s' = S (notificationPlays s))
        /\ (option_map SkyPing.icao24 (detectedPlane s) = Some ("mock" ++ JS.toString now) ->
              detectedPlane s' = detectedPlane s
              /\ notificationPlays s' = notificationPlays s))
  /\ notificationPlays (mockPolls cycles st)
     = (notificationPlays st
        + announcements (identityOf (detectedPlane st))
            (map (mockCandidate location) cycles))%nat
  /\ notificationPlays (skyPingPolls cycles sky)
     = (notificationPlays sky
        + announcements (option_map SkyPing.icao24 (detectedPlane sky))
            (map (skyPingCandidate location) cycles))%nat
  /\ (Sorted N.lt (map fst cycles) ->
      (detectedPlane st = None ->
         notificationPlays (mockPolls cycles st)
         = (notificationPlays st
            + List.length (filter (mockQualifies location) cycles))%nat)
      /\ (detectedPlane sky = None ->
            notificationPlays (skyPingPolls cycles sky)
            = (notificationPlays sky
               + List.length (filter (skyPingQualifies location) cycles))%nat)).
Proof.
  intros Hloc Hsloc.
  split; [intros; split; reflexivity|].
  split.
  { intros earlier now. split; [apply mock_identity_inj|now intros ->]. }
  split.
  { intros s now draw Hs Q.
    destruct (mock_cycle s location now draw Hs) as (_ & Hq & _). exact (Hq Q). }
  split.
  { intros s now draw Hs Q.
    destruct (skyPing_cycle s location now draw Hs) as (_ & Hq & _). exact (Hq Q). }
  split; [now apply mockPolls_announcements|].
  split; [now apply skyPingPolls_announcements|].
  intros Hinc. split.
  - intros Hd. apply (mockPolls_count location cycles st 0%N Hloc); auto.
    + rewrite Hd. exact I.
    + apply Forall_forall. intros; lia.
  - intros Hsd. apply (skyPingPolls_count location cycles sky 0%N Hsloc); auto.
    + rewrite Hsd. exact I.
    + apply Forall_forall. intros; lia.
Qed.

Lemma mock_identity_is_the_timestamp_witness :
  let M := RefMath.math in
  map (mockCandidate Example.user) Example.cycles
  = [Some "mock1730000000000"; Some "mock1730000025000"; Some "mock1730000050000"]
  /\ notificationPlays (mockPolls Example.cycles Example.mocking) = 3%nat
  /\ notificationPlays (skyPingPolls Example.cycles Example.skyTracking) = 3%nat
  /\ map (mockCandidate Example.user) Example4.sameMillisecond
     = [Some "mock1730000000000"; Some "mock1730000000000"]
  /\ notificationPlays (mockPolls Example4.sameMillisecond Example.mocking) = 1%nat.
Proof.
  cbv zeta. split; [vm_compute; reflexivity|].
  destruct (@mock_identity_is_the_timestamp RefMath.math Example.mocking
              Example.skyTracking Example.user Example.cycles eq_refl eq_refl)
    as (_ & _ & _ & _ & H1 & H2 & _).
  destruct (@mock_identity_is_the_timestamp RefMath.math Example.mocking
              Example.skyTracking Example.user Example4.sameMillisecond eq_refl eq_refl)
    as (_ & _ & _ & _ & H3 & _).
  split; [rewrite H1; vm_compute; reflexivity|].
  split; [rewrite H2; vm_compute; reflexivity|].
  split; [vm_compute; reflexivity|].
  rewrite H3. vm_compute. reflexivity.
Defined.

(** C6: at every state the tracking loop reaches, the idle rotation is
    registered exactly when tracking (live or mock) is on and no plane is
    notified: the 50 ms interval of the first file of part_000, and the
    animation frame of the second.  So it is never registered while a plane
    is notified, it is gone in the state that follows the event that
    notifies a plane or stops tracking, and its callback moves the bearing
    only while it is registered. *)
Theorem idle_rotation_only_while_searching {M : JS.Math}
  (events : list VCompassLoop.Event) (localEvents : list VCompassLocalLoop.Event) :
  let w := VCompassLoop.run VCompassLoop.mounted events in
  let v := VCompassLocalLoop.run VCompassLocalLoop.mounted localEvents in
  (VCompassLoop.scanningInterval (VCompassLoop.timers w)
   = (isTracking (VCompassLoop.app w) || isMockMode (VCompassLoop.app w))
     && negb (isSome (detectedPlane (VCompassLoop.app w))))
  /\ (detectedPlane (VCompassLoop.app w) <> None ->
        VCompassLoop.scanningInterval (VCompassLoop.timers w) = false)
  /\ (isTracking (VCompassLoop.app w) = false ->
      isMockMode (VCompassLoop.app w) = false ->
        VCompassLoop.scanningInterval (VCompassLoop.timers w) = false)
  /\ (forall ev,
        let w' := VCompassLoop.step w ev in
        VCompassLoop.scanningInterval (VCompassLoop.timers w')
        = (isTracking (VCompassLoop.app w') || isMockMode (VCompassLoop.app w'))
          && negb (isSome (detectedPlane (VCompassLoop.app w'))))
  /\ (VCompassLoop.scanningInterval (VCompassLoop.timers w) = false ->
        VCompassLoop.handle VCompassLoop.ScanTick w = VCompassLoop.app w)
  /\ (VCompassLocalLoop.animationFrame (VCompassLocalLoop.timers v)
      = isTracking (VCompassLocalLoop.app v)
        && negb (isSome (detectedPlane (VCompassLocalLoop.app v))))
  /\ (detectedPlane (VCompassLocalLoop.app v) <> None ->
        VCompassLocalLoop.animationFrame (VCompassLocalLoop.timers v) = false)
  /\ (isTracking (VCompassLocalLoop.app v) = false ->
        VCompassLocalLoop.animationFrame (VCompassLocalLoop.timers v) = false)
  /\ (forall ev,
        let v' := VCompassLocalLoop.step v ev in
        VCompassLocalLoop.animationFrame (VCompassLocalLoop.timers v')
        = isTracking (VCompassLocalLoop.app v')
          && negb (isSome (detectedPlane (VCompassLocalLoop.app v'))))
  /\ (forall time,
        VCompassLocalLoop.animationFrame (VCompassLocalLoop.timers v) = false ->
        VCompassLocalLoop.handle (VCompassLocalLoop.Frame time) v = v).
Proof.
  cbv zeta.
  assert (timersFollow (VCompassLoop.run VCompassLoop.mounted events)) as Hw
    by (apply run_timersFollow; split; reflexivity).
  assert (frameFollows (VCompassLocalLoop.run VCompassLocalLoop.mounted localEvents)) as Hv
    by (apply local_run_frameFollows; reflexivity).
  set (w := VCompassLoop.run VCompassLoop.mounted events) in *.
  set (v := VCompassLocalLoop.run VCompassLocalLoop.mounted localEvents) in *.
  destruct Hw as [Hs Hp]. unfold frameFollows in Hv.
  unfold VCompassLoop.scanWanted in Hs. unfold VCompassLocalLoop.rotateWanted in Hv.
  split; [exact Hs|].
  split.
  { intros Hd. rewrite Hs.
    destruct (detectedPlane (VCompassLoop.app w)) eqn:E; [|congruence].
    cbn. apply andb_false_r. }
  split; [intros Ht Hm; rewrite Hs, Ht, Hm; reflexivity|].
  split.
  { intros ev. exact (proj1 (step_timersFollow w ev (conj Hs Hp))). }
  split; [intros Hoff; cbn; rewrite Hoff; reflexivity|].
  split; [exact Hv|].
  split.
  { intros Hd. rewrite Hv.
    destruct (detectedPlane (VCompassLocalLoop.app v)) eqn:E; [|congruence].
    cbn. apply andb_false_r. }
  split; [intros Ht; rewrite Hv, Ht; reflexivity|].
  split.
  { intros ev. exact (local_step_frameFollows v ev Hv). }
  intros time Hoff. cbn. rewrite Hoff. reflexivity.
Qed.

(** C7: [stopAllAudio], called in any state, leaves no clip sounding, the
    queue empty and the flag cleared, touches nothing else, and changes
    nothing when nothing was playing.  At most one clip sounds at a time: a
    narration request while the flag is set is a no-op, [playNextInQueue]
    starts at most one clip, in every state the application reaches at most
    one clip sounds and the flag is set while it does, and while a clip
    sounds no event other than its end starts a clip.  In the files with one
    [Audio] object per token, a narration request and the end of a clip keep
    the same property: at most one clip sounds, and only while the flag is
    set. *)
Theorem stopAll_and_one_clip_at_a_time {M : JS.Math}
  (st : State Detected) (events : list VCompassLoop.Event) :
  (let st' := VCompass.stopAllAudio st in
   playing st' = [] /\ audioQueue st' = [] /\ isSpeaking st' = false
   /\ sameTracking st' st /\ statusMessage st' = statusMessage st)
  /\ (playing st = [] -> audioQueue st = [] -> isSpeaking st = false ->
        VCompass.stopAllAudio st = st)
  /\ (isSpeaking st = true -> VCompass.handleSpeakDirection st = st)
  /\ ((exists src, playing (VCompass.playNextInQueue st) = [src]
                   /\ isSpeaking (VCompass.playNextInQueue st) = true)
      \/ (playing (VCompass.playNextInQueue st) = playing st
          /\ isSpeaking (VCompass.playNextInQueue st) = false
          /\ audioQueue (VCompass.playNextInQueue st) = []))
  /\ (let w := VCompassLoop.run VCompassLoop.mounted events in
      (List.length (playing (VCompassLoop.app w)) <= 1)%nat
      /\ (playing (VCompassLoop.app w) <> [] -> isSpeaking (VCompassLoop.app w) = true)
      /\ forall ev,
          playing (VCompassLoop.app w) <> [] ->
          ev <> VCompassLoop.ClipEnded ->
          playing (VCompassLoop.app (VCompassLoop.step w ev))
          = playing (VCompassLoop.app w)
          \/ playing (VCompassLoop.app (VCompassLoop.step w ev)) = [])
  /\ (forall (sky : State SkyPing.Plane) audio,
        oneClip sky ->
        oneClip (SkyPing.handleSpeakDirection sky)
        /\ oneClip (TokenAudio.ended audio sky))
  /\ (forall (local : State Detected) audio,
        oneClip local ->
        oneClip (VCompassLocal.handleSpeakDirection local)
        /\ oneClip (TokenAudio.ended audio local)).
Proof.
  split; [cbv zeta; repeat split|].
  split.
  { intros Hp Hq Hs. destruct st; cbn in *; subst; reflexivity. }
  split; [apply speak_while_speaking|].
  split.
  { unfold VCompass.playNextInQueue.
    destruct (playQueue_starts_one (audioQueue st) st) as [Hone|[Hp Hs]];
      [left; exact Hone|right].
    split; [exact Hp|]. split; [exact Hs|].
    exact (playQueue_drained (audioQueue st) st eq_refl Hs). }
  cbv zeta.
  assert (oneClip (VCompassLoop.app (VCompassLoop.run VCompassLoop.mounted events))) as Hone.
  { apply run_oneClip. split; cbn; [lia|congruence]. }
  split.
  { split; [exact (proj1 Hone)|]. split; [exact (proj2 Hone)|].
    intros ev Hp Hev.
    destruct (step_cells (VCompassLoop.run VCompassLoop.mounted events) ev)
      as (_ & _ & _ & ->).
    exact (no_start_during_clip ev _ Hone Hp Hev). }
  split; intros s audio Hs; split;
    solve [ now apply skyPing_speak_oneClip | now apply local_speak_oneClip
          | now apply token_ended_oneClip ].
Qed.

(** C8: a poll whose fetch fails sets the status line and nothing else: the
    bearing, the notified plane and every other cell keep their values; the
    timers stay as they were, so the interval that ran this poll runs the
    next one, on the state the failed poll left. *)
Theorem failed_poll_keeps_state {M : JS.Math}
  (st : State Detected) (w : VCompassLoop.World) (v : VCompassLocalLoop.World) :
  (VCompass.fetchRealPlaneData FetchError st
   = match userLocation st with
     | Some _ => setStatusMessage "Error connecting to server. Is it running?" st
     | None => st
     end)
  /\ (VCompassLocal.fetchRealPlaneData FetchError st
      = match userLocation st with
        | Some _ => setStatusMessage "Error connecting to server. Is it running?" st
        | None => st
        end)
  /\ (bearing (VCompass.fetchRealPlaneData FetchError st) = bearing st
      /\ detectedPlane (VCompass.fetchRealPlaneData FetchError st) = detectedPlane st
      /\ notificationPlays (VCompass.fetchRealPlaneData FetchError st)
         = notificationPlays st)
  /\ (bearing (VCompassLocal.fetchRealPlaneData FetchError st) = bearing st
      /\ detectedPlane (VCompassLocal.fetchRealPlaneData FetchError st) = detectedPlane st
      /\ notificationPlays (VCompassLocal.fetchRealPlaneData FetchError st)
         = notificationPlays st)
  /\ (let w' := VCompassLoop.step w (VCompassLoop.Poll FetchError) in
      VCompassLoop.timers w' = VCompassLoop.timers w
      /\ bearing (VCompassLoop.app w') = bearing (VCompassLoop.app w)
      /\ detectedPlane (VCompassLoop.app w') = detectedPlane (VCompassLoop.app w)
      /\ isTracking (VCompassLoop.app w') = isTracking (VCompassLoop.app w)
      /\ (VCompassLoop.pollInterval (VCompassLoop.timers w) = true ->
            forall next,
              VCompassLoop.handle (VCompassLoop.Poll next) w'
              = VCompass.fetchRealPlaneData next (VCompassLoop.app w')))
  /\ (let v' := VCompassLocalLoop.step v (VCompassLocalLoop.Poll FetchError) in
      VCompassLocalLoop.timers v' = VCompassLocalLoop.timers v
      /\ bearing (VCompassLocalLoop.app v') = bearing (VCompassLocalLoop.app v)
      /\ detectedPlane (VCompassLocalLoop.app v') = detectedPlane (VCompassLocalLoop.app v)
      /\ isTracking (VCompassLocalLoop.app v') = isTracking (VCompassLocalLoop.app v)
      /\ (VCompassLocalLoop.pollInterval (VCompassLocalLoop.timers v) = true ->
            forall next,
              VCompassLocalLoop.app (VCompassLocalLoop.handle (VCompassLocalLoop.Poll next) v')
              = VCompassLocal.fetchRealPlaneData next (VCompassLocalLoop.app v'))).
Proof.
  split; [apply poll_error|]. split; [apply local_poll_error|].
  split; [rewrite poll_error; destruct (userLocation st); repeat split|].
  split; [rewrite local_poll_error; destruct (userLocation st); repeat split|].
  split; cbv zeta.
  - destruct (failed_poll_step w) as (Ht & Hi & _ & _ & _ & Hd & _ & Hb & _).
    repeat split; try assumption.
    intros Hon next. cbn [VCompassLoop.handle]. rewrite Ht, Hon. reflexivity.
  - destruct (local_failed_poll_step v) as (Ht & Hi & _ & _ & _ & Hd & _ & Hb & _).
    repeat split; try assumption.
    intros Hon next. cbn [VCompassLocalLoop.handle]. rewrite Ht, Hon. reflexivity.
Qed.

(** C9, the claim as stated fails for App.jsx: a mock poll has committed the
    bearing to a plane north of the user, and the user position has changed
    since, so that the plane is now south of the user; the narration request
    plays ["North"], the phrase of the committed bearing, where the bearing
    from the current user position to the plane classifies as ["South"]. *)
Lemma skyPing_narrates_the_committed_bearing :
  let M := RefMath.math in
  let st := Example.skyMoved in
  let p := SkyPing.mockPlane Example.user 1730000000000 Example.draw in
  isSpeaking st = false
  /\ detectedPlane st = Some p
  /\ userLocation st = Some (LatLng.make 10.05 76)
  /\ SkyPing.getDirectionPhrase
       (calculateBearing 10.05 76 (SkyPing.lat p) (SkyPing.lon p))
     = ["South"]
  /\ SkyPing.getDirectionPhrase (bearing st) = ["North"]
  /\ playing (SkyPing.handleSpeakDirection st) = ["North"]
  /\ audioQueue (SkyPing.handleSpeakDirection st) = []
  /\ isSpeaking (SkyPing.handleSpeakDirection st) = true.
Proof. cbv zeta. repeat split; vm_compute; reflexivity. Qed.

(** C9 (amended): in both files of part_000 a narration request that is not
    a no-op (nothing is being spoken and a plane is notified) classifies the
    bearing computed, at the request, from the user position to the position
    of the notified plane, and neither reads nor writes the [bearing] cell.
    In App.jsx a narration request that is not a no-op classifies the
    [bearing] cell, the value the last poll committed, and neither reads nor
    writes [detectedPlane]. *)
Theorem narration_bearing {M : JS.Math} :
  (forall (st : State Detected) location detected,
     isSpeaking st = false ->
     userLocation st = Some location ->
     detectedPlane st = Some detected ->
     VCompass.handleSpeakDirection st
     = VCompass.playNextInQueue
         (setAudioQueue (Named.getDirectionPhrase (bearingTo location (plane detected)))
                        (VCompass.stopAllAudio st))
     /\ VCompassLocal.handleSpeakDirection st
        = TokenAudio.playNextInQueue
            (setAudioQueue
               (Compound.getDirectionPhrase (bearingTo location (plane detected))) st))
  /\ (forall (st : State Detected) b,
        VCompass.handleSpeakDirection (setBearing b st)
        = setBearing b (VCompass.handleSpeakDirection st)
        /\ VCompassLocal.handleSpeakDirection (setBearing b st)
           = setBearing b (VCompassLocal.handleSpeakDirection st))
  /\ (forall st : State SkyPing.Plane,
        isSpeaking st = false ->
        SkyPing.handleSpeakDirection st
        = TokenAudio.playNextInQueue
            (setAudioQueue (Compound.getDirectionPhrase (bearing st)) st))
  /\ (forall (st : State SkyPing.Plane) p,
        SkyPing.handleSpeakDirection (setDetectedPlane p st)
        = setDetectedPlane p (SkyPing.handleSpeakDirection st)).
Proof.
  split; [apply speak_fresh|]. split; [apply speak_ignores_bearing|].
  split; [apply skyPing_speak|apply skyPing_speak_ignores_plane].
Qed.

(* ================================================================== *)
(** * Further properties *)
(* ================================================================== *)

(** ** Sector classification outside the compass range *)

(** X1: [getDirectionPhrase] returns the empty phrase exactly for NaN: every
    other number gets a phrase, also a bearing below 0 or above 360 and an
    infinite one (all of these are classified as North). *)
Theorem empty_phrase_only_for_NaN (b : JS.number) :
  (Compound.getDirectionPhrase b = [] <-> JS.isNumber b = false)
  /\ (Named.getDirectionPhrase b = [] <-> JS.isNumber b = false)
  /\ ((b <? 0) = true ->
        Compound.getDirectionPhrase b = ["North"] /\ Named.getDirectionPhrase b = ["North"])
  /\ ((360 <=? b) = true ->
        Compound.getDirectionPhrase b = ["North"] /\ Named.getDirectionPhrase b = ["North"]).
Proof.
  split; [|split; [|split]].
  - unfold Compound.getDirectionPhrase. destruct (JS.isNumber b) eqn:Hb.
    + sector_tests b Hb; split; discriminate.
    + sector_NaN b Hb. split; reflexivity.
  - unfold Named.getDirectionPhrase. destruct (JS.isNumber b) eqn:Hb.
    + sector_tests b Hb; split; discriminate.
    + sector_NaN b Hb. split; reflexivity.
  - intros H. apply ltb_leb in H.
    pose proof (leb_trans b 0 22.5 H eq_refl) as H'.
    unfold Compound.getDirectionPhrase, Named.getDirectionPhrase.
    rewrite H', orb_true_r. split; reflexivity.
  - intros H. pose proof (ltb_leb_trans 337.5 360 b eq_refl H) as H'.
    unfold Compound.getDirectionPhrase, Named.getDirectionPhrase.
    rewrite H'. split; reflexivity.
Qed.

(** X2: every token of every phrase has a clip: a sound file in the first
    file of part_000, an [Audio] object in the two other files.  So no token
    of a narration is ever skipped for want of a clip. *)
Theorem every_token_has_a_clip (b : JS.number) :
  Forall (fun token => exists src, VCompass.soundFiles token = Some src)
         (VCompass.getDirectionPhrase b)
  /\ Forall (fun token => TokenAudio.audioRefs token = Some token)
            (SkyPing.getDirectionPhrase b)
  /\ Forall (fun token => TokenAudio.audioRefs token = Some token)
            (VCompassLocal.getDirectionPhrase b).
Proof.
  unfold VCompass.getDirectionPhrase, SkyPing.getDirectionPhrase,
    VCompassLocal.getDirectionPhrase, Named.getDirectionPhrase,
    Compound.getDirectionPhrase.
  repeat match goal with
  | |- context [if ?c then _ else _] => destruct c
  end; repeat split; repeat constructor; eexists; reflexivity.
Qed.

(** ** Playing a queue to its end *)

Lemma heard_silent {P : Type} n : forall st : State P,
  playing st = [] -> Playback.heard n st = [] /\ Playback.afterEnds n st = st.
Proof.
  induction n as [|n IH]; intros st Hp; cbn; [split; reflexivity|].
  unfold Playback.onEnded. rewrite Hp. cbn. apply IH. exact Hp.
Qed.

Lemma heard_playQueue {P : Type} queue : forall (st : State P) n,
  playing st = [] -> audioQueue st = queue -> (List.length queue <= n)%nat ->
  Playback.heard n (VCompass.playQueue queue st) = Playback.clips queue
  /\ playing (Playback.afterEnds n (VCompass.playQueue queue st)) = []
  /\ isSpeaking (Playback.afterEnds n (VCompass.playQueue queue st)) = false
  /\ audioQueue (Playback.afterEnds n (VCompass.playQueue queue st)) = [].
Proof.
  induction queue as [|name queue IH]; intros st n Hp Hq Hn.
  - cbn [VCompass.playQueue Playback.clips flat_map].
    destruct (heard_silent n (setIsSpeaking false st) Hp) as [-> ->].
    cbn. repeat split; assumption.
  - cbn [VCompass.playQueue]. unfold Playback.clips. cbn [flat_map].
    fold (Playback.clips queue).
    destruct (VCompass.soundFiles name) as [src|].
    + destruct n as [|n]; [cbn in Hn; lia|].
      cbn [Playback.heard Playback.afterEnds]. unfold Playback.onEnded at 1 2 3 4.
      cbn [playing setPlaying]. unfold VCompass.playNextInQueue. cbn [audioQueue setPlaying setIsSpeaking setAudioQueue].
      destruct (IH (setPlaying [] (setPlaying [src] (setIsSpeaking true (setAudioQueue queue st)))) n)
        as (Hh & H1 & H2 & H3); [reflexivity|reflexivity|cbn in Hn; lia|].
      rewrite Hh. repeat split; assumption.
    + apply IH; [exact Hp|reflexivity|cbn in Hn; lia].
Qed.

Lemma tokensHeard_silent {P : Type} n : forall st : State P,
  playing st = [] ->
  Playback.tokensHeard n st = [] /\ Playback.afterTokenEnds n st = st.
Proof.
  induction n as [|n IH]; intros st Hp; cbn; [split; reflexivity|].
  unfold Playback.tokenEnded. rewrite Hp. cbn. apply IH. exact Hp.
Qed.

Lemma tokensHeard_playQueue {P : Type} queue : forall (st : State P) n,
  playing st = [] -> audioQueue st = queue -> (List.length queue <= n)%nat ->
  Playback.tokensHeard n (TokenAudio.playQueue queue st) = Playback.tokenClips queue
  /\ playing (Playback.afterTokenEnds n (TokenAudio.playQueue queue st)) = []
  /\ isSpeaking (Playback.afterTokenEnds n (TokenAudio.playQueue queue st)) = false
  /\ audioQueue (Playback.afterTokenEnds n (TokenAudio.playQueue queue st)) = [].
Proof.
  induction queue as [|name queue IH]; intros st n Hp Hq Hn.
  - cbn [TokenAudio.playQueue Playback.tokenClips flat_map].
    destruct (tokensHeard_silent n (setIsSpeaking false st) Hp) as [-> ->].
    cbn. repeat split; assumption.
  - cbn [TokenAudio.playQueue]. unfold Playback.tokenClips. cbn [flat_map].
    fold (Playback.tokenClips queue).
    destruct (TokenAudio.audioRefs name) as [audio|].
    + destruct n as [|n]; [cbn in Hn; lia|].
      cbn [Playback.tokensHeard Playback.afterTokenEnds].
      unfold Playback.tokenEnded at 1 2 3 4. unfold TokenAudio.play.
      cbn [playing setPlaying setIsSpeaking setAudioQueue]. rewrite Hp.
      cbn [filter]. unfold TokenAudio.ended.
      cbn [playing setPlaying existsb filter]. rewrite String.eqb_refl.
      cbn [orb negb]. unfold TokenAudio.playNextInQueue.
      cbn [audioQueue setPlaying setIsSpeaking setAudioQueue].
      match goal with
      | |- context [TokenAudio.playQueue queue ?s] =>
          destruct (IH s n) as (Hh & H1 & H2 & H3);
          [reflexivity|reflexivity|cbn in Hn; lia|]
      end.
      rewrite Hh. repeat split; assumption.
    + apply IH; [exact Hp|reflexivity|cbn in Hn; lia].
Qed.

Lemma clips_all queue :
  Forall (fun token => exists src, VCompass.soundFiles token = Some src) queue ->
  Playback.clips queue
  = map (fun token => match VCompass.soundFiles token with
                      | Some src => src
                      | None => token
                      end) queue.
Proof.
  induction 1 as [|token queue [src Hsrc] _ IH]; [reflexivity|].
  unfold Playback.clips in *. cbn. rewrite Hsrc, IH. reflexivity.
Qed.

Lemma tokenClips_all queue :
  Forall (fun token => TokenAudio.audioRefs token = Some token) queue ->
  Playback.tokenClips queue = queue.
Proof.
  induction 1 as [|token queue Hsrc _ IH]; [reflexivity|].
  unfold Playback.tokenClips in *. cbn. rewrite Hsrc, IH. reflexivity.
Qed.

(** X3: in the first file of part_000 a narration request that is not a
    no-op is heard as the sound files of the tokens of the phrase, one per
    token, in the order of the phrase, each clip starting at the end of the
    one before; after as many ends as the phrase has tokens nothing sounds,
    the flag is cleared and the queue is empty.  For any queue, the names
    without a sound file are skipped and the others heard in order. *)
Theorem narration_is_heard_in_order {M : JS.Math}
  (st : State Detected) (location : LatLng.t) (detected : Detected) (n : nat) :
  isSpeaking st = false ->
  userLocation st = Some location ->
  detectedPlane st = Some detected ->
  (List.length (Named.getDirectionPhrase (bearingTo location (plane detected))) <= n)%nat ->
  let phrase := Named.getDirectionPhrase (bearingTo location (plane detected)) in
  let final := Playback.afterEnds n (VCompass.handleSpeakDirection st) in
  Playback.heard n (VCompass.handleSpeakDirection st)
  = map (fun token => match VCompass.soundFiles token with
                      | Some src => src
                      | None => token
                      end) phrase
  /\ playing final = [] /\ isSpeaking final = false /\ audioQueue final = []
  /\ (forall (P : Type) (s : State P) queue k,
        playing s = [] -> (List.length queue <= k)%nat ->
        let started := VCompass.playNextInQueue (setAudioQueue queue s) in
        Playback.heard k started = Playback.clips queue
        /\ playing (Playback.afterEnds k started) = []
        /\ isSpeaking (Playback.afterEnds k started) = false
        /\ audioQueue (Playback.afterEnds k started) = []).
Proof.
  intros Hs Hl Hd Hn. cbv zeta.
  destruct (speak_fresh st location detected Hs Hl Hd) as [-> _].
  unfold VCompass.playNextInQueue. cbn [audioQueue setAudioQueue].
  destruct (heard_playQueue
              (Named.getDirectionPhrase (bearingTo location (plane detected)))
              (setAudioQueue (Named.getDirectionPhrase (bearingTo location (plane detected)))
                             (VCompass.stopAllAudio st)) n)
    as (Hh & H1 & H2 & H3); [reflexivity|reflexivity|exact Hn|].
  rewrite Hh, clips_all.
  - split; [reflexivity|]. split; [exact H1|]. split; [exact H2|]. split; [exact H3|].
    intros P s queue k Hp Hk. unfold VCompass.playNextInQueue.
    cbn [audioQueue setAudioQueue].
    apply heard_playQueue; [exact Hp|reflexivity|exact Hk].
  - exact (proj1 (every_token_has_a_clip _)).
Qed.

Lemma narration_is_heard_in_order_witness :
  let M := RefMath.math in
  Playback.heard 1 (VCompass.handleSpeakDirection Example2.notified)
  = ["/aruna-vadak.mp3"]
  /\ isSpeaking (Playback.afterEnds 1 (VCompass.handleSpeakDirection Example2.notified))
     = false.
Proof.
  cbv zeta.
  pose proof (@narration_is_heard_in_order RefMath.math Example2.notified Example.user
                {| plane := Example.near; altitude_ft := altitude_m Example.near * 3.28084;
                   isMock := Some false |} 1%nat) as H.
  destruct H as (Hh & _ & Hs & _).
  - reflexivity.
  - reflexivity.
  - vm_compute. reflexivity.
  - vm_compute. lia.
  - split; [rewrite Hh; vm_compute; reflexivity|exact Hs].
Defined.

(** X4: in the files with one [Audio] object per token, a narration request
    made while nothing is spoken is heard as the tokens of the phrase
    themselves, in order (for a compound phrase: between, A, and, B), each
    starting at the end of the one before; after as many ends as the phrase
    has tokens nothing sounds, the flag is cleared and the queue is empty. *)
Theorem token_narration_is_heard_in_order {M : JS.Math}
  (sky : State SkyPing.Plane) (n : nat) :
  isSpeaking sky = false ->
  playing sky = [] ->
  (List.length (Compound.getDirectionPhrase (bearing sky)) <= n)%nat ->
  let final := Playback.afterTokenEnds n (SkyPing.handleSpeakDirection sky) in
  Playback.tokensHeard n (SkyPing.handleSpeakDirection sky)
  = Compound.getDirectionPhrase (bearing sky)
  /\ playing final = [] /\ isSpeaking final = false /\ audioQueue final = []
  /\ (forall (st : State Detected) location detected k,
        isSpeaking st = false -> playing st = [] ->
        userLocation st = Some location -> detectedPlane st = Some detected ->
        let phrase := Compound.getDirectionPhrase (bearingTo location (plane detected)) in
        (List.length phrase <= k)%nat ->
        let last := Playback.afterTokenEnds k (VCompassLocal.handleSpeakDirection st) in
        Playback.tokensHeard k (VCompassLocal.handleSpeakDirection st) = phrase
        /\ playing last = [] /\ isSpeaking last = false /\ audioQueue last = []).
Proof.
  intros Hs Hp Hn. cbv zeta.
  rewrite (skyPing_speak sky Hs). unfold TokenAudio.playNextInQueue.
  cbn [audioQueue setAudioQueue].
  destruct (tokensHeard_playQueue (Compound.getDirectionPhrase (bearing sky))
              (setAudioQueue (Compound.getDirectionPhrase (bearing sky)) sky) n)
    as (Hh & H1 & H2 & H3); [exact Hp|reflexivity|exact Hn|].
  rewrite Hh, tokenClips_all
    by exact (proj1 (proj2 (every_token_has_a_clip (bearing sky)))).
  split; [reflexivity|]. split; [exact H1|]. split; [exact H2|]. split; [exact H3|].
  intros st location detected k Hs' Hp' Hl Hd Hk.
  destruct (speak_fresh st location detected Hs' Hl Hd) as [_ ->].
  unfold TokenAudio.playNextInQueue. cbn [audioQueue setAudioQueue].
  destruct (tokensHeard_playQueue
              (Compound.getDirectionPhrase (bearingTo location (plane detected)))
              (setAudioQueue
                 (Compound.getDirectionPhrase (bearingTo location (plane detected))) st) k)
    as (Hh' & H1' & H2' & H3'); [exact Hp'|reflexivity|exact Hk|].
  rewrite Hh'. split; [|split; [exact H1'|split; [exact H2'|exact H3']]].
  apply tokenClips_all.
  exact (proj1 (proj2 (every_token_has_a_clip _))).
Qed.

Lemma token_narration_is_heard_in_order_witness :
  let M := RefMath.math in
  Playback.tokensHeard 4 (SkyPing.handleSpeakDirection Example2.skyNorthEast)
  = ["between"; "North"; "and"; "East"].
Proof.
  cbv zeta.
  destruct (@token_narration_is_heard_in_order RefMath.math Example2.skyNorthEast 4%nat)
    as (Hh & _).
  - reflexivity.
  - reflexivity.
  - vm_compute. lia.
  - rewrite Hh. reflexivity.
Defined.

(** ** Invariants of the tracking loops *)

Lemma mock_deps_sound {P : Type} (prev next : State P) :
  VCompassLoop.mockDepsChanged prev next = false ->
  VCompassLoop.mockWanted next = VCompassLoop.mockWanted prev.
Proof.
  unfold VCompassLoop.mockDepsChanged, VCompassLoop.mockWanted, VCompassLoop.sameLocation.
  rewrite negb_false_iff, !andb_true_iff. intros [[Ht Hl] _].
  apply Bool.eqb_prop in Ht. apply sameIdentity_isSome in Hl.
  now rewrite Ht, Hl.
Qed.

Lemma local_poll_deps_sound {P : Type} (prev next : State P) :
  VCompassLocalLoop.pollDepsChanged prev next = false ->
  VCompassLocalLoop.pollWanted next = VCompassLocalLoop.pollWanted prev.
Proof.
  unfold VCompassLocalLoop.pollDepsChanged, VCompassLocalLoop.pollWanted,
    VCompassLoop.sameLocation.
  rewrite negb_false_iff, !andb_true_iff. intros [[Ht Hl] _].
  apply Bool.eqb_prop in Ht. apply sameIdentity_isSome in Hl.
  now rewrite Ht, Hl.
Qed.

Section InvariantFacts.

Context {M : JS.Math}.

(** What a poll can do to the cells the modes depend on. *)
Lemma poll_modes result (st : State Detected) :
  let st' := VCompass.fetchRealPlaneData result st in
  isTracking st' = isTracking st /\ isMockMode st' = isMockMode st
  /\ userLocation st' = userLocation st
  /\ (detectedPlane st' = detectedPlane st
      \/ detectedPlane st' = None
      \/ exists d, detectedPlane st' = Some d /\ isMock d = Some false).
Proof.
  unfold VCompass.fetchRealPlaneData. handler_cases; repeat split; auto;
    right; right; eexists; split; reflexivity.
Qed.

Lemma mock_modes now draw (st : State Detected) :
  let st' := mockFetchPlaneData now draw st in
  isTracking st' = isTracking st /\ isMockMode st' = isMockMode st
  /\ userLocation st' = userLocation st
  /\ (detectedPlane st' = detectedPlane st
      \/ detectedPlane st' = None
      \/ exists d, detectedPlane st' = Some d /\ isMock d = Some true).
Proof.
  unfold mockFetchPlaneData. handler_cases; repeat split; auto;
    right; right; eexists; split; reflexivity.
Qed.

Lemma speak_tracking (st : State Detected) :
  sameTracking (VCompass.handleSpeakDirection st) st.
Proof.
  unfold VCompass.handleSpeakDirection.
  destruct (isSpeaking st || negb (isSome (detectedPlane st))); [apply sameTracking_refl|].
  cbn. destruct (userLocation st); [|repeat split].
  destruct (detectedPlane st); [|repeat split].
  unfold VCompass.playNextInQueue.
  match goal with
  | |- sameTracking (VCompass.playQueue ?q ?s) _ =>
      destruct (playQueue_tracking q s) as (?&?&?&?&?&?&?&?)
  end.
  repeat split; assumption.
Qed.

Lemma ended_tracking (st : State Detected) :
  sameTracking (Playback.onEnded st) st.
Proof.
  unfold Playback.onEnded. destruct (playing st); [apply sameTracking_refl|].
  unfold VCompass.playNextInQueue.
  match goal with
  | |- sameTracking (VCompass.playQueue ?q ?s) _ =>
      destruct (playQueue_tracking q s) as (?&?&?&?&?&?&?&?)
  end.
  repeat split; assumption.
Qed.

Lemma lands_plane f result (st : State Detected) :
  let st' := VCompass.fetchLands f result st in
  detectedPlane st' = detectedPlane st
  \/ detectedPlane st' = None
  \/ exists d, detectedPlane st' = Some d /\ isMock d = Some false.
Proof.
  unfold VCompass.fetchLands. handler_cases; auto;
    right; right; eexists; split; reflexivity.
Qed.

(** The modes and the notified plane after any handler, as far as the
    invariant needs them. *)
Lemma handle_modes ev (w : VCompassLoop.World) :
  loopInvariant w ->
  let st := VCompassLoop.app w in
  let st' := VCompassLoop.handle ev w in
  isTracking st' && isMockMode st' = false
  /\ match detectedPlane st' with
     | Some d => isTracking st' = true -> isMock d = Some false
     | None => True
     end.
Proof.
  intros (Hex & Hpoll & Hmock & _ & Hflag). cbv zeta.
  assert (forall st' : State Detected,
            isTracking st' = isTracking (VCompassLoop.app w) ->
            isMockMode st' = isMockMode (VCompassLoop.app w) ->
            detectedPlane st' = detectedPlane (VCompassLoop.app w) ->
            isTracking st' && isMockMode st' = false
            /\ match detectedPlane st' with
               | Some d => isTracking st' = true -> isMock d = Some false
               | None => True
               end) as Hsame
    by (intros st' -> -> ->; split; assumption).
  assert (forall st' : State Detected,
            isTracking st' = isTracking (VCompassLoop.app w) ->
            isMockMode st' = isMockMode (VCompassLoop.app w) ->
            (detectedPlane st' = detectedPlane (VCompassLoop.app w)
             \/ detectedPlane st' = None
             \/ exists d, detectedPlane st' = Some d /\ isMock d = Some false) ->
            isTracking st' && isMockMode st' = false
            /\ match detectedPlane st' with
               | Some d => isTracking st' = true -> isMock d = Some false
               | None => True
               end) as Hlive.
  { intros st' Ht' Hm' [Hd|[Hd|(d & Hd & Hf)]].
    - now apply Hsame.
    - rewrite Ht', Hm', Hd. split; [exact Hex|exact I].
    - rewrite Ht', Hm', Hd. split; [exact Hex|intros _; exact Hf]. }
  destruct ev; cbn [VCompassLoop.handle].
  - unfold VCompass.handleStartStopClick.
    destruct (isSome (userLocation (VCompassLoop.app w)));
      cbn; destruct (isTracking (VCompassLoop.app w)) eqn:Ht; cbn in *;
      (split; [reflexivity|]); try exact I;
      destruct (detectedPlane (VCompassLoop.app w)); try exact I; discriminate.
  - unfold VCompass.handleMockModeClick.
    destruct (isSome (userLocation (VCompassLoop.app w)));
      cbn; destruct (isMockMode (VCompassLoop.app w)) eqn:Hm; cbn in *;
      try (split; [reflexivity|exact I]);
      rewrite andb_false_r; (split; [reflexivity|]);
      rewrite andb_true_r in Hex;
      destruct (detectedPlane (VCompassLoop.app w)); try exact I;
      intros Ht; congruence.
  - apply Hsame; reflexivity.
  - apply Hsame; reflexivity.
  - destruct (VCompassLoop.pollInterval (VCompassLoop.timers w));
      [|apply Hsame; reflexivity].
    destruct (poll_modes result (VCompassLoop.app w)) as (Ht' & Hm' & _ & Hd).
    now apply Hlive.
  - destruct (VCompassLoop.mockInterval (VCompassLoop.timers w)) eqn:Hon;
      [|apply Hsame; reflexivity].
    assert (VCompassLoop.mockWanted (VCompassLoop.app w) = true) as Hwant by congruence.
    unfold VCompassLoop.mockWanted in Hwant.
    apply andb_true_iff in Hwant. destruct Hwant as [Hm _].
    rewrite Hm, andb_true_r in Hex.
    destruct (mock_modes now draw (VCompassLoop.app w)) as (Ht' & Hm' & _ & _).
    rewrite Ht', Hm', Hex. split; [reflexivity|].
    destruct (detectedPlane (mockFetchPlaneData now draw (VCompassLoop.app w)));
      [intros Habs; discriminate Habs|exact I].
  - destruct (VCompassLoop.scanningInterval _); apply Hsame; reflexivity.
  - destruct (speak_tracking (VCompassLoop.app w)) as (?&?&_&_&?&_).
    apply Hsame; assumption.
  - destruct (ended_tracking (VCompassLoop.app w)) as (?&?&_&_&?&_).
    apply Hsame; assumption.
  - destruct (playing (VCompassLoop.app w)); apply Hsame; reflexivity.
  - destruct (VCompassLoop.pollInterval (VCompassLoop.timers w));
      [|apply Hsame; reflexivity].
    destruct (fetchStarts_status (VCompassLoop.app w)) as [->| ->];
      apply Hsame; reflexivity.
  - destruct (nth_error (VCompassLoop.inFlight w) k) as [f|];
      [|apply Hsame; reflexivity].
    destruct (lands_modes f result (VCompassLoop.app w)) as (Ht' & Hm' & _).
    apply Hlive; [exact Ht'|exact Hm'|apply lands_plane].
Qed.

Lemma step_loopInvariant w ev :
  loopInvariant w -> loopInvariant (VCompassLoop.step w ev).
Proof.
  intros Hw. destruct (handle_modes ev w Hw) as [Hex Hflag].
  destruct Hw as (_ & Hp & Hm & Hs & _).
  destruct (step_cells w ev) as ((Ht' & Hm' & _ & _ & Hd' & _) & _).
  unfold loopInvariant. rewrite Ht', Hm', Hd'.
  split; [exact Hex|]. split; [|split; [|split; [|exact Hflag]]];
    unfold VCompassLoop.step, VCompassLoop.commit, useEffect;
    cbn [VCompassLoop.app VCompassLoop.timers VCompassLoop.scanningInterval
         VCompassLoop.mockInterval VCompassLoop.pollInterval];
    setup_wanted.
  - destruct (VCompassLoop.pollDepsChanged _ _) eqn:E; [reflexivity|].
    rewrite Hp. symmetry. now apply poll_deps_sound.
  - destruct (VCompassLoop.mockDepsChanged _ _) eqn:E; [reflexivity|].
    rewrite Hm. symmetry. now apply mock_deps_sound.
  - destruct (VCompassLoop.scanDepsChanged _ _) eqn:E; [reflexivity|].
    rewrite Hs. symmetry. now apply scan_deps_sound.
Qed.

Lemma run_loopInvariant events : forall w,
  loopInvariant w -> loopInvariant (VCompassLoop.run w events).
Proof.
  induction events as [|ev events IH]; intros w Hw; [exact Hw|].
  cbn. apply IH. now apply step_loopInvariant.
Qed.

Lemma mounted_loopInvariant : loopInvariant VCompassLoop.mounted.
Proof. repeat split. Qed.

End InvariantFacts.

(** X5: in every state the first file of part_000 reaches, live tracking and
    mock mode are never on together; the live poll is scheduled exactly when
    live tracking is on and the position is known, the mock poll exactly
    when mock mode is on and the position is known; so the two polls are
    never scheduled together and no poll is scheduled without a position. *)
Theorem modes_exclude_each_other {M : JS.Math} (events : list VCompassLoop.Event) :
  let w := VCompassLoop.run VCompassLoop.mounted events in
  let st := VCompassLoop.app w in
  isTracking st && isMockMode st = false
  /\ VCompassLoop.pollInterval (VCompassLoop.timers w)
     = isTracking st && isSome (userLocation st)
  /\ VCompassLoop.mockInterval (VCompassLoop.timers w)
     = isMockMode st && isSome (userLocation st)
  /\ VCompassLoop.pollInterval (VCompassLoop.timers w)
     && VCompassLoop.mockInterval (VCompassLoop.timers w) = false
  /\ (userLocation st = None ->
        VCompassLoop.pollInterval (VCompassLoop.timers w) = false
        /\ VCompassLoop.mockInterval (VCompassLoop.timers w) = false).
Proof.
  cbv zeta.
  destruct (run_loopInvariant events _ mounted_loopInvariant) as (Hex & Hp & Hm & _).
  unfold VCompassLoop.pollWanted in Hp. unfold VCompassLoop.mockWanted in Hm.
  split; [exact Hex|]. split; [exact Hp|]. split; [exact Hm|].
  rewrite Hp, Hm. split.
  - set (st := VCompassLoop.app _) in *.
    destruct (isTracking st), (isMockMode st), (isSome (userLocation st));
      cbn in *; congruence.
  - intros ->. cbn. rewrite !andb_false_r. split; reflexivity.
Qed.

Section LandFacts.

Context {M : JS.Math}.

(** The step that lets the response of a request in flight arrive. *)
Lemma lands_step (w : VCompassLoop.World) k f result :
  nth_error (VCompassLoop.inFlight w) k = Some f ->
  sameTracking (VCompassLoop.app (VCompassLoop.step w (VCompassLoop.FetchLands k result)))
               (VCompass.fetchLands f result (VCompassLoop.app w))
  /\ sameAudio (VCompassLoop.app (VCompassLoop.step w (VCompassLoop.FetchLands k result)))
               (VCompass.fetchLands f result (VCompassLoop.app w)).
Proof.
  intros Hk. pose proof (step_cells w (VCompassLoop.FetchLands k result)) as H.
  cbn [VCompassLoop.handle] in H. rewrite Hk in H. exact H.
Qed.

End LandFacts.

(** X6: in every state the first file of part_000 reaches, a plane that is
    notified while live tracking is on is flagged [isMock: false].  The flag
    does not follow the mode the other way round: the continuation of a
    request never looks at the mode, so a request in flight when mock mode is
    switched on notifies, when its response arrives, a plane flagged
    [isMock: false] while mock mode is on. *)
Theorem notified_plane_is_live_while_tracking {M : JS.Math}
  (events : list VCompassLoop.Event) :
  let w := VCompassLoop.run VCompassLoop.mounted events in
  match detectedPlane (VCompassLoop.app w) with
  | Some d => isTracking (VCompassLoop.app w) = true -> isMock d = Some false
  | None => True
  end
  /\ (forall k f planes c,
        nth_error (VCompassLoop.inFlight w) k = Some f ->
        candidate (seenLocation f) planes = Some c ->
        identityOf (seenPlane f) <> Some (icao24 (plane c)) ->
        let w' := VCompassLoop.step w (VCompassLoop.FetchLands k (FetchOk planes)) in
        detectedPlane (VCompassLoop.app w')
        = Some {| plane := plane c; altitude_ft := altitude_ft c; isMock := Some false |}
        /\ isMockMode (VCompassLoop.app w') = isMockMode (VCompassLoop.app w)
        /\ isTracking (VCompassLoop.app w') = isTracking (VCompassLoop.app w))
  /\ (let stray := @VCompassLoop.run RefMath.math VCompassLoop.mounted
                     Example3.strayEvents in
      isMockMode (VCompassLoop.app stray) = true
      /\ isTracking (VCompassLoop.app stray) = false
      /\ option_map isMock (detectedPlane (VCompassLoop.app stray)) = Some (Some false)
      /\ identityOf (detectedPlane (VCompassLoop.app stray)) = Some "near1").
Proof.
  cbv zeta. split; [|split].
  - destruct (run_loopInvariant events _ mounted_loopInvariant) as (_ & _ & _ & _ & H).
    exact H.
  - intros k f planes c Hk Hc Hid.
    destruct (lands_step _ k f (FetchOk planes) Hk)
      as ((Ht & Hm & _ & _ & Hd & _) & _).
    rewrite Ht, Hm, Hd.
    destruct (lands_modes f (FetchOk planes)
                (VCompassLoop.app (VCompassLoop.run VCompassLoop.mounted events)))
      as (-> & -> & _).
    pose proof (lands_debounce f planes
                  (VCompassLoop.app (VCompassLoop.run VCompassLoop.mounted events))) as H.
    cbv zeta in H. rewrite Hc in H. destruct H as [_ H].
    destruct (H Hid) as [-> _]. repeat split.
  - repeat split; vm_compute; reflexivity.
Qed.

(** X7: stopping live tracking in the first file of part_000 unregisters the
    three timers, so no tick starts a poll, a mock poll or a rotation step any
    more; nothing sounds, the queue is empty and the flag cleared; the
    notified plane and the bearing are kept.  The requests in flight are not
    cancelled: they stay in flight, and when the response of one arrives its
    continuation runs on the stopped application as it would have on the
    tracking one, so it can still move the needle, notify a plane and play
    the notification sound; the timers stay unregistered. *)
Theorem stop_cancels_timers_not_requests {M : JS.Math}
  (events : list VCompassLoop.Event) :
  let w := VCompassLoop.run VCompassLoop.mounted events in
  isTracking (VCompassLoop.app w) = true ->
  let w' := VCompassLoop.step w VCompassLoop.ClickStartStop in
  let st' := VCompassLoop.app w' in
  isTracking st' = false /\ isMockMode st' = false
  /\ VCompassLoop.timers w'
     = {| VCompassLoop.pollInterval := false;
          VCompassLoop.mockInterval := false;
          VCompassLoop.scanningInterval := false |}
  /\ playing st' = [] /\ audioQueue st' = [] /\ isSpeaking st' = false
  /\ detectedPlane st' = detectedPlane (VCompassLoop.app w)
  /\ bearing st' = bearing (VCompassLoop.app w)
  /\ (forall result now draw,
        VCompassLoop.handle VCompassLoop.FetchStarts w' = st'
        /\ VCompassLoop.handle (VCompassLoop.Poll result) w' = st'
        /\ VCompassLoop.handle (VCompassLoop.MockPoll now draw) w' = st'
        /\ VCompassLoop.handle VCompassLoop.ScanTick w' = st')
  /\ VCompassLoop.inFlight w' = VCompassLoop.inFlight w
  /\ (forall k f result,
        nth_error (VCompassLoop.inFlight w) k = Some f ->
        let w'' := VCompassLoop.step w' (VCompassLoop.FetchLands k result) in
        VCompassLoop.app w'' = VCompass.fetchLands f result st'
        /\ VCompassLoop.timers w'' = VCompassLoop.timers w'
        /\ VCompassLoop.inFlight w'' = without k (VCompassLoop.inFlight w)).
Proof.
  cbv zeta. intros Ht.
  pose proof (run_loopInvariant events _ mounted_loopInvariant) as Hw.
  pose proof (step_loopInvariant _ VCompassLoop.ClickStartStop Hw) as Hw'.
  set (w := VCompassLoop.run VCompassLoop.mounted events) in *.
  destruct Hw as (Hex & _). rewrite Ht in Hex. cbn in Hex.
  assert (VCompassLoop.app (VCompassLoop.step w VCompassLoop.ClickStartStop)
          = VCompass.handleStartStopClick (VCompassLoop.app w)
          /\ VCompassLoop.inFlight (VCompassLoop.step w VCompassLoop.ClickStartStop)
             = VCompassLoop.inFlight w) as [Happ Hfl].
  { unfold VCompassLoop.step, VCompassLoop.commit.
    cbn [VCompassLoop.app VCompassLoop.inFlight VCompassLoop.handle VCompassLoop.flights].
    assert (VCompassLoop.pollWanted (VCompass.handleStartStopClick (VCompassLoop.app w))
            = false) as ->.
    { unfold VCompassLoop.pollWanted, VCompass.handleStartStopClick.
      destruct (isSome (userLocation (VCompassLoop.app w))); cbn; rewrite Ht; reflexivity. }
    rewrite andb_false_r. split; reflexivity. }
  assert (isTracking (VCompassLoop.app (VCompassLoop.step w VCompassLoop.ClickStartStop))
          = false
          /\ isMockMode (VCompassLoop.app (VCompassLoop.step w VCompassLoop.ClickStartStop))
             = false) as [Ht' Hm'].
  { rewrite Happ. unfold VCompass.handleStartStopClick.
    destruct (isSome (userLocation (VCompassLoop.app w))); cbn; rewrite Ht; cbn;
      split; [reflexivity|exact Hex|reflexivity|exact Hex]. }
  destruct Hw' as (_ & Hp & Hm & Hs & _).
  unfold VCompassLoop.pollWanted in Hp. unfold VCompassLoop.mockWanted in Hm.
  unfold VCompassLoop.scanWanted in Hs. rewrite Ht' in Hp, Hs. rewrite Hm' in Hm, Hs.
  cbn [andb orb] in Hp, Hm, Hs.
  assert (VCompassLoop.timers (VCompassLoop.step w VCompassLoop.ClickStartStop)
          = {| VCompassLoop.pollInterval := false;
               VCompassLoop.mockInterval := false;
               VCompassLoop.scanningInterval := false |}) as Htimers.
  { destruct (VCompassLoop.timers (VCompassLoop.step w VCompassLoop.ClickStartStop)).
    cbn [VCompassLoop.pollInterval VCompassLoop.mockInterval
         VCompassLoop.scanningInterval] in *. now rewrite Hp, Hm, Hs. }
  split; [exact Ht'|]. split; [exact Hm'|]. split; [exact Htimers|].
  split; [|split; [|split; [|split; [|split]]]].
  1-5: rewrite Happ; unfold VCompass.handleStartStopClick;
    destruct (isSome (userLocation (VCompassLoop.app w))); cbn; rewrite Ht; reflexivity.
  split.
  { intros result now draw. cbn [VCompassLoop.handle]. rewrite Hp, Hm, Hs.
    repeat split. }
  split; [exact Hfl|].
  intros k f result Hk.
  set (w' := VCompassLoop.step w VCompassLoop.ClickStartStop) in *.
  rewrite <- Hfl in Hk.
  destruct (lands_modes f result (VCompassLoop.app w')) as (Ht2 & Hm2 & _).
  cbv zeta in Ht2, Hm2.
  unfold VCompassLoop.step at 1 2 3, VCompassLoop.commit, useEffect.
  cbn [VCompassLoop.app VCompassLoop.timers VCompassLoop.inFlight VCompassLoop.handle
       VCompassLoop.flights VCompassLoop.pollInterval VCompassLoop.mockInterval
       VCompassLoop.scanningInterval].
  rewrite Hk.
  unfold VCompassLoop.pollWanted, VCompassLoop.mockWanted, VCompassLoop.scanWanted.
  rewrite Ht2, Hm2, Ht', Hm'. cbn [andb orb]. rewrite andb_false_r.
  rewrite Htimers. cbn [VCompassLoop.pollInterval VCompassLoop.mockInterval
                        VCompassLoop.scanningInterval].
  split; [reflexivity|]. split; [|now rewrite Hfl].
  repeat match goal with |- context [if ?c then _ else _] => destruct c end; reflexivity.
Qed.

Lemma stop_cancels_timers_not_requests_witness :
  let M := RefMath.math in
  let w := VCompassLoop.run VCompassLoop.mounted Example3.startedEvents in
  let w' := VCompassLoop.step w VCompassLoop.ClickStartStop in
  let w'' := VCompassLoop.step w' (VCompassLoop.FetchLands 0 (FetchOk [Example.near])) in
  VCompassLoop.inFlight w = [{| seenLocation := Example.user; seenPlane := None |}]
  /\ detectedPlane (VCompassLoop.app w) = None
  /\ VCompassLoop.timers w'
     = {| VCompassLoop.pollInterval := false;
          VCompassLoop.mockInterval := false;
          VCompassLoop.scanningInterval := false |}
  /\ isTracking (VCompassLoop.app w'') = false
  /\ identityOf (detectedPlane (VCompassLoop.app w'')) = Some "near1"
  /\ notificationPlays (VCompassLoop.app w'') = 1%nat
  /\ VCompassLoop.timers w'' = VCompassLoop.timers w'.
Proof.
  cbv zeta.
  split; [vm_compute; reflexivity|]. split; [vm_compute; reflexivity|].
  destruct (@stop_cancels_timers_not_requests RefMath.math Example3.startedEvents)
    as (_ & _ & Ht & _ & _ & _ & _ & _ & _ & _ & Hland).
  - vm_compute. reflexivity.
  - split; [exact Ht|].
    destruct (Hland 0%nat {| seenLocation := Example.user; seenPlane := None |}
                (FetchOk [Example.near])) as (Happ & Htm & _);
      [vm_compute; reflexivity|].
    split; [rewrite Happ; vm_compute; reflexivity|].
    split; [rewrite Happ; vm_compute; reflexivity|].
    split; [rewrite Happ; vm_compute; reflexivity|exact Htm].
Defined.

(** X8: starting live tracking in the first file of part_000 switches mock
    mode off first, clears the notified plane and stops the narration; the
    mock poll is unscheduled and the idle rotation is running in the very
    next state; the live poll is scheduled as soon as the position is
    known. *)
Theorem start_live_stops_mock {M : JS.Math} (events : list VCompassLoop.Event) :
  let w := VCompassLoop.run VCompassLoop.mounted events in
  isTracking (VCompassLoop.app w) = false ->
  let w' := VCompassLoop.step w VCompassLoop.ClickStartStop in
  let st' := VCompassLoop.app w' in
  isTracking st' = true /\ isMockMode st' = false
  /\ detectedPlane st' = None
  /\ playing st' = [] /\ audioQueue st' = [] /\ isSpeaking st' = false
  /\ VCompassLoop.mockInterval (VCompassLoop.timers w') = false
  /\ VCompassLoop.scanningInterval (VCompassLoop.timers w') = true
  /\ VCompassLoop.pollInterval (VCompassLoop.timers w')
     = isSome (userLocation (VCompassLoop.app w))
  /\ notificationPlays st' = notificationPlays (VCompassLoop.app w).
Proof.
  cbv zeta. intros Ht.
  pose proof (run_loopInvariant events _ mounted_loopInvariant) as Hw.
  pose proof (step_loopInvariant _ VCompassLoop.ClickStartStop Hw) as Hw'.
  set (w := VCompassLoop.run VCompassLoop.mounted events) in *.
  destruct Hw' as (_ & Hp & Hm & Hs & _).
  unfold VCompassLoop.pollWanted in Hp. unfold VCompassLoop.mockWanted in Hm.
  unfold VCompassLoop.scanWanted in Hs. rewrite Hp, Hm, Hs.
  destruct (step_cells w VCompassLoop.ClickStartStop)
    as ((Ht' & Hm' & Hl' & _ & Hd' & _ & _ & Hn') & (Hq & Hsp & Hpl)).
  rewrite Ht', Hm', Hl', Hd', Hn', Hq, Hsp, Hpl.
  cbn [VCompassLoop.handle]. unfold VCompass.handleStartStopClick.
  destruct (isSome (userLocation (VCompassLoop.app w))) eqn:Hl;
    cbn; rewrite Ht; cbn; rewrite ?Hl; repeat split.
Qed.

Lemma start_live_stops_mock_witness :
  let M := RefMath.math in
  let w := VCompassLoop.run VCompassLoop.mounted Example3.mockEvents in
  isMockMode (VCompassLoop.app w) = true
  /\ detectedPlane (VCompassLoop.app w) <> None
  /\ isMockMode (VCompassLoop.app (VCompassLoop.step w VCompassLoop.ClickStartStop)) = false
  /\ detectedPlane (VCompassLoop.app (VCompassLoop.step w VCompassLoop.ClickStartStop)) = None
  /\ VCompassLoop.pollInterval
       (VCompassLoop.timers (VCompassLoop.step w VCompassLoop.ClickStartStop)) = true.
Proof.
  cbv zeta. split; [vm_compute; reflexivity|]. split; [vm_compute; discriminate|].
  destruct (@start_live_stops_mock RefMath.math Example3.mockEvents)
    as (_ & Hm & Hd & _ & _ & _ & _ & _ & Hp & _).
  - vm_compute. reflexivity.
  - split; [exact Hm|]. split; [exact Hd|]. rewrite Hp. vm_compute. reflexivity.
Defined.

Lemma tokenQueue_tracking {P : Type} queue : forall st : State P,
  sameTracking (TokenAudio.playQueue queue st) st.
Proof.
  induction queue as [|name queue IH]; intros st; cbn.
  - repeat split.
  - destruct (TokenAudio.audioRefs name); [repeat split|].
    destruct (IH (setIsSpeaking true (setAudioQueue queue st)))
      as (?&?&?&?&?&?&?&?). repeat split; assumption.
Qed.

Lemma token_ended_tracking {P : Type} audio (st : State P) :
  sameTracking (TokenAudio.ended audio st) st.
Proof.
  unfold TokenAudio.ended. destruct (existsb _ _); [|apply sameTracking_refl].
  unfold TokenAudio.playNextInQueue.
  match goal with
  | |- sameTracking (TokenAudio.playQueue ?q ?s) _ =>
      destruct (tokenQueue_tracking q s) as (?&?&?&?&?&?&?&?)
  end.
  repeat split; assumption.
Qed.

Section LocalFacts.

Context {M : JS.Math}.

Lemma local_speak_tracking (st : State Detected) :
  sameTracking (VCompassLocal.handleSpeakDirection st) st.
Proof.
  unfold VCompassLocal.handleSpeakDirection.
  destruct (isSpeaking st || negb (isSome (detectedPlane st))); [apply sameTracking_refl|].
  destruct (userLocation st); [|apply sameTracking_refl].
  destruct (detectedPlane st); [|apply sameTracking_refl].
  unfold TokenAudio.playNextInQueue.
  match goal with
  | |- sameTracking (TokenAudio.playQueue ?q ?s) _ =>
      destruct (tokenQueue_tracking q s) as (?&?&?&?&?&?&?&?)
  end.
  repeat split; assumption.
Qed.

Lemma local_poll_modes result (st : State Detected) :
  let st' := VCompassLocal.fetchRealPlaneData result st in
  isTracking st' = isTracking st /\ userLocation st' = userLocation st.
Proof.
  unfold VCompassLocal.fetchRealPlaneData.
  handler_cases; split; first [reflexivity | congruence].
Qed.

(** The handlers of both loops never clear the position. *)
Lemma handle_location ev (w : VCompassLoop.World) :
  userLocation (VCompassLoop.app w) <> None ->
  userLocation (VCompassLoop.handle ev w) <> None.
Proof.
  intros Hl. destruct ev; cbn [VCompassLoop.handle].
  - unfold VCompass.handleStartStopClick. handler_cases; assumption.
  - unfold VCompass.handleMockModeClick. handler_cases; assumption.
  - discriminate.
  - discriminate.
  - destruct (VCompassLoop.pollInterval _); [|exact Hl].
    destruct (poll_modes result (VCompassLoop.app w)) as (_ & _ & -> & _). exact Hl.
  - destruct (VCompassLoop.mockInterval _); [|exact Hl].
    destruct (mock_modes now draw (VCompassLoop.app w)) as (_ & _ & -> & _). exact Hl.
  - destruct (VCompassLoop.scanningInterval _); exact Hl.
  - destruct (speak_tracking (VCompassLoop.app w)) as (_ & _ & -> & _). exact Hl.
  - pose proof (ended_tracking (VCompassLoop.app w)) as (_ & _ & He & _).
    unfold Playback.onEnded in He. rewrite He. exact Hl.
  - destruct (playing (VCompassLoop.app w)); exact Hl.
  - destruct (VCompassLoop.pollInterval _); [|exact Hl].
    destruct (fetchStarts_status (VCompassLoop.app w)) as [->| ->]; exact Hl.
  - destruct (nth_error _ _) as [f|]; [|exact Hl].
    destruct (lands_modes f result (VCompassLoop.app w)) as (_ & _ & -> & _). exact Hl.
Qed.

Lemma local_handle_location ev (v : VCompassLocalLoop.World) :
  userLocation (VCompassLocalLoop.app v) <> None ->
  userLocation (VCompassLocalLoop.app (VCompassLocalLoop.handle ev v)) <> None.
Proof.
  intros Hl. destruct ev; cbn [VCompassLocalLoop.handle VCompassLocalLoop.app].
  - unfold VCompassLocal.handleStartStopClick. handler_cases; assumption.
  - discriminate.
  - discriminate.
  - destruct (VCompassLocalLoop.pollInterval _); [|exact Hl].
    destruct (local_poll_modes result (VCompassLocalLoop.app v)) as (_ & ->). exact Hl.
  - destruct (VCompassLocalLoop.animationFrame _); exact Hl.
  - destruct (local_speak_tracking (VCompassLocalLoop.app v)) as (_ & _ & -> & _). exact Hl.
  - destruct (token_ended_tracking audio (VCompassLocalLoop.app v)) as (_ & _ & -> & _).
    exact Hl.
  - destruct (VCompassLocalLoop.pollInterval _); [|exact Hl].
    cbn [VCompassLocalLoop.app].
    destruct (local_fetchStarts_status (VCompassLocalLoop.app v)) as [->| ->]; exact Hl.
  - destruct (nth_error _ _) as [f|]; [|exact Hl]. cbn [VCompassLocalLoop.app].
    destruct (local_lands_modes f result (VCompassLocalLoop.app v)) as (_ & _ & -> & _).
    exact Hl.
Qed.

Lemma pollEffectStatus_location {P : Type} (st : State P) :
  userLocation (VCompassLocalLoop.pollEffectStatus st) = userLocation st
  /\ isTracking (VCompassLocalLoop.pollEffectStatus st) = isTracking st.
Proof.
  unfold VCompassLocalLoop.pollEffectStatus.
  destruct (VCompassLocalLoop.pollWanted st); [split; reflexivity|].
  destruct (negb (isTracking st)); split; reflexivity.
Qed.

Lemma local_step_app (v : VCompassLocalLoop.World) ev :
  userLocation (VCompassLocalLoop.app (VCompassLocalLoop.step v ev))
  = userLocation (VCompassLocalLoop.app (VCompassLocalLoop.handle ev v))
  /\ isTracking (VCompassLocalLoop.app (VCompassLocalLoop.step v ev))
     = isTracking (VCompassLocalLoop.app (VCompassLocalLoop.handle ev v))
  /\ detectedPlane (VCompassLocalLoop.app (VCompassLocalLoop.step v ev))
     = detectedPlane (VCompassLocalLoop.app (VCompassLocalLoop.handle ev v)).
Proof.
  unfold VCompassLocalLoop.step, VCompassLocalLoop.commit.
  cbn [VCompassLocalLoop.app].
  destruct (VCompassLocalLoop.pollDepsChanged _ _); [|repeat split].
  unfold VCompassLocalLoop.pollEffectStatus.
  destruct (VCompassLocalLoop.pollWanted _); [repeat split|].
  destruct (negb (isTracking _)); repeat split.
Qed.

Lemma handle_poll_timer ev (v : VCompassLocalLoop.World) :
  VCompassLocalLoop.pollInterval (VCompassLocalLoop.timers (VCompassLocalLoop.handle ev v))
  = VCompassLocalLoop.pollInterval (VCompassLocalLoop.timers v).
Proof.
  destruct ev; cbn; try reflexivity.
  - destruct (VCompassLocalLoop.animationFrame (VCompassLocalLoop.timers v)); reflexivity.
  - destruct (VCompassLocalLoop.pollInterval (VCompassLocalLoop.timers v)) eqn:E;
      exact E.
  - destruct (nth_error (VCompassLocalLoop.inFlight v) k); reflexivity.
Qed.

Lemma pollEffectStatus_pollWanted {P : Type} (c : bool) (st : State P) :
  VCompassLocalLoop.pollWanted (if c then VCompassLocalLoop.pollEffectStatus st else st)
  = VCompassLocalLoop.pollWanted st.
Proof.
  destruct c; [|reflexivity]. unfold VCompassLocalLoop.pollWanted.
  destruct (pollEffectStatus_location st) as [-> ->]. reflexivity.
Qed.

Lemma local_step_invariant v ev :
  localInvariant v -> localInvariant (VCompassLocalLoop.step v ev).
Proof.
  intros [Hp Hf]. split; [|exact (local_step_frameFollows v ev Hf)].
  pose proof (handle_poll_timer ev v) as Ht.
  unfold VCompassLocalLoop.step, VCompassLocalLoop.commit, useEffect.
  cbn [VCompassLocalLoop.app VCompassLocalLoop.timers VCompassLocalLoop.pollInterval].
  rewrite pollEffectStatus_pollWanted.
  destruct (VCompassLocalLoop.pollDepsChanged _ _) eqn:E; [reflexivity|].
  rewrite Ht, Hp. symmetry. now apply local_poll_deps_sound.
Qed.

Lemma local_run_invariant events : forall v,
  localInvariant v -> localInvariant (VCompassLocalLoop.run v events).
Proof.
  induction events as [|ev events IH]; intros v Hv; [exact Hv|].
  cbn. apply IH. now apply local_step_invariant.
Qed.

End LocalFacts.

(** X9: once the position is known no event loses it, in either file of
    part_000: neither a click, nor a poll, nor the rotation, nor the
    narration clears [userLocation]; a refused position request stores the
    default position (10.5925, 76.1555), and an answered one stores the
    answer. *)
Theorem location_is_never_lost {M : JS.Math}
  (w : VCompassLoop.World) (v : VCompassLocalLoop.World)
  (ev : VCompassLoop.Event) (ev' : VCompassLocalLoop.Event) :
  (userLocation (VCompassLoop.app w) <> None ->
     userLocation (VCompassLoop.app (VCompassLoop.step w ev)) <> None)
  /\ (userLocation (VCompassLocalLoop.app v) <> None ->
        userLocation (VCompassLocalLoop.app (VCompassLocalLoop.step v ev')) <> None)
  /\ userLocation (VCompassLoop.app (VCompassLoop.step w VCompassLoop.LocationDenied))
     = Some (LatLng.make 10.5925 76.1555)
  /\ userLocation
       (VCompassLocalLoop.app (VCompassLocalLoop.step v VCompassLocalLoop.LocationDenied))
     = Some (LatLng.make 10.5925 76.1555)
  /\ (forall location,
        userLocation
          (VCompassLoop.app (VCompassLoop.step w (VCompassLoop.LocationFound location)))
        = Some location
        /\ userLocation
             (VCompassLocalLoop.app
                (VCompassLocalLoop.step v (VCompassLocalLoop.LocationFound location)))
           = Some location).
Proof.
  split.
  { intros Hl. destruct (step_cells w ev) as ((_ & _ & -> & _) & _).
    exact (handle_location ev w Hl). }
  split.
  { intros Hl. rewrite (proj1 (local_step_app v ev')).
    exact (local_handle_location ev' v Hl). }
  split.
  { destruct (step_cells w VCompassLoop.LocationDenied) as ((_ & _ & -> & _) & _).
    reflexivity. }
  split; [rewrite (proj1 (local_step_app v _)); reflexivity|].
  intros location. split.
  { destruct (step_cells w (VCompassLoop.LocationFound location))
      as ((_ & _ & -> & _) & _).
    reflexivity. }
  rewrite (proj1 (local_step_app v _)). reflexivity.
Qed.

(** X10: stopping the tracking in the second file of part_000 unschedules the
    poll (which was scheduled exactly when the position was known) and the
    needle rotation and sets the status line, but, unlike the first file, it
    stops no narration: the clip that sounds, the queue and the flag are as
    they were, and so are the notified plane and the bearing. *)
Theorem local_stop_keeps_narration {M : JS.Math}
  (events : list VCompassLocalLoop.Event) :
  let v := VCompassLocalLoop.run VCompassLocalLoop.mounted events in
  isTracking (VCompassLocalLoop.app v) = true ->
  let v' := VCompassLocalLoop.step v (VCompassLocalLoop.ClickStartStop true) in
  let st' := VCompassLocalLoop.app v' in
  VCompassLocalLoop.pollInterval (VCompassLocalLoop.timers v)
  = isSome (userLocation (VCompassLocalLoop.app v))
  /\ isTracking st' = false
  /\ VCompassLocalLoop.pollInterval (VCompassLocalLoop.timers v') = false
  /\ VCompassLocalLoop.animationFrame (VCompassLocalLoop.timers v') = false
  /\ statusMessage st' = "Tracking stopped."
  /\ playing st' = playing (VCompassLocalLoop.app v)
  /\ audioQueue st' = audioQueue (VCompassLocalLoop.app v)
  /\ isSpeaking st' = isSpeaking (VCompassLocalLoop.app v)
  /\ detectedPlane st' = detectedPlane (VCompassLocalLoop.app v)
  /\ bearing st' = bearing (VCompassLocalLoop.app v).
Proof.
  cbv zeta. intros Ht.
  assert (localInvariant VCompassLocalLoop.mounted) as H0 by (split; reflexivity).
  pose proof (local_run_invariant events _ H0) as Hv.
  pose proof (local_step_invariant _ (VCompassLocalLoop.ClickStartStop true) Hv) as Hv'.
  set (v := VCompassLocalLoop.run VCompassLocalLoop.mounted events) in *.
  destruct Hv as [Hp _]. destruct Hv' as [Hp' Hf'].
  unfold VCompassLocalLoop.pollWanted in Hp, Hp'.
  unfold VCompassLocalLoop.rotateWanted in Hf'.
  rewrite Ht in Hp. cbn [andb] in Hp.
  split; [exact Hp|].
  assert (isTracking
            (VCompassLocalLoop.app
               (VCompassLocalLoop.step v (VCompassLocalLoop.ClickStartStop true)))
          = false) as Ht'.
  { destruct (local_step_app v (VCompassLocalLoop.ClickStartStop true)) as (_ & -> & _).
    cbn. unfold VCompassLocal.handleStartStopClick.
    destruct (isSome (userLocation (VCompassLocalLoop.app v))); cbn; rewrite Ht;
      reflexivity. }
  rewrite Ht' in Hp', Hf'. cbn [andb] in Hp', Hf'.
  split; [exact Ht'|]. split; [exact Hp'|]. split; [exact Hf'|].
  unfold VCompassLocalLoop.step, VCompassLocalLoop.commit.
  cbn [VCompassLocalLoop.app VCompassLocalLoop.timers VCompassLocalLoop.handle].
  unfold VCompassLocalLoop.pollDepsChanged, VCompassLocalLoop.pollEffectStatus,
    VCompassLocalLoop.pollWanted, VCompassLocal.handleStartStopClick.
  destruct (isSome (userLocation (VCompassLocalLoop.app v))); cbn; rewrite Ht; cbn;
    repeat split.
Qed.

Lemma local_stop_keeps_narration_witness :
  let M := RefMath.math in
  let v := VCompassLocalLoop.run VCompassLocalLoop.mounted Example3.localEvents in
  playing (VCompassLocalLoop.app v) = ["North"]
  /\ playing (VCompassLocalLoop.app
                (VCompassLocalLoop.step v (VCompassLocalLoop.ClickStartStop true)))
     = ["North"]
  /\ VCompassLocalLoop.pollInterval
       (VCompassLocalLoop.timers
          (VCompassLocalLoop.step v (VCompassLocalLoop.ClickStartStop true))) = false.
Proof.
  cbv zeta.
  destruct (@local_stop_keeps_narration RefMath.math Example3.localEvents)
    as (_ & _ & Hp & _ & _ & Hpl & _).
  - vm_compute. reflexivity.
  - split; [vm_compute; reflexivity|]. split; [|exact Hp].
    rewrite Hpl. vm_compute. reflexivity.
Defined.



(** ** Sequences of polls *)

Section PollRunFacts.

Context {M : JS.Math}.

Lemma local_poll_location result (st : State Detected) :
  userLocation (VCompassLocal.fetchRealPlaneData result st) = userLocation st.
Proof. exact (proj2 (local_poll_modes result st)). Qed.

Lemma identity_cases (cell : option Detected) id :
  (identityOf cell = Some id
   /\ match identityOf cell with Some n => String.eqb n id | None => false end = true)
  \/ (identityOf cell <> Some id
      /\ match identityOf cell with Some n => String.eqb n id | None => false end = false).
Proof.
  destruct (identityOf cell) as [n|].
  - destruct (String.eqb_spec n id) as [->|Hne]; [left|right]; split; congruence.
  - right. split; [discriminate|reflexivity].
Qed.

Lemma polls_announcements location batches : forall st : State Detected,
  userLocation st = Some location ->
  notificationPlays (polls batches st)
  = (notificationPlays st
     + announcements (identityOf (detectedPlane st))
         (map (fun planes => identityOf (candidate location planes)) batches))%nat.
Proof.
  induction batches as [|planes batches IH]; intros st Hloc.
  - cbn. now rewrite Nat.add_0_r.
  - cbn [polls fold_left map].
    pose proof (poll_debounce st location planes Hloc) as [Hloc' H]. cbv zeta in *.
    change (fold_left _ batches ?s) with (polls batches s).
    rewrite (IH _ Hloc').
    destruct (candidate location planes) as [c|]; cbn [identityOf option_map].
    + rewrite announcements_step.
      destruct H as [Hsame Hnew].
      destruct (identity_cases (detectedPlane st) (icao24 (plane c))) as [[Hid ->]|[Hid ->]].
      * destruct (Hsame Hid) as (-> & _ & ->). reflexivity.
      * destruct (Hnew Hid) as (-> & ->). cbn. lia.
    + destruct H as [-> ->]. reflexivity.
Qed.

Lemma localPolls_announcements location batches : forall st : State Detected,
  userLocation st = Some location ->
  notificationPlays (localPolls batches st)
  = (notificationPlays st
     + announcements (identityOf (detectedPlane st))
         (map (fun planes => identityOf (candidate location planes)) batches))%nat.
Proof.
  induction batches as [|planes batches IH]; intros st Hloc.
  - cbn. now rewrite Nat.add_0_r.
  - cbn [localPolls fold_left map].
    pose proof (local_poll_debounce st location planes Hloc) as H. cbv zeta in *.
    assert (userLocation (VCompassLocal.fetchRealPlaneData (FetchOk planes) st)
            = Some location) as Hloc'
      by (now rewrite local_poll_location).
    change (fold_left _ batches ?s) with (localPolls batches s).
    rewrite (IH _ Hloc').
    destruct (candidate location planes) as [c|]; cbn [identityOf option_map].
    + rewrite announcements_step.
      destruct H as [Hsame Hnew].
      destruct (identity_cases (detectedPlane st) (icao24 (plane c))) as [[Hid ->]|[Hid ->]].
      * destruct (Hsame Hid) as (-> & ->). reflexivity.
      * destruct (Hnew Hid) as (-> & ->). cbn. lia.
    + destruct H as [-> ->]. reflexivity.
Qed.

(** The compass target with the order of the list. *)
Lemma firstNearest_step location seen acc p :
  firstNearest location seen acc ->
  firstNearest location (seen ++ [p]) (scanPlane location acc p).
Proof.
  unfold firstNearest. intros Inv.
  destruct (scanPlane_compass location acc p) as [-> ->].
  destruct (closestPlaneForCompass acc) as [best|].
  - destruct Inv as (-> & before & after & -> & Hb & Ha).
    destruct (distanceTo location p <? distanceTo location best) eqn:E.
    + split; [reflexivity|].
      exists (before ++ best :: after)%list, []. split; [reflexivity|].
      split; [|intros q []].
      intros q Hq. apply not_true_is_false. intros Hle.
      apply in_app_or in Hq. destruct Hq as [Hq|[<-|Hq]].
      * pose proof (ltb_leb _ _ (leb_ltb_trans _ _ _ Hle E)) as Hc.
        rewrite (Hb q Hq) in Hc. discriminate.
      * pose proof (leb_ltb_trans _ _ _ Hle E) as Hc.
        rewrite ltb_irrefl in Hc. discriminate.
      * pose proof (leb_ltb_trans _ _ _ Hle E) as Hc.
        rewrite (Ha q Hq) in Hc. discriminate.
    + split; [reflexivity|].
      exists before, (after ++ [p])%list. split; [now rewrite <- app_assoc|].
      split; [exact Hb|].
      intros q Hq. apply in_app_or in Hq. destruct Hq as [Hq|[<-|[]]]; auto.
  - destruct Inv as (-> & Hnone).
    destruct (distanceTo location p <? infinity) eqn:E.
    + split; [reflexivity|]. exists seen, []. split; [reflexivity|].
      split; [|intros q []].
      intros q Hq. apply not_true_is_false. intros Hle.
      pose proof (leb_ltb_trans _ _ _ Hle E) as Hc.
      rewrite (Hnone q Hq) in Hc. discriminate.
    + split; [reflexivity|].
      intros q Hq. apply in_app_or in Hq. destruct Hq as [Hq|[<-|[]]]; auto.
Qed.

Lemma firstNearest_fold location planes : forall seen acc,
  firstNearest location seen acc ->
  firstNearest location (seen ++ planes) (fold_left (scanPlane location) planes acc).
Proof.
  induction planes as [|p planes IH]; intros seen acc Inv; cbn [fold_left].
  - now rewrite app_nil_r.
  - replace (seen ++ p :: planes)%list with ((seen ++ [p]) ++ planes)%list
      by (now rewrite <- app_assoc).
    apply IH, firstNearest_step, Inv.
Qed.

Lemma firstNearest_scanPlanes location planes :
  firstNearest location planes (scanPlanes location planes).
Proof.
  apply (firstNearest_fold location planes [] noneYet).
  split; [reflexivity|]. intros q [].
Qed.

End PollRunFacts.

(** ** A poll is a request and its response *)

Lemma deps_unchanged_refl (st : State Detected) :
  VCompassLoop.pollDepsChanged st st = false
  /\ VCompassLoop.mockDepsChanged st st = false
  /\ VCompassLoop.scanDepsChanged st st = false.
Proof.
  unfold VCompassLoop.pollDepsChanged, VCompassLoop.mockDepsChanged,
    VCompassLoop.scanDepsChanged, VCompassLoop.sameLocation, VCompassLoop.samePlane.
  rewrite !Bool.eqb_reflx, !sameIdentity_refl. repeat split.
Qed.

Lemma commit_idle (w : VCompassLoop.World) msg fl :
  VCompassLoop.commit w (VCompassLoop.app w) fl
  = {| VCompassLoop.app := VCompassLoop.app w; VCompassLoop.timers := VCompassLoop.timers w;
       VCompassLoop.inFlight := fl |}
  /\ VCompassLoop.commit w (setStatusMessage msg (VCompassLoop.app w)) fl
     = {| VCompassLoop.app := setStatusMessage msg (VCompassLoop.app w);
          VCompassLoop.timers := VCompassLoop.timers w;
          VCompassLoop.inFlight := fl |}.
Proof.
  destruct (deps_unchanged_refl (VCompassLoop.app w)) as (Hp & Hm & Hs).
  unfold VCompassLoop.commit, useEffect.
  change (VCompassLoop.pollDepsChanged (VCompassLoop.app w)
            (setStatusMessage msg (VCompassLoop.app w)))
    with (VCompassLoop.pollDepsChanged (VCompassLoop.app w) (VCompassLoop.app w)).
  change (VCompassLoop.mockDepsChanged (VCompassLoop.app w)
            (setStatusMessage msg (VCompassLoop.app w)))
    with (VCompassLoop.mockDepsChanged (VCompassLoop.app w) (VCompassLoop.app w)).
  change (VCompassLoop.scanDepsChanged (VCompassLoop.app w)
            (setStatusMessage msg (VCompassLoop.app w)))
    with (VCompassLoop.scanDepsChanged (VCompassLoop.app w) (VCompassLoop.app w)).
  rewrite Hp, Hm, Hs. cbn [andb].
  destruct w as [st [tp tm ts] fl0]. split; reflexivity.
Qed.

Lemma without_length {A} (l : list A) : without (List.length l) l = l.
Proof. unfold without. rewrite firstn_all, skipn_all2 by lia. apply app_nil_r. Qed.

Lemma without_last {A} (l : list A) a : without (List.length l) (l ++ [a]) = l.
Proof.
  unfold without. rewrite firstn_app, firstn_all, Nat.sub_diag.
  rewrite skipn_all2 by (rewrite length_app; cbn; lia).
  cbn. now rewrite !app_nil_r.
Qed.

(** A tick whose response arrives before anything else happens: the event
    [Poll] is the event [FetchStarts] followed by the arrival of the response
    to the request it sent. *)
Lemma poll_is_a_request_answered_at_once {M : JS.Math} (w : VCompassLoop.World) result :
  VCompassLoop.step (VCompassLoop.step w VCompassLoop.FetchStarts)
    (VCompassLoop.FetchLands (List.length (VCompassLoop.inFlight w)) result)
  = VCompassLoop.step w (VCompassLoop.Poll result).
Proof.
  assert (VCompassLoop.step w VCompassLoop.FetchStarts
          = {| VCompassLoop.app := VCompassLoop.handle VCompassLoop.FetchStarts w;
               VCompassLoop.timers := VCompassLoop.timers w;
               VCompassLoop.inFlight := VCompassLoop.flights VCompassLoop.FetchStarts w |})
    as ->.
  { unfold VCompassLoop.step. cbn [VCompassLoop.handle].
    destruct (VCompassLoop.pollInterval (VCompassLoop.timers w)).
    - destruct (fetchStarts_status (VCompassLoop.app w)) as [->| ->].
      + exact (proj1 (commit_idle w "" _)).
      + exact (proj2 (commit_idle w _ _)).
    - exact (proj1 (commit_idle w "" _)). }
  unfold VCompassLoop.step, VCompassLoop.commit.
  cbn [VCompassLoop.handle VCompassLoop.flights VCompassLoop.app VCompassLoop.timers
       VCompassLoop.inFlight].
  destruct (VCompassLoop.pollInterval (VCompassLoop.timers w)).
  - rewrite (poll_starts_then_lands result (VCompassLoop.app w)).
    unfold VCompass.fetchStarts.
    destruct (userLocation (VCompassLoop.app w)) as [location|]; cbn [fst snd started].
    + rewrite nth_error_app2, Nat.sub_diag by lia. cbn [nth_error].
      rewrite without_last. reflexivity.
    + rewrite app_nil_r.
      assert (nth_error (VCompassLoop.inFlight w) (List.length (VCompassLoop.inFlight w))
              = None) as -> by (apply nth_error_None; lia).
      rewrite without_length. reflexivity.
  - assert (nth_error (VCompassLoop.inFlight w) (List.length (VCompassLoop.inFlight w))
            = None) as -> by (apply nth_error_None; lia).
    rewrite without_length. reflexivity.
Qed.

Lemma local_deps_unchanged_refl (st : State Detected) :
  VCompassLocalLoop.pollDepsChanged st st = false
  /\ VCompassLocalLoop.rotateDepsChanged st st = false.
Proof.
  unfold VCompassLocalLoop.pollDepsChanged, VCompassLocalLoop.rotateDepsChanged,
    VCompassLoop.sameLocation, VCompassLoop.samePlane.
  rewrite !Bool.eqb_reflx, !sameIdentity_refl. repeat split.
Qed.

Lemma local_poll_is_a_request_answered_at_once {M : JS.Math}
  (v : VCompassLocalLoop.World) result :
  VCompassLocalLoop.step (VCompassLocalLoop.step v VCompassLocalLoop.FetchStarts)
    (VCompassLocalLoop.FetchLands (List.length (VCompassLocalLoop.inFlight v)) result)
  = VCompassLocalLoop.step v (VCompassLocalLoop.Poll result).
Proof.
  destruct (local_deps_unchanged_refl (VCompassLocalLoop.app v)) as (Hp & Hr).
  assert (VCompassLocalLoop.step v VCompassLocalLoop.FetchStarts
          = VCompassLocalLoop.handle VCompassLocalLoop.FetchStarts v) as ->.
  { unfold VCompassLocalLoop.step, VCompassLocalLoop.commit, useEffect.
    cbn [VCompassLocalLoop.handle].
    destruct (VCompassLocalLoop.pollInterval (VCompassLocalLoop.timers v)).
    - cbn [VCompassLocalLoop.app VCompassLocalLoop.timers VCompassLocalLoop.inFlight].
      destruct (local_fetchStarts_status (VCompassLocalLoop.app v)) as [E|E];
        rewrite E; 
        try change (VCompassLocalLoop.pollDepsChanged (VCompassLocalLoop.app v)
                  (setStatusMessage "Scanning the skies to find your happiness..."
                     (VCompassLocalLoop.app v)))
          with (VCompassLocalLoop.pollDepsChanged (VCompassLocalLoop.app v)
                  (VCompassLocalLoop.app v));
        try change (VCompassLocalLoop.rotateDepsChanged (VCompassLocalLoop.app v)
                  (setStatusMessage "Scanning the skies to find your happiness..."
                     (VCompassLocalLoop.app v)))
          with (VCompassLocalLoop.rotateDepsChanged (VCompassLocalLoop.app v)
                  (VCompassLocalLoop.app v));
        rewrite Hp, Hr; cbn [andb];
        destruct (VCompassLocalLoop.timers v); reflexivity.
    - cbn [VCompassLocalLoop.app VCompassLocalLoop.timers VCompassLocalLoop.inFlight].
      rewrite Hp, Hr. cbn [andb]. destruct v as [st [tp ta tl] fl]. reflexivity. }
  unfold VCompassLocalLoop.step.
  cbn [VCompassLocalLoop.handle].
  destruct (VCompassLocalLoop.pollInterval (VCompassLocalLoop.timers v)) eqn:Hon.
  - cbn [VCompassLocalLoop.app VCompassLocalLoop.timers VCompassLocalLoop.inFlight].
    rewrite ?Hon.
    rewrite (local_poll_starts_then_lands result (VCompassLocalLoop.app v)).
    unfold VCompassLocal.fetchStarts.
    destruct (userLocation (VCompassLocalLoop.app v)) as [location|]; cbn [fst snd started].
    + rewrite nth_error_app2, Nat.sub_diag by lia. cbn [nth_error].
      cbn [VCompassLocalLoop.app VCompassLocalLoop.timers VCompassLocalLoop.inFlight].
      rewrite without_last. reflexivity.
    + rewrite app_nil_r.
      assert (nth_error (VCompassLocalLoop.inFlight v)
                (List.length (VCompassLocalLoop.inFlight v)) = None) as ->
        by (apply nth_error_None; lia).
      destruct v as [st [tp ta tl] fl]. reflexivity.
  - rewrite ?Hon.
    assert (nth_error (VCompassLocalLoop.inFlight v)
              (List.length (VCompassLocalLoop.inFlight v)) = None) as ->
      by (apply nth_error_None; lia).
    destruct v as [st [tp ta tl] fl]. reflexivity.
Qed.

(** What one response adds to the notification sounds. *)
Lemma lands_announcements {M : JS.Math} f planes (st : State Detected) :
  notificationPlays (VCompass.fetchLands f (FetchOk planes) st)
  = (notificationPlays st
     + announcements (identityOf (seenPlane f))
         [identityOf (candidate (seenLocation f) planes)])%nat
  /\ notificationPlays (VCompassLocal.fetchLands f (FetchOk planes) st)
     = (notificationPlays st
        + announcements (identityOf (seenPlane f))
            [identityOf (candidate (seenLocation f) planes)])%nat.
Proof.
  pose proof (lands_debounce f planes st) as H1.
  pose proof (local_lands_debounce f planes st) as H2. cbv zeta in H1, H2.
  destruct (candidate (seenLocation f) planes) as [c|]; cbn [identityOf option_map].
  - rewrite announcements_step. cbn [announcements].
    destruct H1 as [S1 N1]. destruct H2 as [S2 N2].
    destruct (identity_cases (seenPlane f) (icao24 (plane c))) as [[Hid ->]|[Hid ->]].
    + destruct (S1 Hid) as (_ & _ & ->). destruct (S2 Hid) as (_ & ->). split; lia.
    + destruct (N1 Hid) as (_ & ->). destruct (N2 Hid) as (_ & ->). split; lia.
  - destruct H1 as [_ ->]. destruct H2 as [_ ->]. cbn. split; lia.
Qed.

(** X12: every response counts against the plane of its own closure: it
    plays the notification sound exactly when it has a candidate whose
    identity is not that of the plane that was notified when its request
    left; in both files of part_000.  Hence, over polls each of which is
    answered before anything else happens, the sound is played once for every
    poll whose candidate has another identity than the plane the poll before
    left notified, a poll without candidate leaving nothing notified.  Since
    the candidate is the last qualifying sighting of the list, two aircraft
    that stay in range are announced again whenever the order of the list
    changes. *)
Theorem sound_for_every_change_of_candidate {M : JS.Math}
  (st : State Detected) (location : LatLng.t) (batches : list (list Plane)) :
  userLocation st = Some location ->
  let candidates := map (fun planes => identityOf (candidate location planes)) batches in
  (forall (f : Fetch) planes (s : State Detected),
     notificationPlays (VCompass.fetchLands f (FetchOk planes) s)
     = (notificationPlays s
        + announcements (identityOf (seenPlane f))
            [identityOf (candidate (seenLocation f) planes)])%nat
     /\ notificationPlays (VCompassLocal.fetchLands f (FetchOk planes) s)
        = (notificationPlays s
           + announcements (identityOf (seenPlane f))
               [identityOf (candidate (seenLocation f) planes)])%nat)
  /\ (forall (w : VCompassLoop.World) (v : VCompassLocalLoop.World) result,
        VCompassLoop.step w (VCompassLoop.Poll result)
        = VCompassLoop.step (VCompassLoop.step w VCompassLoop.FetchStarts)
            (VCompassLoop.FetchLands (List.length (VCompassLoop.inFlight w)) result)
        /\ VCompassLocalLoop.step v (VCompassLocalLoop.Poll result)
           = VCompassLocalLoop.step (VCompassLocalLoop.step v VCompassLocalLoop.FetchStarts)
               (VCompassLocalLoop.FetchLands
                  (List.length (VCompassLocalLoop.inFlight v)) result))
  /\ notificationPlays (polls batches st)
     = (notificationPlays st + announcements (identityOf (detectedPlane st)) candidates)%nat
  /\ notificationPlays (localPolls batches st)
     = (notificationPlays st + announcements (identityOf (detectedPlane st)) candidates)%nat.
Proof.
  intros Hloc. cbv zeta.
  split; [intros f planes s; apply lands_announcements|].
  split.
  { intros w v result. split; symmetry;
      [apply poll_is_a_request_answered_at_once
      |apply local_poll_is_a_request_answered_at_once]. }
  split; [now apply polls_announcements|now apply localPolls_announcements].
Qed.

Lemma sound_for_every_change_of_candidate_witness :
  let M := RefMath.math in
  map (fun planes => identityOf (candidate Example.user planes)) Example4.shuffled
  = [Some "far2"; Some "near1"; Some "far2"]
  /\ notificationPlays (polls Example4.shuffled Example.tracking) = 3%nat
  /\ notificationPlays (localPolls Example4.shuffled Example.tracking) = 3%nat.
Proof.
  cbv zeta.
  destruct (@sound_for_every_change_of_candidate RefMath.math Example.tracking
              Example.user Example4.shuffled eq_refl) as (_ & _ & H1 & H2).
  split; [vm_compute; reflexivity|].
  split; [rewrite H1|rewrite H2]; vm_compute; reflexivity.
Defined.

(** X13: the compass target is the first sighting of minimum distance in the
    order of the list: every sighting before it is farther (or has no
    distance), no sighting after it is strictly closer, so of two sightings
    at the same distance the earlier one is kept. *)
Theorem compass_keeps_the_first_of_the_nearest {M : JS.Math}
  (location : LatLng.t) (planes : list Plane) (nearest : Plane) :
  compassTarget location planes = Some nearest ->
  exists before after,
    planes = (before ++ nearest :: after)%list
    /\ (forall q, In q before ->
          (distanceTo location q <=? distanceTo location nearest) = false)
    /\ (forall q, In q after ->
          (distanceTo location q <? distanceTo location nearest) = false).
Proof.
  intros Ht. pose proof (firstNearest_scanPlanes location planes) as Inv.
  unfold firstNearest, compassTarget in *. rewrite Ht in Inv.
  destruct Inv as (_ & before & after & H). exists before, after. exact H.
Qed.

Lemma compass_keeps_the_first_of_the_nearest_witness :
  let M := RefMath.math in
  distanceTo Example.user Example.near = distanceTo Example.user Example4.twin
  /\ compassTarget Example.user [Example.far; Example.near; Example4.twin]
     = Some Example.near
  /\ exists before after,
       [Example.far; Example.near; Example4.twin]
       = (before ++ Example.near :: after)%list
       /\ (forall q, In q before ->
             (distanceTo Example.user q <=? distanceTo Example.user Example.near) = false)
       /\ (forall q, In q after ->
             (distanceTo Example.user q <? distanceTo Example.user Example.near) = false).
Proof.
  cbv zeta. split; [reflexivity|]. split; [vm_compute; reflexivity|].
  apply (@compass_keeps_the_first_of_the_nearest RefMath.math).
  vm_compute. reflexivity.
Defined.

(** X14: whenever a poll has a notification candidate it also has a compass
    target, and the target is at most as far as the candidate and inside the
    notification radius; so a poll that notifies a plane always commits a
    bearing, the one to a sighting that is not farther than the plane it
    notifies. *)
Theorem notifying_poll_commits_a_bearing {M : JS.Math}
  (st : State Detected) (location : LatLng.t) (planes : list Plane) (c : Detected) :
  userLocation st = Some location ->
  candidate location planes = Some c ->
  exists nearest,
    compassTarget location planes = Some nearest
    /\ In nearest planes
    /\ (distanceTo location nearest <=? distanceTo location (plane c)) = true
    /\ (distanceTo location nearest <? NOTIFICATION_RADIUS_KM) = true
    /\ bearing (VCompass.fetchRealPlaneData (FetchOk planes) st)
       = bearingTo location nearest
    /\ bearing (VCompassLocal.fetchRealPlaneData (FetchOk planes) st)
       = bearingTo location nearest.
Proof.
  intros Hloc Hc.
  destruct (candidate_qualifies location planes c Hc) as (Hin & Hq & _).
  unfold qualifies in Hq. apply andb_true_iff in Hq. destruct Hq as [Hd _].
  pose proof (compassInvariant_scanPlanes location planes) as Inv.
  pose proof (poll_bearing st location planes Hloc) as [Hb1 Hb2].
  unfold compassInvariant, compassTarget in *.
  destruct (closestPlaneForCompass (scanPlanes location planes)) as [n|].
  - destruct Inv as (Hn & _ & Hfin & Hmin). exists n.
    assert ((distanceTo location n <=? distanceTo location (plane c)) = true) as Hle.
    { specialize (Hmin _ Hin).
      destruct (ltb_isNumber _ _ Hd) as [Nc _].
      destruct (ltb_isNumber _ _ Hfin) as [Nn _].
      rewrite (ltb_negb_leb _ _ Nc Nn) in Hmin. now apply negb_false_iff in Hmin. }
    split; [reflexivity|]. split; [exact Hn|]. split; [exact Hle|].
    split; [exact (leb_ltb_trans _ _ _ Hle Hd)|]. split; assumption.
  - destruct Inv as (_ & Hnone). specialize (Hnone _ Hin).
    assert ((NOTIFICATION_RADIUS_KM <? infinity) = true) as Hinf by reflexivity.
    pose proof (ltb_trans (distanceTo location (plane c)) NOTIFICATION_RADIUS_KM
                  infinity Hd Hinf) as Hlt.
    rewrite Hlt in Hnone. discriminate.
Qed.

Lemma notifying_poll_commits_a_bearing_witness :
  let M := RefMath.math in
  candidate Example.user [Example.low; Example.far] = Some (withAltitudeFt Example.far)
  /\ exists nearest,
       compassTarget Example.user [Example.low; Example.far] = Some nearest
       /\ In nearest [Example.low; Example.far]
       /\ (distanceTo Example.user nearest
           <=? distanceTo Example.user (plane (withAltitudeFt Example.far))) = true
       /\ (distanceTo Example.user nearest <? NOTIFICATION_RADIUS_KM) = true
       /\ bearing (VCompass.fetchRealPlaneData (FetchOk [Example.low; Example.far])
                     Example.tracking)
          = bearingTo Example.user nearest
       /\ bearing (VCompassLocal.fetchRealPlaneData (FetchOk [Example.low; Example.far])
                     Example.tracking)
          = bearingTo Example.user nearest.
Proof.
  cbv zeta. split; [vm_compute; reflexivity|].
  apply (@notifying_poll_commits_a_bearing RefMath.math Example.tracking).
  - reflexivity.
  - vm_compute. reflexivity.
Defined.



(** ** The arithmetic of [calculateDistance]

    Rounding to nearest does not look at the sign: negating an operand of a
    product or a quotient negates the result, and a difference taken the
    other way round is the opposite number, except that both differences of
    equal numbers are [+0]. *)

Lemma round_aux_opp s m e l :
  binary_round_aux prec emax (negb s) m e l
  = SFopp (binary_round_aux prec emax s m e l).
Proof.
  unfold binary_round_aux.
  destruct (shr_fexp prec emax m e l) as [mrs' e'].
  destruct (shr_fexp prec emax _ e' loc_Exact) as [mrs'' e''].
  destruct (shr_m mrs''); [reflexivity| |reflexivity].
  destruct (e'' <=? emax - prec)%Z; reflexivity.
Qed.

Lemma round_opp s m e :
  binary_round prec emax (negb s) m e = SFopp (binary_round prec emax s m e).
Proof.
  unfold binary_round. destruct (shl_align _ _ _). apply round_aux_opp.
Qed.

Lemma normalize_opp m e :
  m <> 0%Z ->
  binary_normalize prec emax (- m) e false
  = SFopp (binary_normalize prec emax m e false).
Proof.
  destruct m as [|p|p]; intros H; [congruence| |]; cbn [Z.opp binary_normalize].
  - exact (round_opp false p e).
  - change false with (negb true) at 1.
    rewrite (round_opp true p e). destruct (binary_round prec emax true p e); reflexivity.
Qed.

Lemma SFopp_involutive x : SFopp (SFopp x) = x.
Proof. destruct x; cbn; rewrite ?negb_involutive; reflexivity. Qed.

Lemma SFsub_swap x y :
  SFsub prec emax y x = SFopp (SFsub prec emax x y)
  \/ SFsub prec emax y x = SFsub prec emax x y.
Proof.
  destruct x as [sx|sx| |sx mx ex], y as [sy|sy| |sy my ey];
    try (destruct sx, sy; cbn; auto; fail);
    try (destruct sx; cbn; auto; fail);
    try (destruct sy; cbn; auto; fail);
    try (cbn; auto; fail).
  cbn [SFsub]. rewrite (Z.min_comm ey ex).
  set (a := cond_Zopp sx (Zpos (fst (shl_align mx ex (Z.min ex ey))))).
  set (b := cond_Zopp sy (Zpos (fst (shl_align my ey (Z.min ex ey))))).
  destruct (Z.eq_dec (a - b) 0) as [E|E].
  - right. replace (b - a)%Z with 0%Z by lia. now rewrite E.
  - left. replace (b - a)%Z with (- (a - b))%Z by lia. now apply normalize_opp.
Qed.

Lemma SFmul_opp_l x y : SFmul prec emax (SFopp x) y = SFopp (SFmul prec emax x y).
Proof.
  destruct x as [sx|sx| |sx mx ex], y as [sy|sy| |sy my ey]; cbn;
    try reflexivity; try (destruct sx, sy; reflexivity).
  rewrite <- round_aux_opp. destruct sx, sy; reflexivity.
Qed.

Lemma SFmul_comm x y : SFmul prec emax x y = SFmul prec emax y x.
Proof.
  destruct x as [sx|sx| |sx mx ex], y as [sy|sy| |sy my ey]; cbn;
    try reflexivity; try (destruct sx, sy; reflexivity).
  now rewrite Pos.mul_comm, Z.add_comm, xorb_comm.
Qed.

Lemma SFdiv_opp_l x y : SFdiv prec emax (SFopp x) y = SFopp (SFdiv prec emax x y).
Proof.
  destruct x as [sx|sx| |sx mx ex], y as [sy|sy| |sy my ey]; cbn [SFdiv SFopp];
    try reflexivity; try (destruct sx, sy; reflexivity).
  destruct (SFdiv_core_binary prec emax (Z.pos mx) ex (Z.pos my) ey) as [[mz ez] lz].
  rewrite <- round_aux_opp. destruct sx, sy; reflexivity.
Qed.

Lemma sub_swap x y : y - x = - (x - y) \/ y - x = x - y.
Proof.
  destruct (SFsub_swap (Prim2SF x) (Prim2SF y)) as [H|H]; [left|right];
    apply Prim2SF_inj; rewrite ?opp_spec, !sub_spec; exact H.
Qed.

Lemma mul_opp_l x y : (- x) * y = - (x * y).
Proof.
  apply Prim2SF_inj. rewrite opp_spec, !mul_spec, opp_spec. apply SFmul_opp_l.
Qed.

Lemma mul_comm x y : x * y = y * x.
Proof. apply Prim2SF_inj. rewrite !mul_spec. apply SFmul_comm. Qed.

Lemma mul_opp_r x y : x * (- y) = - (x * y).
Proof. now rewrite mul_comm, mul_opp_l, (mul_comm y x). Qed.

Lemma div_opp_l x y : (- x) / y = - (x / y).
Proof.
  apply Prim2SF_inj. rewrite opp_spec, !div_spec, opp_spec. apply SFdiv_opp_l.
Qed.

Lemma opp_involutive x : - (- x) = x.
Proof. apply Prim2SF_inj. rewrite !opp_spec. apply SFopp_involutive. Qed.

Lemma mul_opp_opp x y : (- x) * (- y) = x * y.
Proof. now rewrite mul_opp_l, mul_opp_r, opp_involutive. Qed.

(** The half angle of a difference taken the other way round. *)
Lemma half_angle_swap x y :
  (x - y) * JS.PI / 180 / 2 = - ((y - x) * JS.PI / 180 / 2)
  \/ (x - y) * JS.PI / 180 / 2 = (y - x) * JS.PI / 180 / 2.
Proof.
  destruct (sub_swap y x) as [->| ->]; [left|right; reflexivity].
  now rewrite mul_opp_l, !div_opp_l.
Qed.

(** X16: [calculateDistance] is symmetric bit for bit: the distance from A
    to B is the same number as the distance from B to A, for every [Math]
    whose [sin] is odd at the two half differences the formula uses,
    whatever the coordinates (also infinite ones and NaN). *)
Theorem calculateDistance_symmetric {M : JS.Math} (lat1 lon1 lat2 lon2 : JS.number) :
  JS.sin (- ((lat2 - lat1) * JS.PI / 180 / 2))
  = - JS.sin ((lat2 - lat1) * JS.PI / 180 / 2) ->
  JS.sin (- ((lon2 - lon1) * JS.PI / 180 / 2))
  = - JS.sin ((lon2 - lon1) * JS.PI / 180 / 2) ->
  calculateDistance lat2 lon2 lat1 lon1 = calculateDistance lat1 lon1 lat2 lon2.
Proof.
  intros Hlat Hlon. unfold calculateDistance. cbv zeta.
  assert (JS.sin ((lat1 - lat2) * JS.PI / 180 / 2)
          * JS.sin ((lat1 - lat2) * JS.PI / 180 / 2)
          = JS.sin ((lat2 - lat1) * JS.PI / 180 / 2)
            * JS.sin ((lat2 - lat1) * JS.PI / 180 / 2)) as ->.
  { destruct (half_angle_swap lat1 lat2) as [->| ->]; [|reflexivity].
    rewrite Hlat. apply mul_opp_opp. }
  assert (forall c,
            c * JS.sin ((lon1 - lon2) * JS.PI / 180 / 2)
              * JS.sin ((lon1 - lon2) * JS.PI / 180 / 2)
            = c * JS.sin ((lon2 - lon1) * JS.PI / 180 / 2)
                * JS.sin ((lon2 - lon1) * JS.PI / 180 / 2)) as ->.
  { intros c. destruct (half_angle_swap lon1 lon2) as [->| ->]; [|reflexivity].
    rewrite Hlon, !mul_opp_r, mul_opp_l. apply opp_involutive. }
  rewrite (mul_comm (JS.cos (lat2 * JS.PI / 180)) (JS.cos (lat1 * JS.PI / 180))).
  reflexivity.
Qed.

Lemma calculateDistance_symmetric_witness :
  let M := RefMath.math in
  calculateDistance 10.2 76.4 10 76 = calculateDistance 10 76 10.2 76.4
  /\ (5 <? calculateDistance 10 76 10.2 76.4) = true.
Proof.
  cbv zeta. split; [|vm_compute; reflexivity].
  apply (@calculateDistance_symmetric RefMath.math); vm_compute; reflexivity.
Defined.

(** ** Polls and narration do not interfere *)

(** X17: detection and narration work on disjoint parts of the state, in the
    three files.  A poll, live or mock, whatever it finds and also when it
    notifies a plane, changes neither the queue, nor the speaking flag, nor
    the clip that sounds: a narration in progress is not interrupted.  A
    narration request and the end of a clip change neither the modes, nor the
    position, nor the notified plane, nor the bearing, nor the number of
    notification sounds played. *)
Theorem polls_and_narration_do_not_interfere {M : JS.Math}
  (st : State Detected) (sky : State SkyPing.Plane)
  (result : FetchResult) (now : N) (draw : MockDraw) (audio : string) :
  (sameAudio (VCompass.fetchRealPlaneData result st) st
   /\ sameAudio (mockFetchPlaneData now draw st) st
   /\ sameAudio (VCompassLocal.fetchRealPlaneData result st) st
   /\ sameAudio (SkyPing.mockFetchPlaneData now draw sky) sky)
  /\ (sameTracking (VCompass.handleSpeakDirection st) st
      /\ sameTracking (Playback.onEnded st) st
      /\ sameTracking (VCompassLocal.handleSpeakDirection st) st
      /\ sameTracking (TokenAudio.ended audio st) st
      /\ sameTracking (SkyPing.handleSpeakDirection sky) sky
      /\ sameTracking (TokenAudio.ended audio sky) sky).
Proof.
  split.
  - split; [apply poll_audio|]. split; [apply mock_audio|]. split.
    + unfold VCompassLocal.fetchRealPlaneData, sameAudio.
      handler_cases; repeat split.
    + unfold SkyPing.mockFetchPlaneData, sameAudio.
      handler_cases; repeat split.
  - split; [apply speak_tracking|]. split; [apply ended_tracking|].
    split; [apply local_speak_tracking|]. split; [apply token_ended_tracking|].
    split; [|apply token_ended_tracking].
    unfold SkyPing.handleSpeakDirection.
    destruct (isSpeaking sky); [apply sameTracking_refl|].
    unfold TokenAudio.playNextInQueue.
    match goal with
    | |- sameTracking (TokenAudio.playQueue ?q ?s) _ =>
        destruct (tokenQueue_tracking q s) as (?&?&?&?&?&?&?&?)
    end.
    repeat split; assumption.
Qed.
